(** * Verification of the irrigation controller sketch

    Shallow embedding of [src/arduino_irrigation/arduino_irrigation.ino]:
    the global variables of the sketch become one record, every function of
    the sketch a state transformer over it, and the hardware the sketch
    talks to (pins, external interrupts, the serial line, the sensors) is
    either a component of that record or an explicit input.

    Target: the sketch is written for the AVR boards (interrupt pins 2/3,
    I2C on A4/A5), where [int] is 16 bits, [long] is 32 bits and [double]
    is the 32-bit IEEE format. The integer conversions below are those of
    that target. *)

From Stdlib Require Import ZArith Lia Bool List.
From Stdlib Require Import Floats.SpecFloat.
From stdpp Require Import gmap strings list fin_maps.

Local Open Scope Z_scope.

(** ** Machine integers *)

Module Ctypes.

Definition to_uint8 (z : Z) : Z := z mod 2 ^ 8.
Definition to_uint16 (z : Z) : Z := z mod 2 ^ 16.
Definition to_uint32 (z : Z) : Z := z mod 2 ^ 32.
Definition to_int16 (z : Z) : Z := (z + 2 ^ 15) mod 2 ^ 16 - 2 ^ 15.
Definition to_int32 (z : Z) : Z := (z + 2 ^ 31) mod 2 ^ 32 - 2 ^ 31.

Definition INT_MIN : Z := - 2 ^ 15.
Definition INT_MAX : Z := 2 ^ 15 - 1.

(** [x] is a value of type [int]. *)
Definition is_int (x : Z) : Prop := INT_MIN <= x <= INT_MAX.
Definition is_uint8 (x : Z) : Prop := 0 <= x < 2 ^ 8.
Definition is_uint16 (x : Z) : Prop := 0 <= x < 2 ^ 16.
Definition is_long (x : Z) : Prop := - 2 ^ 31 <= x < 2 ^ 31.

(** Integer to bool ([!x], conditions) and back (promotion of a bool). *)
Definition int_of_bool (b : bool) : Z := if b then 1 else 0.

End Ctypes.
Export Ctypes.

(** ** Single precision floating point *)

Module Float32.

Definition prec : Z := 24.
Definition emax : Z := 128.

Definition of_int (n : Z) : spec_float := binary_normalize prec emax n 0 false.
Definition div : spec_float -> spec_float -> spec_float := SFdiv prec emax.
Definition mul : spec_float -> spec_float -> spec_float := SFmul prec emax.

Definition pos_infinity : spec_float := S754_infinity false.
Definition nan : spec_float := S754_nan.
Definition zero : spec_float := S754_zero false.

Definition is_zero (x : spec_float) : bool :=
  match x with S754_zero _ => true | _ => false end.

End Float32.

(** ** Constants of the sketch *)

Definition PIN_VALVE_MOTOR_A0 : Z := 8.
Definition PIN_VALVE_MOTOR_A1 : Z := 9.
Definition PIN_VALVE_MOTOR_B0 : Z := 10.
Definition PIN_VALVE_MOTOR_B1 : Z := 11.
Definition PIN_VALVE_OPEN_0 : Z := 4.
Definition PIN_VALVE_CLOSE_0 : Z := 5.
Definition PIN_VALVE_OPEN_1 : Z := 6.
Definition PIN_VALVE_CLOSE_1 : Z := 7.
Definition PIN_FLOW_METER_0 : Z := 2.
Definition PIN_FLOW_METER_1 : Z := 3.
(** [A3] is digital pin 17 on the boards the pin map is for. *)
Definition PIN_DOOR : Z := 17.

Definition C_REPORT_INTERVAL : Z := 4000.
Definition C_VALVE_OPEN_TIME : Z := 4100.
Definition C_VALVE_CLOSE_TIME : Z := 4100.
Definition C_MOIST_SENS_AMOUNT : Z := 16.
Definition C_FLOW_SENS_AMOUNT : Z := 2.
Definition C_MAX_FLOW_RATE : Z := 35.

(** [7.71] as the compiler stores it: the single closest to 771/100
    (see [C_FLOW_CALIBRATION_rounds_7_71]). *)
Definition C_FLOW_CALIBRATION : spec_float := S754_finite false 16169042 (-21).

(** The literal [1000.0]. *)
Definition f_1000 : spec_float := Float32.of_int 1000.

(** [map(x, in_min, in_max, out_min, out_max)] of the Arduino core, on
    [long]; the division truncates. *)
Definition map (x in_min in_max out_min out_max : Z) : Z :=
  Z.quot ((x - in_min) * (out_max - out_min)) (in_max - in_min) + out_min.

Definition SOILCALIBRATION (x : Z) : Z := map x 15000 9000 0 100.

(** ** JSON values *)

(** What the sketch prints: a document built member by member and
    serialised on one line. Objects keep their members in insertion
    order. *)
#[local] Unset Elimination Schemes.
Inductive JsonValue : Type :=
| JInt (n : Z)
| JFloat (f : spec_float)
| JBool (b : bool)
| JString (s : string)
| JArray (l : list JsonValue)
| JObject (members : list (string * JsonValue)).
#[local] Set Elimination Schemes.

(** What the sketch reads: a member of the parsed input document, as seen
    through the two queries the sketch makes of it. [isNull] is true for
    a JSON [null]; [as_int] is the result of [as<int>()], whatever the
    JSON type of the member is. A key that is not in the document is not
    in the map; [getMember] then returns a null variant. *)
Record JsonVariant : Type := mkVariant { isNull : bool; as_int : Z }.

(** A member holding the integer literal [n]. *)
Definition json_int (n : Z) : JsonVariant := {| isNull := false; as_int := n |}.
Definition json_null : JsonVariant := {| isNull := true; as_int := 0 |}.

(** The codes of [DeserializationError]; [Ok] is 0. *)
Inductive DeserializationError : Type :=
| Ok | IncompleteInput | InvalidInput | NoMemory | NotSupported | TooDeep.

Definition code (e : DeserializationError) : Z :=
  match e with
  | Ok => 0 | IncompleteInput => 1 | InvalidInput => 2
  | NoMemory => 3 | NotSupported => 4 | TooDeep => 5
  end.

(** [operator bool] of the error: true when there is an error. *)
Definition error_bool (e : DeserializationError) : bool :=
  negb (code e =? 0).

Definition c_str (e : DeserializationError) : string :=
  match e with
  | Ok => "Ok" | IncompleteInput => "IncompleteInput"
  | InvalidInput => "InvalidInput" | NoMemory => "NoMemory"
  | NotSupported => "NotSupported" | TooDeep => "TooDeep"
  end.

(** ** Global variables and hardware state *)

Record State : Type := {
  (* Input (From Serial) *)
  targetValvePos0 : Z;              (* uint8_t *)
  targetValvePos1 : Z;              (* uint8_t *)
  reportInterval : Z;               (* uint16_t *)
  (* Output (To Serial) *)
  soilHumidity : list Z;            (* uint16_t [C_MOIST_SENS_AMOUNT] *)
  avgSoilHumidity : Z;              (* uint16_t *)
  airHumidity : Z;                  (* uint16_t *)
  flowRate : list spec_float;       (* float [2] *)
  airTemperature : spec_float;
  enclosureTemperature : spec_float;
  doorOpen : bool;
  (* internal *)
  targetValvePosMsec0 : Z;          (* long *)
  targetValvePosMsec1 : Z;          (* long *)
  lastCheckTime : Z;                (* unsigned long *)
  lastTime : Z;                     (* unsigned long *)
  reportDelta : Z;                  (* int *)
  delta : Z;                        (* int *)
  motorState0 : Z;                  (* int: 0 = stop, -1 = closing, 1 = opening *)
  motorState1 : Z;
  pulseCount0 : Z;                  (* volatile byte *)
  pulseCount1 : Z;                  (* volatile byte *)
  (* hardware *)
  pinLevel : gmap Z bool;           (* levels written with digitalWrite *)
  intAttached0 : bool;              (* external interrupt 0 enabled *)
  intAttached1 : bool;              (* external interrupt 1 enabled *)
  Serial : list JsonValue           (* lines printed so far, oldest first *)
}.

(** Field updates. *)

Definition with_targetValvePos0 (v : Z) (st : State) : State :=
  {| targetValvePos0 := v; targetValvePos1 := targetValvePos1 st;
     reportInterval := reportInterval st; soilHumidity := soilHumidity st;
     avgSoilHumidity := avgSoilHumidity st; airHumidity := airHumidity st;
     flowRate := flowRate st; airTemperature := airTemperature st;
     enclosureTemperature := enclosureTemperature st; doorOpen := doorOpen st;
     targetValvePosMsec0 := targetValvePosMsec0 st;
     targetValvePosMsec1 := targetValvePosMsec1 st; lastCheckTime := lastCheckTime st;
     lastTime := lastTime st; reportDelta := reportDelta st; delta := delta st;
     motorState0 := motorState0 st; motorState1 := motorState1 st;
     pulseCount0 := pulseCount0 st; pulseCount1 := pulseCount1 st; pinLevel := pinLevel st;
     intAttached0 := intAttached0 st; intAttached1 := intAttached1 st; Serial := Serial st |}.

Definition with_targetValvePos1 (v : Z) (st : State) : State :=
  {| targetValvePos0 := targetValvePos0 st; targetValvePos1 := v;
     reportInterval := reportInterval st; soilHumidity := soilHumidity st;
     avgSoilHumidity := avgSoilHumidity st; airHumidity := airHumidity st;
     flowRate := flowRate st; airTemperature := airTemperature st;
     enclosureTemperature := enclosureTemperature st; doorOpen := doorOpen st;
     targetValvePosMsec0 := targetValvePosMsec0 st;
     targetValvePosMsec1 := targetValvePosMsec1 st; lastCheckTime := lastCheckTime st;
     lastTime := lastTime st; reportDelta := reportDelta st; delta := delta st;
     motorState0 := motorState0 st; motorState1 := motorState1 st;
     pulseCount0 := pulseCount0 st; pulseCount1 := pulseCount1 st; pinLevel := pinLevel st;
     intAttached0 := intAttached0 st; intAttached1 := intAttached1 st; Serial := Serial st |}.

Definition with_reportInterval (v : Z) (st : State) : State :=
  {| targetValvePos0 := targetValvePos0 st; targetValvePos1 := targetValvePos1 st;
     reportInterval := v; soilHumidity := soilHumidity st;
     avgSoilHumidity := avgSoilHumidity st; airHumidity := airHumidity st;
     flowRate := flowRate st; airTemperature := airTemperature st;
     enclosureTemperature := enclosureTemperature st; doorOpen := doorOpen st;
     targetValvePosMsec0 := targetValvePosMsec0 st;
     targetValvePosMsec1 := targetValvePosMsec1 st; lastCheckTime := lastCheckTime st;
     lastTime := lastTime st; reportDelta := reportDelta st; delta := delta st;
     motorState0 := motorState0 st; motorState1 := motorState1 st;
     pulseCount0 := pulseCount0 st; pulseCount1 := pulseCount1 st; pinLevel := pinLevel st;
     intAttached0 := intAttached0 st; intAttached1 := intAttached1 st; Serial := Serial st |}.

Definition with_soilHumidity (v : list Z) (st : State) : State :=
  {| targetValvePos0 := targetValvePos0 st; targetValvePos1 := targetValvePos1 st;
     reportInterval := reportInterval st; soilHumidity := v;
     avgSoilHumidity := avgSoilHumidity st; airHumidity := airHumidity st;
     flowRate := flowRate st; airTemperature := airTemperature st;
     enclosureTemperature := enclosureTemperature st; doorOpen := doorOpen st;
     targetValvePosMsec0 := targetValvePosMsec0 st;
     targetValvePosMsec1 := targetValvePosMsec1 st; lastCheckTime := lastCheckTime st;
     lastTime := lastTime st; reportDelta := reportDelta st; delta := delta st;
     motorState0 := motorState0 st; motorState1 := motorState1 st;
     pulseCount0 := pulseCount0 st; pulseCount1 := pulseCount1 st; pinLevel := pinLevel st;
     intAttached0 := intAttached0 st; intAttached1 := intAttached1 st; Serial := Serial st |}.

Definition with_avgSoilHumidity (v : Z) (st : State) : State :=
  {| targetValvePos0 := targetValvePos0 st; targetValvePos1 := targetValvePos1 st;
     reportInterval := reportInterval st; soilHumidity := soilHumidity st;
     avgSoilHumidity := v; airHumidity := airHumidity st; flowRate := flowRate st;
     airTemperature := airTemperature st; enclosureTemperature := enclosureTemperature st;
     doorOpen := doorOpen st; targetValvePosMsec0 := targetValvePosMsec0 st;
     targetValvePosMsec1 := targetValvePosMsec1 st; lastCheckTime := lastCheckTime st;
     lastTime := lastTime st; reportDelta := reportDelta st; delta := delta st;
     motorState0 := motorState0 st; motorState1 := motorState1 st;
     pulseCount0 := pulseCount0 st; pulseCount1 := pulseCount1 st; pinLevel := pinLevel st;
     intAttached0 := intAttached0 st; intAttached1 := intAttached1 st; Serial := Serial st |}.

Definition with_airHumidity (v : Z) (st : State) : State :=
  {| targetValvePos0 := targetValvePos0 st; targetValvePos1 := targetValvePos1 st;
     reportInterval := reportInterval st; soilHumidity := soilHumidity st;
     avgSoilHumidity := avgSoilHumidity st; airHumidity := v; flowRate := flowRate st;
     airTemperature := airTemperature st; enclosureTemperature := enclosureTemperature st;
     doorOpen := doorOpen st; targetValvePosMsec0 := targetValvePosMsec0 st;
     targetValvePosMsec1 := targetValvePosMsec1 st; lastCheckTime := lastCheckTime st;
     lastTime := lastTime st; reportDelta := reportDelta st; delta := delta st;
     motorState0 := motorState0 st; motorState1 := motorState1 st;
     pulseCount0 := pulseCount0 st; pulseCount1 := pulseCount1 st; pinLevel := pinLevel st;
     intAttached0 := intAttached0 st; intAttached1 := intAttached1 st; Serial := Serial st |}.

Definition with_flowRate (v : list spec_float) (st : State) : State :=
  {| targetValvePos0 := targetValvePos0 st; targetValvePos1 := targetValvePos1 st;
     reportInterval := reportInterval st; soilHumidity := soilHumidity st;
     avgSoilHumidity := avgSoilHumidity st; airHumidity := airHumidity st; flowRate := v;
     airTemperature := airTemperature st; enclosureTemperature := enclosureTemperature st;
     doorOpen := doorOpen st; targetValvePosMsec0 := targetValvePosMsec0 st;
     targetValvePosMsec1 := targetValvePosMsec1 st; lastCheckTime := lastCheckTime st;
     lastTime := lastTime st; reportDelta := reportDelta st; delta := delta st;
     motorState0 := motorState0 st; motorState1 := motorState1 st;
     pulseCount0 := pulseCount0 st; pulseCount1 := pulseCount1 st; pinLevel := pinLevel st;
     intAttached0 := intAttached0 st; intAttached1 := intAttached1 st; Serial := Serial st |}.

Definition with_airTemperature (v : spec_float) (st : State) : State :=
  {| targetValvePos0 := targetValvePos0 st; targetValvePos1 := targetValvePos1 st;
     reportInterval := reportInterval st; soilHumidity := soilHumidity st;
     avgSoilHumidity := avgSoilHumidity st; airHumidity := airHumidity st;
     flowRate := flowRate st; airTemperature := v;
     enclosureTemperature := enclosureTemperature st; doorOpen := doorOpen st;
     targetValvePosMsec0 := targetValvePosMsec0 st;
     targetValvePosMsec1 := targetValvePosMsec1 st; lastCheckTime := lastCheckTime st;
     lastTime := lastTime st; reportDelta := reportDelta st; delta := delta st;
     motorState0 := motorState0 st; motorState1 := motorState1 st;
     pulseCount0 := pulseCount0 st; pulseCount1 := pulseCount1 st; pinLevel := pinLevel st;
     intAttached0 := intAttached0 st; intAttached1 := intAttached1 st; Serial := Serial st |}.

Definition with_enclosureTemperature (v : spec_float) (st : State) : State :=
  {| targetValvePos0 := targetValvePos0 st; targetValvePos1 := targetValvePos1 st;
     reportInterval := reportInterval st; soilHumidity := soilHumidity st;
     avgSoilHumidity := avgSoilHumidity st; airHumidity := airHumidity st;
     flowRate := flowRate st; airTemperature := airTemperature st; enclosureTemperature := v;
     doorOpen := doorOpen st; targetValvePosMsec0 := targetValvePosMsec0 st;
     targetValvePosMsec1 := targetValvePosMsec1 st; lastCheckTime := lastCheckTime st;
     lastTime := lastTime st; reportDelta := reportDelta st; delta := delta st;
     motorState0 := motorState0 st; motorState1 := motorState1 st;
     pulseCount0 := pulseCount0 st; pulseCount1 := pulseCount1 st; pinLevel := pinLevel st;
     intAttached0 := intAttached0 st; intAttached1 := intAttached1 st; Serial := Serial st |}.

Definition with_doorOpen (v : bool) (st : State) : State :=
  {| targetValvePos0 := targetValvePos0 st; targetValvePos1 := targetValvePos1 st;
     reportInterval := reportInterval st; soilHumidity := soilHumidity st;
     avgSoilHumidity := avgSoilHumidity st; airHumidity := airHumidity st;
     flowRate := flowRate st; airTemperature := airTemperature st;
     enclosureTemperature := enclosureTemperature st; doorOpen := v;
     targetValvePosMsec0 := targetValvePosMsec0 st;
     targetValvePosMsec1 := targetValvePosMsec1 st; lastCheckTime := lastCheckTime st;
     lastTime := lastTime st; reportDelta := reportDelta st; delta := delta st;
     motorState0 := motorState0 st; motorState1 := motorState1 st;
     pulseCount0 := pulseCount0 st; pulseCount1 := pulseCount1 st; pinLevel := pinLevel st;
     intAttached0 := intAttached0 st; intAttached1 := intAttached1 st; Serial := Serial st |}.

Definition with_targetValvePosMsec0 (v : Z) (st : State) : State :=
  {| targetValvePos0 := targetValvePos0 st; targetValvePos1 := targetValvePos1 st;
     reportInterval := reportInterval st; soilHumidity := soilHumidity st;
     avgSoilHumidity := avgSoilHumidity st; airHumidity := airHumidity st;
     flowRate := flowRate st; airTemperature := airTemperature st;
     enclosureTemperature := enclosureTemperature st; doorOpen := doorOpen st;
     targetValvePosMsec0 := v; targetValvePosMsec1 := targetValvePosMsec1 st;
     lastCheckTime := lastCheckTime st; lastTime := lastTime st; reportDelta := reportDelta st;
     delta := delta st; motorState0 := motorState0 st; motorState1 := motorState1 st;
     pulseCount0 := pulseCount0 st; pulseCount1 := pulseCount1 st; pinLevel := pinLevel st;
     intAttached0 := intAttached0 st; intAttached1 := intAttached1 st; Serial := Serial st |}.

Definition with_targetValvePosMsec1 (v : Z) (st : State) : State :=
  {| targetValvePos0 := targetValvePos0 st; targetValvePos1 := targetValvePos1 st;
     reportInterval := reportInterval st; soilHumidity := soilHumidity st;
     avgSoilHumidity := avgSoilHumidity st; airHumidity := airHumidity st;
     flowRate := flowRate st; airTemperature := airTemperature st;
     enclosureTemperature := enclosureTemperature st; doorOpen := doorOpen st;
     targetValvePosMsec0 := targetValvePosMsec0 st; targetValvePosMsec1 := v;
     lastCheckTime := lastCheckTime st; lastTime := lastTime st; reportDelta := reportDelta st;
     delta := delta st; motorState0 := motorState0 st; motorState1 := motorState1 st;
     pulseCount0 := pulseCount0 st; pulseCount1 := pulseCount1 st; pinLevel := pinLevel st;
     intAttached0 := intAttached0 st; intAttached1 := intAttached1 st; Serial := Serial st |}.

Definition with_lastCheckTime (v : Z) (st : State) : State :=
  {| targetValvePos0 := targetValvePos0 st; targetValvePos1 := targetValvePos1 st;
     reportInterval := reportInterval st; soilHumidity := soilHumidity st;
     avgSoilHumidity := avgSoilHumidity st; airHumidity := airHumidity st;
     flowRate := flowRate st; airTemperature := airTemperature st;
     enclosureTemperature := enclosureTemperature st; doorOpen := doorOpen st;
     targetValvePosMsec0 := targetValvePosMsec0 st;
     targetValvePosMsec1 := targetValvePosMsec1 st; lastCheckTime := v;
     lastTime := lastTime st; reportDelta := reportDelta st; delta := delta st;
     motorState0 := motorState0 st; motorState1 := motorState1 st;
     pulseCount0 := pulseCount0 st; pulseCount1 := pulseCount1 st; pinLevel := pinLevel st;
     intAttached0 := intAttached0 st; intAttached1 := intAttached1 st; Serial := Serial st |}.

Definition with_lastTime (v : Z) (st : State) : State :=
  {| targetValvePos0 := targetValvePos0 st; targetValvePos1 := targetValvePos1 st;
     reportInterval := reportInterval st; soilHumidity := soilHumidity st;
     avgSoilHumidity := avgSoilHumidity st; airHumidity := airHumidity st;
     flowRate := flowRate st; airTemperature := airTemperature st;
     enclosureTemperature := enclosureTemperature st; doorOpen := doorOpen st;
     targetValvePosMsec0 := targetValvePosMsec0 st;
     targetValvePosMsec1 := targetValvePosMsec1 st; lastCheckTime := lastCheckTime st;
     lastTime := v; reportDelta := reportDelta st; delta := delta st;
     motorState0 := motorState0 st; motorState1 := motorState1 st;
     pulseCount0 := pulseCount0 st; pulseCount1 := pulseCount1 st; pinLevel := pinLevel st;
     intAttached0 := intAttached0 st; intAttached1 := intAttached1 st; Serial := Serial st |}.

Definition with_reportDelta (v : Z) (st : State) : State :=
  {| targetValvePos0 := targetValvePos0 st; targetValvePos1 := targetValvePos1 st;
     reportInterval := reportInterval st; soilHumidity := soilHumidity st;
     avgSoilHumidity := avgSoilHumidity st; airHumidity := airHumidity st;
     flowRate := flowRate st; airTemperature := airTemperature st;
     enclosureTemperature := enclosureTemperature st; doorOpen := doorOpen st;
     targetValvePosMsec0 := targetValvePosMsec0 st;
     targetValvePosMsec1 := targetValvePosMsec1 st; lastCheckTime := lastCheckTime st;
     lastTime := lastTime st; reportDelta := v; delta := delta st;
     motorState0 := motorState0 st; motorState1 := motorState1 st;
     pulseCount0 := pulseCount0 st; pulseCount1 := pulseCount1 st; pinLevel := pinLevel st;
     intAttached0 := intAttached0 st; intAttached1 := intAttached1 st; Serial := Serial st |}.

Definition with_delta (v : Z) (st : State) : State :=
  {| targetValvePos0 := targetValvePos0 st; targetValvePos1 := targetValvePos1 st;
     reportInterval := reportInterval st; soilHumidity := soilHumidity st;
     avgSoilHumidity := avgSoilHumidity st; airHumidity := airHumidity st;
     flowRate := flowRate st; airTemperature := airTemperature st;
     enclosureTemperature := enclosureTemperature st; doorOpen := doorOpen st;
     targetValvePosMsec0 := targetValvePosMsec0 st;
     targetValvePosMsec1 := targetValvePosMsec1 st; lastCheckTime := lastCheckTime st;
     lastTime := lastTime st; reportDelta := reportDelta st; delta := v;
     motorState0 := motorState0 st; motorState1 := motorState1 st;
     pulseCount0 := pulseCount0 st; pulseCount1 := pulseCount1 st; pinLevel := pinLevel st;
     intAttached0 := intAttached0 st; intAttached1 := intAttached1 st; Serial := Serial st |}.

Definition with_motorState0 (v : Z) (st : State) : State :=
  {| targetValvePos0 := targetValvePos0 st; targetValvePos1 := targetValvePos1 st;
     reportInterval := reportInterval st; soilHumidity := soilHumidity st;
     avgSoilHumidity := avgSoilHumidity st; airHumidity := airHumidity st;
     flowRate := flowRate st; airTemperature := airTemperature st;
     enclosureTemperature := enclosureTemperature st; doorOpen := doorOpen st;
     targetValvePosMsec0 := targetValvePosMsec0 st;
     targetValvePosMsec1 := targetValvePosMsec1 st; lastCheckTime := lastCheckTime st;
     lastTime := lastTime st; reportDelta := reportDelta st; delta := delta st;
     motorState0 := v; motorState1 := motorState1 st; pulseCount0 := pulseCount0 st;
     pulseCount1 := pulseCount1 st; pinLevel := pinLevel st; intAttached0 := intAttached0 st;
     intAttached1 := intAttached1 st; Serial := Serial st |}.

Definition with_motorState1 (v : Z) (st : State) : State :=
  {| targetValvePos0 := targetValvePos0 st; targetValvePos1 := targetValvePos1 st;
     reportInterval := reportInterval st; soilHumidity := soilHumidity st;
     avgSoilHumidity := avgSoilHumidity st; airHumidity := airHumidity st;
     flowRate := flowRate st; airTemperature := airTemperature st;
     enclosureTemperature := enclosureTemperature st; doorOpen := doorOpen st;
     targetValvePosMsec0 := targetValvePosMsec0 st;
     targetValvePosMsec1 := targetValvePosMsec1 st; lastCheckTime := lastCheckTime st;
     lastTime := lastTime st; reportDelta := reportDelta st; delta := delta st;
     motorState0 := motorState0 st; motorState1 := v; pulseCount0 := pulseCount0 st;
     pulseCount1 := pulseCount1 st; pinLevel := pinLevel st; intAttached0 := intAttached0 st;
     intAttached1 := intAttached1 st; Serial := Serial st |}.

Definition with_pulseCount0 (v : Z) (st : State) : State :=
  {| targetValvePos0 := targetValvePos0 st; targetValvePos1 := targetValvePos1 st;
     reportInterval := reportInterval st; soilHumidity := soilHumidity st;
     avgSoilHumidity := avgSoilHumidity st; airHumidity := airHumidity st;
     flowRate := flowRate st; airTemperature := airTemperature st;
     enclosureTemperature := enclosureTemperature st; doorOpen := doorOpen st;
     targetValvePosMsec0 := targetValvePosMsec0 st;
     targetValvePosMsec1 := targetValvePosMsec1 st; lastCheckTime := lastCheckTime st;
     lastTime := lastTime st; reportDelta := reportDelta st; delta := delta st;
     motorState0 := motorState0 st; motorState1 := motorState1 st; pulseCount0 := v;
     pulseCount1 := pulseCount1 st; pinLevel := pinLevel st; intAttached0 := intAttached0 st;
     intAttached1 := intAttached1 st; Serial := Serial st |}.

Definition with_pulseCount1 (v : Z) (st : State) : State :=
  {| targetValvePos0 := targetValvePos0 st; targetValvePos1 := targetValvePos1 st;
     reportInterval := reportInterval st; soilHumidity := soilHumidity st;
     avgSoilHumidity := avgSoilHumidity st; airHumidity := airHumidity st;
     flowRate := flowRate st; airTemperature := airTemperature st;
     enclosureTemperature := enclosureTemperature st; doorOpen := doorOpen st;
     targetValvePosMsec0 := targetValvePosMsec0 st;
     targetValvePosMsec1 := targetValvePosMsec1 st; lastCheckTime := lastCheckTime st;
     lastTime := lastTime st; reportDelta := reportDelta st; delta := delta st;
     motorState0 := motorState0 st; motorState1 := motorState1 st;
     pulseCount0 := pulseCount0 st; pulseCount1 := v; pinLevel := pinLevel st;
     intAttached0 := intAttached0 st; intAttached1 := intAttached1 st; Serial := Serial st |}.

Definition with_pinLevel (v : gmap Z bool) (st : State) : State :=
  {| targetValvePos0 := targetValvePos0 st; targetValvePos1 := targetValvePos1 st;
     reportInterval := reportInterval st; soilHumidity := soilHumidity st;
     avgSoilHumidity := avgSoilHumidity st; airHumidity := airHumidity st;
     flowRate := flowRate st; airTemperature := airTemperature st;
     enclosureTemperature := enclosureTemperature st; doorOpen := doorOpen st;
     targetValvePosMsec0 := targetValvePosMsec0 st;
     targetValvePosMsec1 := targetValvePosMsec1 st; lastCheckTime := lastCheckTime st;
     lastTime := lastTime st; reportDelta := reportDelta st; delta := delta st;
     motorState0 := motorState0 st; motorState1 := motorState1 st;
     pulseCount0 := pulseCount0 st; pulseCount1 := pulseCount1 st; pinLevel := v;
     intAttached0 := intAttached0 st; intAttached1 := intAttached1 st; Serial := Serial st |}.

Definition with_intAttached0 (v : bool) (st : State) : State :=
  {| targetValvePos0 := targetValvePos0 st; targetValvePos1 := targetValvePos1 st;
     reportInterval := reportInterval st; soilHumidity := soilHumidity st;
     avgSoilHumidity := avgSoilHumidity st; airHumidity := airHumidity st;
     flowRate := flowRate st; airTemperature := airTemperature st;
     enclosureTemperature := enclosureTemperature st; doorOpen := doorOpen st;
     targetValvePosMsec0 := targetValvePosMsec0 st;
     targetValvePosMsec1 := targetValvePosMsec1 st; lastCheckTime := lastCheckTime st;
     lastTime := lastTime st; reportDelta := reportDelta st; delta := delta st;
     motorState0 := motorState0 st; motorState1 := motorState1 st;
     pulseCount0 := pulseCount0 st; pulseCount1 := pulseCount1 st; pinLevel := pinLevel st;
     intAttached0 := v; intAttached1 := intAttached1 st; Serial := Serial st |}.

Definition with_intAttached1 (v : bool) (st : State) : State :=
  {| targetValvePos0 := targetValvePos0 st; targetValvePos1 := targetValvePos1 st;
     reportInterval := reportInterval st; soilHumidity := soilHumidity st;
     avgSoilHumidity := avgSoilHumidity st; airHumidity := airHumidity st;
     flowRate := flowRate st; airTemperature := airTemperature st;
     enclosureTemperature := enclosureTemperature st; doorOpen := doorOpen st;
     targetValvePosMsec0 := targetValvePosMsec0 st;
     targetValvePosMsec1 := targetValvePosMsec1 st; lastCheckTime := lastCheckTime st;
     lastTime := lastTime st; reportDelta := reportDelta st; delta := delta st;
     motorState0 := motorState0 st; motorState1 := motorState1 st;
     pulseCount0 := pulseCount0 st; pulseCount1 := pulseCount1 st; pinLevel := pinLevel st;
     intAttached0 := intAttached0 st; intAttached1 := v; Serial := Serial st |}.

Definition with_Serial (v : list JsonValue) (st : State) : State :=
  {| targetValvePos0 := targetValvePos0 st; targetValvePos1 := targetValvePos1 st;
     reportInterval := reportInterval st; soilHumidity := soilHumidity st;
     avgSoilHumidity := avgSoilHumidity st; airHumidity := airHumidity st;
     flowRate := flowRate st; airTemperature := airTemperature st;
     enclosureTemperature := enclosureTemperature st; doorOpen := doorOpen st;
     targetValvePosMsec0 := targetValvePosMsec0 st;
     targetValvePosMsec1 := targetValvePosMsec1 st; lastCheckTime := lastCheckTime st;
     lastTime := lastTime st; reportDelta := reportDelta st; delta := delta st;
     motorState0 := motorState0 st; motorState1 := motorState1 st;
     pulseCount0 := pulseCount0 st; pulseCount1 := pulseCount1 st; pinLevel := pinLevel st;
     intAttached0 := intAttached0 st; intAttached1 := intAttached1 st; Serial := v |}.

(** A pointer to one of the globals: how to read and how to write it. *)
Record ref (A : Type) : Type := mkRef { deref : State -> A; assign : A -> State -> State }.
Arguments mkRef {A} _ _.
Arguments deref {A} _ _.
Arguments assign {A} _ _ _.

Definition ref_targetValvePos0 : ref Z := mkRef targetValvePos0 with_targetValvePos0.
Definition ref_targetValvePos1 : ref Z := mkRef targetValvePos1 with_targetValvePos1.
Definition ref_targetValvePosMsec0 : ref Z :=
  mkRef targetValvePosMsec0 with_targetValvePosMsec0.
Definition ref_targetValvePosMsec1 : ref Z :=
  mkRef targetValvePosMsec1 with_targetValvePosMsec1.

(** The globals after the C runtime has initialised them, before [setup]. *)
Definition boot : State :=
  {| targetValvePos0 := 0; targetValvePos1 := 0; reportInterval := C_REPORT_INTERVAL;
     soilHumidity := repeat 0 (Z.to_nat C_MOIST_SENS_AMOUNT); avgSoilHumidity := 0;
     airHumidity := 0; flowRate := [Float32.zero; Float32.zero];
     airTemperature := Float32.zero; enclosureTemperature := Float32.zero;
     doorOpen := false;
     targetValvePosMsec0 := 0; targetValvePosMsec1 := 0; lastCheckTime := 0;
     lastTime := 0; reportDelta := 0; delta := 0; motorState0 := 0; motorState1 := 0;
     pulseCount0 := 0; pulseCount1 := 0;
     pinLevel := ∅; intAttached0 := false; intAttached1 := false; Serial := [] |}.

(** The channel-indexed view of the per-valve globals, for statements
    that range over both valves. *)
Definition targetValvePosOf (which : Z) (st : State) : Z :=
  if which =? 0 then targetValvePos0 st else targetValvePos1 st.
Definition targetValvePosMsecOf (which : Z) (st : State) : Z :=
  if which =? 0 then targetValvePosMsec0 st else targetValvePosMsec1 st.
Definition motorStateOf (which : Z) (st : State) : Z :=
  if which =? 0 then motorState0 st else motorState1 st.
Definition motorPinsOf (which : Z) : Z * Z :=
  if which =? 0 then (PIN_VALVE_MOTOR_A0, PIN_VALVE_MOTOR_A1)
  else (PIN_VALVE_MOTOR_B0, PIN_VALVE_MOTOR_B1).
Definition openLimitPinOf (which : Z) : Z :=
  if which =? 0 then PIN_VALVE_OPEN_0 else PIN_VALVE_OPEN_1.
Definition closeLimitPinOf (which : Z) : Z :=
  if which =? 0 then PIN_VALVE_CLOSE_0 else PIN_VALVE_CLOSE_1.

(** ** Hardware primitives of the Arduino core *)

Definition digitalWrite (pin : Z) (val : bool) (st : State) : State :=
  with_pinLevel (<[pin := val]> (pinLevel st)) st.

(** [digitalPinToInterrupt]: pin 2 is external interrupt 0, pin 3 is 1. *)
Definition digitalPinToInterrupt (pin : Z) : Z :=
  if pin =? 2 then 0 else if pin =? 3 then 1 else -1.

(** [attachInterrupt(interruptNum, handler, mode)] and
    [detachInterrupt(interruptNum)]: both take the NUMBER of the external
    interrupt (a [uint8_t]) and do nothing for a number that is not one
    of the two external interrupts. *)
Definition attachInterrupt (interruptNum : Z) (st : State) : State :=
  if interruptNum =? 0 then with_intAttached0 true st
  else if interruptNum =? 1 then with_intAttached1 true st
  else st.

Definition detachInterrupt (interruptNum : Z) (st : State) : State :=
  if interruptNum =? 0 then with_intAttached0 false st
  else if interruptNum =? 1 then with_intAttached1 false st
  else st.

(** Where the linker has put the two interrupt handlers. The sketch passes
    the handlers themselves to [detachInterrupt]; the call then receives
    their addresses converted to [uint8_t]. *)
Record Linkage : Type := {
  addr_pulseInterrupt0 : Z;
  addr_pulseInterrupt1 : Z
}.

(** What the sketch reads from the outside during one pass of [loop]. *)
Record Env : Type := {
  (* [None]: [Serial.available()] is 0. Otherwise the result of
     [deserializeJson] on the bytes that are waiting. *)
  serialInput : option (DeserializationError * gmap string JsonVariant);
  (* the three successive readings of [millis()] *)
  millis_check : Z;
  millis_delta : Z;
  millis_stamp : Z;
  (* level of an input pin; the limit switches pull their pin LOW *)
  digitalRead : Z -> bool;
  (* [AdcN.readADC_SingleEnded(channel)], a uint16_t *)
  readADC_SingleEnded : Z -> Z -> Z;
  (* [DhtN.readTemperature()] *)
  readTemperature : Z -> spec_float;
  (* [Dht0.readHumidity()] as converted by the assignment to the
     uint16_t global *)
  readHumidity : Z;
  (* the value the uninitialised loop index of [updateSoilHumidity]
     happens to hold *)
  soilIndex : Z
}.

(** ** The functions of the sketch *)

(** Interrupt handlers. *)
Definition pulseInterrupt0 (st : State) : State :=
  with_pulseCount0 (to_uint8 (pulseCount0 st + 1)) st.

Definition pulseInterrupt1 (st : State) : State :=
  with_pulseCount1 (to_uint8 (pulseCount1 st + 1)) st.

Definition printError (errorMsg : string) (st : State) : State :=
  with_Serial (Serial st ++ [JObject [("error", JString errorMsg)]]) st.

Definition printDebug (debugMsg : string) (st : State) : State :=
  with_Serial (Serial st ++ [JObject [("debug", JString debugMsg)]]) st.

Definition getJsonKeyValueAsInt
    (doc : gmap string JsonVariant) (key : string) (defaultVal : Z) : Z :=
  match doc !! key with
  | Some outVariant => if negb (isNull outVariant) then as_int outVariant else defaultVal
  | None => defaultVal
  end.

(** Selector other than 0 and 1: the pin variables are used
    uninitialised; the model stops there. *)
Definition setMotor (which direction : Z) (st : State) : option State :=
  '(outPin0, outPin1, st) ←
    (if which =? 0 then
       Some (PIN_VALVE_MOTOR_A0, PIN_VALVE_MOTOR_A1, with_motorState0 direction st)
     else if which =? 1 then
       Some (PIN_VALVE_MOTOR_B0, PIN_VALVE_MOTOR_B1, with_motorState1 direction st)
     else None);
  Some
    (if direction =? 0 then digitalWrite outPin1 false (digitalWrite outPin0 false st)
     else if direction =? -1 then digitalWrite outPin1 true (digitalWrite outPin0 false st)
     else if direction =? 1 then digitalWrite outPin1 false (digitalWrite outPin0 true st)
     else st).

(** [selectedMsec] is an [unsigned long *] onto a [long]: a stored value
    is converted to unsigned long and read back as a long. *)
Definition store_through_ulong (x : Z) : Z := to_int32 (to_uint32 x).

Definition setValve (which percentage : Z) (st : State) : option State :=
  '(selectedMsec, selectedPerc) ←
    (if which =? 0 then Some (ref_targetValvePosMsec0, ref_targetValvePos0)
     else if which =? 1 then Some (ref_targetValvePosMsec1, ref_targetValvePos1)
     else None);
  let direction :=
    if deref selectedPerc st <? percentage then 1
    else if percentage <? deref selectedPerc st then -1
    else 0 in
  let turnLength := if direction =? -1 then C_VALVE_CLOSE_TIME else C_VALVE_OPEN_TIME in
  let percentageChange := Z.abs (deref selectedPerc st - percentage) in
  let st :=
    if percentage =? 0 then
      assign selectedMsec (store_through_ulong (C_VALVE_CLOSE_TIME + 2000)) st
    else if percentage =? 100 then
      assign selectedMsec (store_through_ulong (C_VALVE_OPEN_TIME + 2000)) st
    else
      assign selectedMsec
        (store_through_ulong (to_int16 (Z.quot turnLength 100 * percentageChange))) st in
  let st := assign selectedPerc percentage st in
  setMotor which direction st.

Definition checkValves (digitalRead : Z -> bool) (st : State) : option State :=
  st ← (if (0 <? targetValvePosMsec0 st) && negb (motorState0 st =? 0) then
          Some (with_targetValvePosMsec0 (to_int32 (targetValvePosMsec0 st - delta st)) st)
        else if (targetValvePosMsec0 st <=? 0) && negb (motorState0 st =? 0) then
          setMotor 0 0 st
        else Some st);
  st ← (if (0 <? targetValvePosMsec1 st) && negb (motorState1 st =? 0) then
          Some (with_targetValvePosMsec1 (to_int32 (targetValvePosMsec1 st - delta st)) st)
        else if (targetValvePosMsec1 st <=? 0) && negb (motorState1 st =? 0) then
          setMotor 1 0 st
        else Some st);
  st ← (if negb (digitalRead PIN_VALVE_CLOSE_0) && (motorState0 st =? -1) then
          st ← setMotor 0 0 st; Some (with_targetValvePosMsec0 0 st)
        else Some st);
  st ← (if negb (digitalRead PIN_VALVE_OPEN_0) && (motorState0 st =? 1) then
          st ← setMotor 0 0 st; Some (with_targetValvePosMsec0 0 st)
        else Some st);
  st ← (if negb (digitalRead PIN_VALVE_CLOSE_1) && (motorState1 st =? -1) then
          st ← setMotor 1 0 st; Some (with_targetValvePosMsec1 0 st)
        else Some st);
  st ← (if negb (digitalRead PIN_VALVE_OPEN_1) && (motorState1 st =? 1) then
          st ← setMotor 1 0 st; Some (with_targetValvePosMsec1 0 st)
        else Some st);
  Some st.

Definition recieveStates
    (input : option (DeserializationError * gmap string JsonVariant))
    (st : State) : option State :=
  match input with
  | None => Some st
  | Some (err, jsonInput) =>
      (* [!err == DeserializationError::Ok]: the negation binds first *)
      if int_of_bool (negb (error_bool err)) =? code Ok then
        Some (printError (c_str err) st)
      else
        let valvePos0 :=
          getJsonKeyValueAsInt jsonInput "targetValvePos0" (targetValvePos0 st) in
        let valvePos1 :=
          getJsonKeyValueAsInt jsonInput "targetValvePos1" (targetValvePos1 st) in
        let st :=
          with_reportInterval
            (to_uint16
               (getJsonKeyValueAsInt jsonInput "reportInterval"
                  (to_int16 (reportInterval st)))) st in
        let st :=
          with_reportInterval
            (if 1000 <=? reportInterval st then reportInterval st
             else C_REPORT_INTERVAL) st in
        st ← (if negb (valvePos0 =? targetValvePos0 st)
              then setValve 0 (to_uint8 valvePos0) st else Some st);
        st ← (if negb (valvePos1 =? targetValvePos1 st)
              then setValve 1 (to_uint8 valvePos1) st else Some st);
        Some st
  end.

(** A store into [soilHumidity]; an index outside the array is a write
    to foreign memory, where the model stops. *)
Definition soilStore (soil : list Z) (i v : Z) : option (list Z) :=
  if (0 <=? i) && (i <? Z.of_nat (length soil))
  then Some (<[Z.to_nat i := v]> soil) else None.

(** [n] passes of the body of the reading loop, the index starting at [i]. *)
Fixpoint soilReadLoop (readADC : Z -> Z -> Z) (n : nat) (i : Z) (soil : list Z)
    : option (list Z) :=
  match n with
  | O => Some soil
  | S n' =>
      soil ← soilStore soil i (to_uint16 (SOILCALIBRATION (readADC 0 i)));
      soil ← soilStore soil (i + 4) (to_uint16 (SOILCALIBRATION (readADC 1 i)));
      soil ← soilStore soil (i + 8) (to_uint16 (SOILCALIBRATION (readADC 2 i)));
      soil ← soilStore soil (i + 12) (to_uint16 (SOILCALIBRATION (readADC 3 i)));
      soilReadLoop readADC n' (i + 1) soil
  end.

(** The iterated two-value average, in 16-bit unsigned arithmetic. *)
Definition soilAverage (soil : list Z) : Z :=
  fold_left (fun currentAvg s => to_uint16 (currentAvg + s) / 2)
            (tail soil) (hd 0 soil).

(** [for(int i; i < C_MOIST_SENS_AMOUNT / 4; i++)]: the index has no
    initialiser; [i0] is the value it holds on entry, and the body runs
    once for every [i] from [i0] up to 3. *)
Definition updateSoilHumidity (i0 : Z) (readADC : Z -> Z -> Z) (st : State)
    : option State :=
  soil ← soilReadLoop readADC (Z.to_nat (Z.quot C_MOIST_SENS_AMOUNT 4 - i0)) i0
           (soilHumidity st);
  Some (with_avgSoilHumidity (soilAverage soil) (with_soilHumidity soil st)).

(** [((1000.0 / reportDelta) * pulseCount) / C_FLOW_CALIBRATION] *)
Definition flowFormula (reportDelta pulseCount : Z) : spec_float :=
  Float32.div
    (Float32.mul (Float32.div f_1000 (Float32.of_int reportDelta))
                 (Float32.of_int pulseCount))
    C_FLOW_CALIBRATION.

Definition updateTemperatureHumidity (e : Env) (st : State) : State :=
  let st := with_enclosureTemperature (readTemperature e 1) st in
  let st := with_airTemperature (readTemperature e 0) st in
  with_airHumidity (readHumidity e) st.

Definition sendStates (timeStamp : Z) (st : State) : State :=
  with_Serial
    (Serial st ++
     [JObject
        [("timeStamp", JInt timeStamp);
         ("soilHumidity", JArray (List.map JInt (soilHumidity st)));
         ("flowRate", JArray (List.map JFloat (flowRate st)));
         ("targetValvePos", JArray [JInt (targetValvePos0 st); JInt (targetValvePos1 st)]);
         ("airHumidity", JInt (airHumidity st));
         ("airTemperature", JFloat (airTemperature st));
         ("enclosureTemperature", JFloat (enclosureTemperature st));
         ("doorOpen", JBool (doorOpen st));
         ("avgSoilHumidity", JInt (avgSoilHumidity st))]]) st.

Section Linked.

Variable lk : Linkage.

Definition setInterrupts (state : bool) (st : State) : State :=
  if state then
    attachInterrupt (digitalPinToInterrupt PIN_FLOW_METER_1)
      (attachInterrupt (digitalPinToInterrupt PIN_FLOW_METER_0) st)
  else
    detachInterrupt (to_uint8 (addr_pulseInterrupt1 lk))
      (detachInterrupt (to_uint8 (addr_pulseInterrupt0 lk)) st).

Definition updateFlowRate (st : State) : State :=
  let st := setInterrupts false st in
  let st :=
    with_flowRate
      (<[0%nat := flowFormula (reportDelta st) (pulseCount0 st)]> (flowRate st)) st in
  let st :=
    with_flowRate
      (<[1%nat := flowFormula (reportDelta st) (pulseCount1 st)]> (flowRate st)) st in
  let st := with_pulseCount0 0 st in
  let st := with_pulseCount1 0 st in
  setInterrupts true st.

Definition updateSensorValues (e : Env) (st : State) : option State :=
  st ← updateSoilHumidity (soilIndex e) (readADC_SingleEnded e) st;
  let st := updateFlowRate st in
  let st := updateTemperatureHumidity e st in
  Some (with_doorOpen (digitalRead e PIN_DOOR) st).

Definition setup (st : State) : State := setInterrupts true st.

Definition loop (e : Env) (st : State) : option State :=
  st ← recieveStates (serialInput e) st;
  let currentCheckTime := to_uint32 (millis_check e) in
  let st := with_delta (to_int16 (to_uint32 (millis_delta e - lastTime st))) st in
  let st := with_lastTime currentCheckTime st in
  let st := with_reportDelta (to_int16 (to_uint32 (currentCheckTime - lastCheckTime st))) st in
  st ← (if reportInterval st <=? to_uint32 (currentCheckTime - lastCheckTime st) then
          let st := with_lastCheckTime currentCheckTime st in
          st ← updateSensorValues e st;
          Some (sendStates (to_uint32 (millis_stamp e)) st)
        else Some st);
  checkValves (digitalRead e) st.

(** ** The flow read-out against the pulse interrupts

    [updateFlowRate] touches the state shared with the handlers in eight
    places. Between any two of them a pulse may arrive; its handler runs
    if the interrupt is enabled at that moment. The rest of [loop] touches
    neither the counters nor the interrupt enables, so the main program is
    represented by these eight steps, sample after sample. *)

Inductive FlowStep : Type :=
| Detach0 | Detach1 | Read0 | Read1 | Reset0 | Reset1 | Attach0 | Attach1.

Definition flowSteps : list FlowStep :=
  [Detach0; Detach1; Read0; Read1; Reset0; Reset1; Attach0; Attach1].

Definition doFlowStep (s : FlowStep) (st : State) : State :=
  match s with
  | Detach0 => detachInterrupt (to_uint8 (addr_pulseInterrupt0 lk)) st
  | Detach1 => detachInterrupt (to_uint8 (addr_pulseInterrupt1 lk)) st
  | Read0 =>
      with_flowRate
        (<[0%nat := flowFormula (reportDelta st) (pulseCount0 st)]> (flowRate st)) st
  | Read1 =>
      with_flowRate
        (<[1%nat := flowFormula (reportDelta st) (pulseCount1 st)]> (flowRate st)) st
  | Reset0 => with_pulseCount0 0 st
  | Reset1 => with_pulseCount1 0 st
  | Attach0 => attachInterrupt (digitalPinToInterrupt PIN_FLOW_METER_0) st
  | Attach1 => attachInterrupt (digitalPinToInterrupt PIN_FLOW_METER_1) st
  end.

Inductive Event : Type :=
| Pulse0      (* a falling edge on flow meter 0 *)
| Pulse1      (* a falling edge on flow meter 1 *)
| MainStep.   (* the main program performs its next step *)

(** The sketch state with the bookkeeping of the run: the position of the
    main program in [flowSteps], the counts the samples have read (newest
    first), the number of handler executions, and whether a counter has
    overflowed its byte. *)
Record Machine : Type := {
  globals : State;
  pc : nat;
  sampled0 : list Z;
  sampled1 : list Z;
  fired0 : Z;
  fired1 : Z;
  wrapped : bool
}.

Definition step (m : Machine) (ev : Event) : Machine :=
  match ev with
  | Pulse0 =>
      if intAttached0 (globals m) then
        {| globals := pulseInterrupt0 (globals m); pc := pc m;
           sampled0 := sampled0 m; sampled1 := sampled1 m;
           fired0 := fired0 m + 1; fired1 := fired1 m;
           wrapped := wrapped m || (pulseCount0 (globals m) =? 255) |}
      else m
  | Pulse1 =>
      if intAttached1 (globals m) then
        {| globals := pulseInterrupt1 (globals m); pc := pc m;
           sampled0 := sampled0 m; sampled1 := sampled1 m;
           fired0 := fired0 m; fired1 := fired1 m + 1;
           wrapped := wrapped m || (pulseCount1 (globals m) =? 255) |}
      else m
  | MainStep =>
      match flowSteps !! pc m with
      | Some s =>
          {| globals := doFlowStep s (globals m);
             pc := if (S (pc m) <? length flowSteps)%nat then S (pc m) else 0%nat;
             sampled0 := match s with
                         | Read0 => pulseCount0 (globals m) :: sampled0 m
                         | _ => sampled0 m
                         end;
             sampled1 := match s with
                         | Read1 => pulseCount1 (globals m) :: sampled1 m
                         | _ => sampled1 m
                         end;
             fired0 := fired0 m; fired1 := fired1 m; wrapped := wrapped m |}
      | None => m
      end
  end.

Definition run (trace : list Event) (m : Machine) : Machine :=
  fold_left step trace m.

(** After [setup]: counters at zero, both interrupts attached. *)
Definition started : Machine :=
  {| globals := setup boot; pc := 0; sampled0 := []; sampled1 := [];
     fired0 := 0; fired1 := 0; wrapped := false |}.

(** One whole sample with no pulse in between. *)
Definition sampleSteps : list Event := repeat MainStep (length flowSteps).

(** Both calls of [setInterrupts(false)] hit an external interrupt, and
    between them they hit both. *)
Definition detach_masks_both : Prop :=
  (to_uint8 (addr_pulseInterrupt0 lk) = 0 /\ to_uint8 (addr_pulseInterrupt1 lk) = 1) \/
  (to_uint8 (addr_pulseInterrupt0 lk) = 1 /\ to_uint8 (addr_pulseInterrupt1 lk) = 0).

Definition sumZ (l : list Z) : Z := fold_right Z.add 0 l.

End Linked.

(** ** [checkValves], statement by statement

    The six statements of [checkValves] as total functions; see
    [checkValves_blocks]. *)

Definition stopMotor0 (st : State) : State :=
  digitalWrite PIN_VALVE_MOTOR_A1 false
    (digitalWrite PIN_VALVE_MOTOR_A0 false (with_motorState0 0 st)).

Definition stopMotor1 (st : State) : State :=
  digitalWrite PIN_VALVE_MOTOR_B1 false
    (digitalWrite PIN_VALVE_MOTOR_B0 false (with_motorState1 0 st)).

Definition countDown0 (st : State) : State :=
  if (0 <? targetValvePosMsec0 st) && negb (motorState0 st =? 0) then
    with_targetValvePosMsec0 (to_int32 (targetValvePosMsec0 st - delta st)) st
  else if (targetValvePosMsec0 st <=? 0) && negb (motorState0 st =? 0) then stopMotor0 st
  else st.

Definition countDown1 (st : State) : State :=
  if (0 <? targetValvePosMsec1 st) && negb (motorState1 st =? 0) then
    with_targetValvePosMsec1 (to_int32 (targetValvePosMsec1 st - delta st)) st
  else if (targetValvePosMsec1 st <=? 0) && negb (motorState1 st =? 0) then stopMotor1 st
  else st.

Definition limitStop0 (pinLow : bool) (direction : Z) (st : State) : State :=
  if pinLow && (motorState0 st =? direction)
  then with_targetValvePosMsec0 0 (stopMotor0 st) else st.

Definition limitStop1 (pinLow : bool) (direction : Z) (st : State) : State :=
  if pinLow && (motorState1 st =? direction)
  then with_targetValvePosMsec1 0 (stopMotor1 st) else st.

(** What [checkValves] sees and changes of one valve: remaining time,
    motor state, and the levels of its two motor pins. *)
Definition ValveView : Type := Z * Z * option bool * option bool.

Definition viewOf (which : Z) (st : State) : ValveView :=
  (targetValvePosMsecOf which st, motorStateOf which st,
   pinLevel st !! fst (motorPinsOf which), pinLevel st !! snd (motorPinsOf which)).

Definition countDownView (delta : Z) (v : ValveView) : ValveView :=
  let '(msec, motor, p0, p1) := v in
  if (0 <? msec) && negb (motor =? 0) then (to_int32 (msec - delta), motor, p0, p1)
  else if (msec <=? 0) && negb (motor =? 0) then (msec, 0, Some false, Some false)
  else v.

Definition limitStopView (pinLow : bool) (direction : Z) (v : ValveView) : ValveView :=
  let '(msec, motor, p0, p1) := v in
  if pinLow && (motor =? direction) then (0, 0, Some false, Some false) else v.

(** One pass of [checkValves], seen from one valve. *)
Definition valveTick (delta : Z) (closeLow openLow : bool) (v : ValveView) : ValveView :=
  limitStopView openLow 1 (limitStopView closeLow (-1) (countDownView delta v)).

(** [checkValves] touches nothing but the remaining run times, the motor
    states and the levels of the four motor pins: every other global and
    the level of every other pin are as before. *)
Definition same_but_valves (st st' : State) : Prop :=
  targetValvePos0 st' = targetValvePos0 st /\
  targetValvePos1 st' = targetValvePos1 st /\
  reportInterval st' = reportInterval st /\
  soilHumidity st' = soilHumidity st /\
  avgSoilHumidity st' = avgSoilHumidity st /\
  airHumidity st' = airHumidity st /\
  flowRate st' = flowRate st /\
  airTemperature st' = airTemperature st /\
  enclosureTemperature st' = enclosureTemperature st /\
  doorOpen st' = doorOpen st /\
  lastCheckTime st' = lastCheckTime st /\
  lastTime st' = lastTime st /\
  reportDelta st' = reportDelta st /\
  delta st' = delta st /\
  pulseCount0 st' = pulseCount0 st /\
  pulseCount1 st' = pulseCount1 st /\
  intAttached0 st' = intAttached0 st /\
  intAttached1 st' = intAttached1 st /\
  Serial st' = Serial st /\
  (forall pin : Z,
     pin <> PIN_VALVE_MOTOR_A0 -> pin <> PIN_VALVE_MOTOR_A1 ->
     pin <> PIN_VALVE_MOTOR_B0 -> pin <> PIN_VALVE_MOTOR_B1 ->
     pinLevel st' !! pin = pinLevel st !! pin).

(** ** Decoding

    The member of the input document under [key], when it is there and
    not null: the value [getJsonKeyValueAsInt] uses in place of the
    default. *)

Definition memberInt (doc : gmap string JsonVariant) (key : string) : option Z :=
  match doc !! key with
  | Some v => if isNull v then None else Some (as_int v)
  | None => None
  end.

(** The two assignments to [reportInterval]. *)
Definition decodedInterval (doc : gmap string JsonVariant) (st : State) : Z :=
  let r := to_uint16 (default (to_int16 (reportInterval st)) (memberInt doc "reportInterval")) in
  if 1000 <=? r then r else C_REPORT_INTERVAL.


(** An environment with other serial input. *)
Definition with_serialInput
    (v : option (DeserializationError * gmap string JsonVariant)) (e : Env) : Env :=
  {| serialInput := v; millis_check := millis_check e; millis_delta := millis_delta e;
     millis_stamp := millis_stamp e; digitalRead := digitalRead e;
     readADC_SingleEnded := readADC_SingleEnded e; readTemperature := readTemperature e;
     readHumidity := readHumidity e; soilIndex := soilIndex e |}.

(** ** States and inputs used in the examples *)

(** No limit switch closed: every input pin reads HIGH. *)
Definition all_high : Z -> bool := fun _ => true.

(** The open-limit switch of valve 0 closed, every other pin HIGH. *)
Definition open0_low : Z -> bool := fun pin => negb (pin =? PIN_VALVE_OPEN_0).

(** Valve 0 sent from closed to 50 percent: opening, 2050 ms to run. *)
Definition valve0_half_open : State :=
  digitalWrite PIN_VALVE_MOTOR_A1 false
    (digitalWrite PIN_VALVE_MOTOR_A0 true
       (with_motorState0 1
          (with_targetValvePos0 50 (with_targetValvePosMsec0 2050 boot)))).

(** The same 2000 ms later, with 50 ms left to run, at the start of a
    pass of [loop] that comes 300 ms after the previous one (a pass that
    printed a report takes that long at 9600 baud). *)
Definition slow_pass : State :=
  with_delta 300 (with_targetValvePosMsec0 50 valve0_half_open).

(** The state [checkValves] leaves [slow_pass] in: 250 ms past the run
    time, motor still on. *)
Definition overrun : State := with_targetValvePosMsec0 (-250) slow_pass.

(** A quiet environment: no serial input, clock at zero, all pins HIGH,
    all sensors reading zero. *)
Definition quiet : Env :=
  {| serialInput := None; millis_check := 0; millis_delta := 0; millis_stamp := 0;
     digitalRead := all_high; readADC_SingleEnded := fun _ _ => 0;
     readTemperature := fun _ => Float32.zero; readHumidity := 0; soilIndex := 0 |}.

(** ** Flow rates

    The rate the formula yields for a window of zero milliseconds:
    [1000.0 / 0] is +infinity, which times a zero count is not a number. *)
Definition zeroWindowRate (pulseCount : Z) : spec_float :=
  if pulseCount =? 0 then Float32.nan else Float32.pos_infinity.

(** Handlers linked where the low byte of their addresses happens to be
    the number of their interrupt: the one linkage under which
    [setInterrupts(false)] does detach both. *)
Definition lucky_linkage : Linkage :=
  {| addr_pulseInterrupt0 := 256; addr_pulseInterrupt1 := 513 |}.

(** A linkage as the linker produces it: handlers somewhere in flash. *)
Definition usual_linkage : Linkage :=
  {| addr_pulseInterrupt0 := 1194; addr_pulseInterrupt1 := 1208 |}.

(** Three pulses counted on meter 0, none on meter 1, and a report window
    of zero milliseconds. *)
Definition zero_window : State := with_pulseCount0 3 (with_reportDelta 0 boot).

(** The byte values other than zero. *)
Definition nonzero_bytes : list Z := List.map Z.of_nat (seq 1 255).

Definition is_pos_finite (x : spec_float) : bool :=
  match x with S754_finite false _ _ => true | _ => false end.

(** Pulses per report interval at the maximum flow rate: 35 L/min times
    7.71 pulses per second per L/min, over 4000 ms. *)
Definition pulsesAtMaxFlow : Z :=
  C_MAX_FLOW_RATE * 771 * C_REPORT_INTERVAL / (100 * 1000).

(** ** Soil readings

    What the sixteen entries hold when every sensor has been read:
    entry [4 * a + c] is channel [c] of converter [a]. *)
Definition soilReading (readADC : Z -> Z -> Z) (k : Z) : Z :=
  to_uint16 (SOILCALIBRATION (readADC (k / 4) (k mod 4))).

Definition allSoilReadings (readADC : Z -> Z -> Z) : list Z :=
  List.map (fun k => soilReading readADC (Z.of_nat k)) (seq 0 16).

(** Converters that all read 12000 on every channel: 50 percent. *)
Definition damp : Z -> Z -> Z := fun _ _ => 12000.

(** ** Accounting of pulses

    The pulses a counter holds that no sample has read yet. Between the
    read and the reset of a counter its content has been read already. *)
Definition pending0 (m : Machine) : Z :=
  if (pc m =? 3)%nat || (pc m =? 4)%nat then 0 else pulseCount0 (globals m).

Definition pending1 (m : Machine) : Z :=
  if (pc m =? 4)%nat || (pc m =? 5)%nat then 0 else pulseCount1 (globals m).

(** What holds of the machine at every moment when both detaches work. *)
Definition accounted (lk : Linkage) (m : Machine) : Prop :=
  (pc m < 8)%nat /\
  0 <= pulseCount0 (globals m) < 256 /\
  0 <= pulseCount1 (globals m) < 256 /\
  (pc m = 1%nat ->
   (to_uint8 (addr_pulseInterrupt0 lk) = 0 -> intAttached0 (globals m) = false) /\
   (to_uint8 (addr_pulseInterrupt0 lk) = 1 -> intAttached1 (globals m) = false)) /\
  ((2 <= pc m <= 6)%nat ->
   intAttached0 (globals m) = false /\ intAttached1 (globals m) = false) /\
  (pc m = 7%nat -> intAttached1 (globals m) = false) /\
  (wrapped m = false ->
   sumZ (sampled0 m) + pending0 m = fired0 m /\
   sumZ (sampled1 m) + pending1 m = fired1 m).

(** 256 pulses on meter 0, then one sample. *)
Definition full_turn : list Event := repeat Pulse0 256 ++ sampleSteps.

(** A pulse on meter 0 between the read and the reset of its counter. *)
Definition pulse_in_sample : list Event :=
  [MainStep; MainStep; MainStep; Pulse0; MainStep; MainStep; MainStep; MainStep; MainStep].

(** ** States the sketch can be in

    The ranges the C types and the code keep: what every state reached
    from the initial one satisfies (see [reachable_well_formed]). *)
Definition is_direction (d : Z) : Prop := d = 0 \/ d = 1 \/ d = -1.

Definition well_formed (st : State) : Prop :=
  is_uint8 (targetValvePos0 st) /\
  is_uint8 (targetValvePos1 st) /\
  1000 <= reportInterval st < 2 ^ 16 /\
  length (soilHumidity st) = 16%nat /\
  length (flowRate st) = 2%nat /\
  is_uint8 (pulseCount0 st) /\
  is_uint8 (pulseCount1 st) /\
  is_direction (motorState0 st) /\
  is_direction (motorState1 st).

(** The states between the passes of [loop]: the state after [setup],
    the state after every whole pass, and the state after a handler that
    runs at such a moment. The states inside a pass are not among
    them. *)
Inductive reachable (lk : Linkage) : State -> Prop :=
| reach_setup : reachable lk (setup lk boot)
| reach_loop e st st' :
    reachable lk st -> loop lk e st = Some st' -> reachable lk st'
| reach_pulse0 st : reachable lk st -> reachable lk (pulseInterrupt0 st)
| reach_pulse1 st : reachable lk st -> reachable lk (pulseInterrupt1 st).

(** ** What a valve command sets

    The direction and the run time [setValve] computes from the current
    target [c] and the commanded percentage [p]. *)
Definition commandedDirection (c p : Z) : Z :=
  if c <? p then 1 else if p <? c then -1 else 0.

Definition commandedRunTime (c p : Z) : Z :=
  if (p =? 0) || (p =? 100) then 6100 else 41 * Z.abs (c - p).

(** The levels [setMotor] puts on the two motor pins for a direction. *)
Definition motorPinLevels (direction : Z) : option bool * option bool :=
  (Some (direction =? 1), Some (direction =? -1)).

(** The key under which a frame commands a valve. *)
Definition targetKey (which : Z) : string :=
  if which =? 0 then "targetValvePos0" else "targetValvePos1".

(** ** One pass of [loop], in parts *)

(** The time since the previous pass, as [loop] stores it in [delta]. *)
Definition passDelta (e : Env) (st : State) : Z :=
  to_int16 (to_uint32 (millis_delta e - lastTime st)).

(** The time since the last report, as [loop] compares it with the
    report interval. *)
Definition elapsedSinceReport (e : Env) (st : State) : Z :=
  to_uint32 (to_uint32 (millis_check e) - lastCheckTime st).

Definition reportDue (e : Env) (st : State) : bool :=
  reportInterval st <=? elapsedSinceReport e st.

(** The three assignments of [loop] before the test of the interval. *)
Definition timed (e : Env) (st : State) : State :=
  with_reportDelta (to_int16 (elapsedSinceReport e st))
    (with_lastTime (to_uint32 (millis_check e))
       (with_delta (passDelta e st) st)).

(** The line [sendStates] prints. *)
Definition reportLine (timeStamp : Z) (st : State) : JsonValue :=
  JObject
    [("timeStamp", JInt timeStamp);
     ("soilHumidity", JArray (List.map JInt (soilHumidity st)));
     ("flowRate", JArray (List.map JFloat (flowRate st)));
     ("targetValvePos", JArray [JInt (targetValvePos0 st); JInt (targetValvePos1 st)]);
     ("airHumidity", JInt (airHumidity st));
     ("airTemperature", JFloat (airTemperature st));
     ("enclosureTemperature", JFloat (enclosureTemperature st));
     ("doorOpen", JBool (doorOpen st));
     ("avgSoilHumidity", JInt (avgSoilHumidity st))].

(** The globals the valve code owns, and all the others. *)
Definition valveFields (st : State) : Z * Z * Z * Z * Z * Z * gmap Z bool :=
  (targetValvePos0 st, targetValvePos1 st, targetValvePosMsec0 st,
   targetValvePosMsec1 st, motorState0 st, motorState1 st, pinLevel st).

Record OtherFields : Type := {
  o_targets : Z * Z;
  o_reportInterval : Z;
  o_soil : list Z * Z;
  o_air : Z * spec_float * spec_float * bool;
  o_flowRate : list spec_float;
  o_times : Z * Z * Z * Z;
  o_pulses : Z * Z;
  o_attached : bool * bool;
  o_serial : list JsonValue
}.

Definition otherFields (st : State) : OtherFields :=
  {| o_targets := (targetValvePos0 st, targetValvePos1 st);
     o_reportInterval := reportInterval st;
     o_soil := (soilHumidity st, avgSoilHumidity st);
     o_air := (airHumidity st, airTemperature st, enclosureTemperature st, doorOpen st);
     o_flowRate := flowRate st;
     o_times := (lastCheckTime st, lastTime st, reportDelta st, delta st);
     o_pulses := (pulseCount0 st, pulseCount1 st);
     o_attached := (intAttached0 st, intAttached1 st);
     o_serial := Serial st |}.

(** The globals that [updateSensorValues] reads but does not write. *)
Definition keptBySensors (st : State) : Z * Z * Z * Z * Z * Z * Z * list JsonValue :=
  (targetValvePos0 st, targetValvePos1 st, reportInterval st,
   lastCheckTime st, lastTime st, reportDelta st, delta st, Serial st).

(** Passes of [loop], one environment per pass. *)
Fixpoint loops (lk : Linkage) (es : list Env) (st : State) : option State :=
  match es with
  | [] => Some st
  | e :: es' => st' ← loop lk e st; loops lk es' st'
  end.

(** Passes without serial input in each of which [delta], as [loop]
    computes it, is positive: the clock difference since the pass before,
    cut to a 16-bit [int], is 1 or more. A pass that comes 32768 to
    65535 ms after the one before does not qualify (its [delta] is
    negative or zero), nor does a pass within the same millisecond.
    [last] is the time of the pass before the first. *)
Fixpoint ticking (last : Z) (es : list Env) : Prop :=
  match es with
  | [] => True
  | e :: es' =>
      serialInput e = None /\
      0 < to_int16 (to_uint32 (millis_delta e - last)) /\
      ticking (to_uint32 (millis_check e)) es'
  end.

(** Two passes one millisecond apart, nothing on the serial line. *)
Definition two_quiet_passes : list Env :=
  [ {| serialInput := None; millis_check := 1; millis_delta := 1; millis_stamp := 1;
       digitalRead := all_high; readADC_SingleEnded := fun _ _ => 0;
       readTemperature := fun _ => Float32.zero; readHumidity := 0; soilIndex := 0 |};
    {| serialInput := None; millis_check := 2; millis_delta := 2; millis_stamp := 2;
       digitalRead := all_high; readADC_SingleEnded := fun _ _ => 0;
       readTemperature := fun _ => Float32.zero; readHumidity := 0; soilIndex := 0 |} ].

(** Valve 0 opening with one millisecond left to run. *)
Definition nearly_there : State := with_targetValvePosMsec0 1 valve0_half_open.

(** ** Motor pins against motor state

    The motor pins of a valve carry what [setMotor] writes for its motor
    state, or have never been written while the motor state is still the
    initial 0. *)
Definition pinsFollow (v : ValveView) : Prop :=
  let '(_, motor, p0, p1) := v in
  (p0, p1) = motorPinLevels motor \/ (motor = 0 /\ p0 = None /\ p1 = None).

(** ** Reports *)

(** The globals of the flow read-out. *)
Definition flowFields (st : State) : list spec_float * Z * Z :=
  (flowRate st, pulseCount0 st, pulseCount1 st).

(** A pass of [loop] 4000 ms after start, nothing on the serial line. *)
Definition report_time : Env :=
  {| serialInput := None; millis_check := 4000; millis_delta := 4000; millis_stamp := 4001;
     digitalRead := all_high; readADC_SingleEnded := damp;
     readTemperature := fun _ => Float32.zero; readHumidity := 40; soilIndex := 0 |}.

(** ** Reading printed lines *)

Definition jsonKeys (v : JsonValue) : list string :=
  match v with
  | JObject members => List.map fst members
  | _ => []
  end.

Fixpoint jsonAssoc (key : string) (members : list (string * JsonValue)) : option JsonValue :=
  match members with
  | [] => None
  | (k, v) :: members' => if String.eqb k key then Some v else jsonAssoc key members'
  end.

(** The member of an object under a key, the first if there are several. *)
Definition jsonMember (key : string) (v : JsonValue) : option JsonValue :=
  match v with
  | JObject members => jsonAssoc key members
  | _ => None
  end.

Definition arrayLength (v : option JsonValue) : option nat :=
  match v with
  | Some (JArray l) => Some (length l)
  | _ => None
  end.

Definition reportKeys : list string :=
  ["timeStamp"; "soilHumidity"; "flowRate"; "targetValvePos"; "airHumidity";
   "airTemperature"; "enclosureTemperature"; "doorOpen"; "avgSoilHumidity"].

Definition isErrorLine (v : JsonValue) : Prop :=
  exists msg, v = JObject [("error", JString msg)].

Definition isReportLine (v : JsonValue) : Prop :=
  jsonKeys v = reportKeys /\
  arrayLength (jsonMember "soilHumidity" v) = Some 16%nat /\
  arrayLength (jsonMember "flowRate" v) = Some 2%nat /\
  arrayLength (jsonMember "targetValvePos" v) = Some 2%nat.

(** A frame that commands both valves, received when a report is due. *)
Definition command_at_report_time : Env :=
  with_serialInput
    (Some (Ok, {[ "targetValvePos0" := json_int 30; "targetValvePos1" := json_int 70 ]}))
    report_time.

(** ** Soil readings, entry by entry *)

(** The array after [updateSoilHumidity] when the index starts at [i0]:
    entry [k] is read when its channel [k mod 4] is [i0] or above, and
    keeps its old value otherwise. *)
Definition soilAfter (i0 : Z) (readADC : Z -> Z -> Z) (soil : list Z) : list Z :=
  imap (fun k old => if i0 <=? Z.of_nat k mod 4 then soilReading readADC (Z.of_nat k) else old)
       soil.

(** A state whose soil array holds 7 in every entry, as left by earlier
    readings. *)
Definition stale_soil : State := with_soilHumidity (repeat 7 16) boot.

(** Raw readings of a sensor in the calibrated span. *)
Definition in_span (readADC : Z -> Z -> Z) : Prop :=
  forall a c, 9000 <= readADC a c <= 15000.

(** ** Handlers linked at ordinary addresses

    Neither handler address, converted to a byte, is the number of an
    external interrupt: both calls of [detachInterrupt] do nothing. *)
Definition detach_misses_both (lk : Linkage) : Prop :=
  to_uint8 (addr_pulseInterrupt0 lk) <> 0 /\ to_uint8 (addr_pulseInterrupt0 lk) <> 1 /\
  to_uint8 (addr_pulseInterrupt1 lk) <> 0 /\ to_uint8 (addr_pulseInterrupt1 lk) <> 1.

Definition isPulse0 (ev : Event) : bool :=
  match ev with Pulse0 => true | _ => false end.

Definition isPulse1 (ev : Event) : bool :=
  match ev with Pulse1 => true | _ => false end.

(** The number of events of a trace that satisfy [p]. *)
Definition countEvents (p : Event -> bool) (trace : list Event) : Z :=
  Z.of_nat (length (List.filter p trace)).

(** ** All windows an [int] can hold

    [P] holds of the [n] values from [w] upwards. *)
Fixpoint allFrom (P : Z -> bool) (n : nat) (w : Z) : bool :=
  match n with
  | O => true
  | S n' => P w && allFrom P n' (w + 1)
  end.

(** The rate computed from a count of zero is a zero with the sign of
    the window. *)
Definition quietRate (w : Z) : bool :=
  match flowFormula w 0 with
  | S754_zero s => Bool.eqb s (w <? 0)
  | _ => false
  end.

(** The state after a late report: the window has come out negative. *)
Definition late_report : State := with_reportDelta (-25536) boot.

(** ** Pulses that arrive inside a read-out

    The position of the main program in [flowSteps] after its next
    step. *)
Definition nextPc (pc : nat) : nat :=
  if (S pc <? length flowSteps)%nat then S pc else 0%nat.

(** The pulses of a trace on meter 0 that arrive after the read and
    before the reset of [pulseCount0], the main program starting at
    position [pc]. *)
Fixpoint inWindow0 (pc : nat) (trace : list Event) : Z :=
  match trace with
  | [] => 0
  | Pulse0 :: rest =>
      (if (pc =? 3)%nat || (pc =? 4)%nat then 1 else 0) + inWindow0 pc rest
  | Pulse1 :: rest => inWindow0 pc rest
  | MainStep :: rest => inWindow0 (nextPc pc) rest
  end.

(** The same for meter 1 and [pulseCount1]. *)
Fixpoint inWindow1 (pc : nat) (trace : list Event) : Z :=
  match trace with
  | [] => 0
  | Pulse0 :: rest => inWindow1 pc rest
  | Pulse1 :: rest =>
      (if (pc =? 4)%nat || (pc =? 5)%nat then 1 else 0) + inWindow1 pc rest
  | MainStep :: rest => inWindow1 (nextPc pc) rest
  end.

(** ** A pass that comes late *)

(** A pass of [loop] 40 seconds after the previous one, nothing on the
    serial line, no limit switch closed. *)
Definition late_pass : Env :=
  {| serialInput := None; millis_check := 40000; millis_delta := 40000;
     millis_stamp := 40001;
     digitalRead := all_high; readADC_SingleEnded := fun _ _ => 0;
     readTemperature := fun _ => Float32.zero; readHumidity := 0; soilIndex := 0 |}.

(** ** The two writes of [setMotor]

    [setMotor] sets its two pins one after the other. The state after the
    first [switch] and the first [digitalWrite] of the second: *)
Definition setMotor_first_write (which direction : Z) (st : State) : option State :=
  '(outPin0, outPin1, st) ←
    (if which =? 0 then
       Some (PIN_VALVE_MOTOR_A0, PIN_VALVE_MOTOR_A1, with_motorState0 direction st)
     else if which =? 1 then
       Some (PIN_VALVE_MOTOR_B0, PIN_VALVE_MOTOR_B1, with_motorState1 direction st)
     else None);
  Some
    (if direction =? 0 then digitalWrite outPin0 false st
     else if direction =? -1 then digitalWrite outPin0 false st
     else if direction =? 1 then digitalWrite outPin0 true st
     else st).

(** The second [digitalWrite], on the other pin. *)
Definition setMotor_second_write (which direction : Z) (st : State) : State :=
  if direction =? 0 then digitalWrite (snd (motorPinsOf which)) false st
  else if direction =? -1 then digitalWrite (snd (motorPinsOf which)) true st
  else if direction =? 1 then digitalWrite (snd (motorPinsOf which)) false st
  else st.

(** Valve 0 sent from 50 percent to 20: closing, 1230 ms to run. *)
Definition valve0_closing : State :=
  digitalWrite PIN_VALVE_MOTOR_A1 true
    (digitalWrite PIN_VALVE_MOTOR_A0 false
       (with_motorState0 (-1)
          (with_targetValvePos0 20 (with_targetValvePosMsec0 1230 boot)))).

(** * Properties *)

(** ** Integer conversions *)

Ltac wrap_arith :=
  unfold store_through_ulong, to_int32, to_uint32, to_int16, to_uint16, to_uint8,
    is_int, is_long, is_uint8, is_uint16, INT_MIN, INT_MAX in *;
  change (2 ^ 8) with 256 in *; change (2 ^ 15) with 32768 in *;
  change (2 ^ 16) with 65536 in *; change (2 ^ 31) with 2147483648 in *;
  change (2 ^ 32) with 4294967296 in *;
  Z.to_euclidean_division_equations; lia.

Lemma to_uint8_id x : is_uint8 x -> to_uint8 x = x.
Proof. intros; wrap_arith. Qed.

Lemma to_uint8_range x : is_uint8 (to_uint8 x).
Proof. wrap_arith. Qed.

Lemma to_uint16_id x : is_uint16 x -> to_uint16 x = x.
Proof. intros; wrap_arith. Qed.

Lemma to_uint16_range x : is_uint16 (to_uint16 x).
Proof. wrap_arith. Qed.

Lemma to_int16_id x : is_int x -> to_int16 x = x.
Proof. intros; wrap_arith. Qed.

Lemma to_int32_id x : is_long x -> to_int32 x = x.
Proof. intros; wrap_arith. Qed.

Lemma store_through_ulong_id x : is_long x -> store_through_ulong x = x.
Proof. intros; wrap_arith. Qed.

(** A [uint16_t] passed as an [int] and stored back is the same value. *)
Lemma to_uint16_to_int16 x : is_uint16 x -> to_uint16 (to_int16 x) = x.
Proof. intros; wrap_arith. Qed.

(** A negative [int] stored into a [uint16_t] is shifted by 2^16. *)
Lemma to_uint16_negative x : INT_MIN <= x < 0 -> to_uint16 x = x + 65536.
Proof. intros; wrap_arith. Qed.

(** The stored calibration constant is 771/100 rounded to single
    precision. *)
Lemma C_FLOW_CALIBRATION_rounds_7_71 :
  C_FLOW_CALIBRATION = Float32.div (Float32.of_int 771) (Float32.of_int 100).
Proof. reflexivity. Qed.

(** ** Valve actuation *)

Lemma setMotor_0 direction st :
  setMotor 0 direction st =
  Some (let st := with_motorState0 direction st in
        if direction =? 0 then
          digitalWrite PIN_VALVE_MOTOR_A1 false (digitalWrite PIN_VALVE_MOTOR_A0 false st)
        else if direction =? -1 then
          digitalWrite PIN_VALVE_MOTOR_A1 true (digitalWrite PIN_VALVE_MOTOR_A0 false st)
        else if direction =? 1 then
          digitalWrite PIN_VALVE_MOTOR_A1 false (digitalWrite PIN_VALVE_MOTOR_A0 true st)
        else st).
Proof. reflexivity. Qed.

Lemma setMotor_1 direction st :
  setMotor 1 direction st =
  Some (let st := with_motorState1 direction st in
        if direction =? 0 then
          digitalWrite PIN_VALVE_MOTOR_B1 false (digitalWrite PIN_VALVE_MOTOR_B0 false st)
        else if direction =? -1 then
          digitalWrite PIN_VALVE_MOTOR_B1 true (digitalWrite PIN_VALVE_MOTOR_B0 false st)
        else if direction =? 1 then
          digitalWrite PIN_VALVE_MOTOR_B1 false (digitalWrite PIN_VALVE_MOTOR_B0 true st)
        else st).
Proof. reflexivity. Qed.

(** [setMotor] records the direction whatever it is, and leaves the
    timing and the targets alone. *)
Lemma setMotor_fields which direction st :
  which = 0 \/ which = 1 ->
  exists st',
    setMotor which direction st = Some st' /\
    motorStateOf which st' = direction /\
    motorStateOf (1 - which) st' = motorStateOf (1 - which) st /\
    targetValvePosMsec0 st' = targetValvePosMsec0 st /\
    targetValvePosMsec1 st' = targetValvePosMsec1 st /\
    targetValvePos0 st' = targetValvePos0 st /\
    targetValvePos1 st' = targetValvePos1 st /\
    reportInterval st' = reportInterval st /\
    Serial st' = Serial st.
Proof.
  intros [-> | ->]; [rewrite setMotor_0 | rewrite setMotor_1];
    eexists; (split; [reflexivity|]); cbn zeta;
    repeat match goal with |- context [if ?b then _ else _] => destruct b end;
    cbn; auto 10.
Qed.

Lemma full_travel_scaling d : 0 <= d -> 4100 * d / 100 = Z.quot 4100 100 * d.
Proof.
  intros. change (Z.quot 4100 100) with 41.
  replace (4100 * d) with (41 * d * 100) by lia. now rewrite Z.div_mul.
Qed.

(** C2. For either valve, a current target [c] and a commanded percentage
    [p], both between 0 and 100 and different, [setValve] sets the motor
    state to 1 (open) exactly when [p > c] and to -1 (close) exactly when
    [p < c]; for [p = 0] and [p = 100] the remaining run time is the full
    travel time plus 2000 ms, and for every [p] in between it is the
    full travel time times [|p - c|] over 100. The target becomes [p]. *)
Theorem C2_setValve_direction_and_duration (which c p : Z) (st : State) :
  which = 0 \/ which = 1 ->
  targetValvePosOf which st = c ->
  0 <= c <= 100 -> 0 <= p <= 100 -> p <> c ->
  exists st',
    setValve which p st = Some st' /\
    (motorStateOf which st' = 1 <-> c < p) /\
    (motorStateOf which st' = -1 <-> p < c) /\
    (p = 0 -> targetValvePosMsecOf which st' = C_VALVE_CLOSE_TIME + 2000) /\
    (p = 100 -> targetValvePosMsecOf which st' = C_VALVE_OPEN_TIME + 2000) /\
    (0 < p < 100 ->
     targetValvePosMsecOf which st' =
     (if p <? c then C_VALVE_CLOSE_TIME else C_VALVE_OPEN_TIME) * Z.abs (p - c) / 100) /\
    targetValvePosOf which st' = p.
Proof.
  intros Hw Hc Hcr Hpr Hne.
  assert (Hscaled : store_through_ulong (to_int16 (Z.quot 4100 100 * Z.abs (c - p)))
                    = 4100 * Z.abs (p - c) / 100).
  { rewrite full_travel_scaling by lia. change (Z.quot 4100 100) with 41.
    replace (Z.abs (c - p)) with (Z.abs (p - c)) by lia.
    rewrite to_int16_id, store_through_ulong_id; unfold is_long, is_int, INT_MIN, INT_MAX; lia. }
  destruct Hw as [-> | ->]; unfold targetValvePosOf in Hc; cbn in Hc;
    unfold setValve; cbn [Z.eqb Pos.eqb mbind option_bind deref assign
      ref_targetValvePos0 ref_targetValvePos1 ref_targetValvePosMsec0 ref_targetValvePosMsec1];
    rewrite Hc.
  all: destruct (Z.ltb_spec c p), (Z.ltb_spec p c); try lia.
  all: destruct (Z.eqb_spec p 0), (Z.eqb_spec p 100); try lia.
  all: cbn [Z.eqb Pos.eqb C_VALVE_OPEN_TIME C_VALVE_CLOSE_TIME].
  all: try rewrite Hscaled.
  all: first [rewrite setMotor_0 | rewrite setMotor_1]; eexists; (split; [reflexivity|]).
  all: cbn; repeat split; intros; try lia; try reflexivity; exact Hscaled.
Qed.

Ltac case_if :=
  match goal with
  | |- context [if ?b then _ else _] => destruct b eqn:?
  end.

Lemma checkValves_blocks (dr : Z -> bool) st :
  checkValves dr st =
  Some (limitStop1 (negb (dr PIN_VALVE_OPEN_1)) 1
       (limitStop1 (negb (dr PIN_VALVE_CLOSE_1)) (-1)
       (limitStop0 (negb (dr PIN_VALVE_OPEN_0)) 1
       (limitStop0 (negb (dr PIN_VALVE_CLOSE_0)) (-1)
       (countDown1 (countDown0 st)))))).
Proof.
  unfold checkValves.
  assert (B : forall (c : bool) (a b : State) (k : State -> option State),
             ((if c then Some a else Some b) ≫= k) = k (if c then a else b))
    by (intros [] ? ? ?; reflexivity).
  assert (B0 : forall (c c' : bool) (a s : State) (k : State -> option State),
             ((if c then Some a else if c' then setMotor 0 0 s else Some s) ≫= k)
             = k (if c then a else if c' then stopMotor0 s else s))
    by (intros [] [] ? ? ?; reflexivity).
  assert (B1 : forall (c c' : bool) (a s : State) (k : State -> option State),
             ((if c then Some a else if c' then setMotor 1 0 s else Some s) ≫= k)
             = k (if c then a else if c' then stopMotor1 s else s))
    by (intros [] [] ? ? ?; reflexivity).
  assert (L0 : forall (c : bool) (s : State) (k : State -> option State),
             ((if c then setMotor 0 0 s ≫= (fun s' => Some (with_targetValvePosMsec0 0 s'))
               else Some s) ≫= k)
             = k (if c then with_targetValvePosMsec0 0 (stopMotor0 s) else s))
    by (intros [] ? ?; reflexivity).
  assert (L1 : forall (c : bool) (s : State) (k : State -> option State),
             ((if c then setMotor 1 0 s ≫= (fun s' => Some (with_targetValvePosMsec1 0 s'))
               else Some s) ≫= k)
             = k (if c then with_targetValvePosMsec1 0 (stopMotor1 s) else s))
    by (intros [] ? ?; reflexivity).
  rewrite B0, B1, !L0, !L1. reflexivity.
Qed.

(** Projections of updated states. *)
Ltac state_simpl :=
  cbn [targetValvePos0 targetValvePos1 reportInterval soilHumidity avgSoilHumidity
       airHumidity flowRate airTemperature enclosureTemperature doorOpen
       targetValvePosMsec0 targetValvePosMsec1 lastCheckTime lastTime reportDelta delta
       motorState0 motorState1 pulseCount0 pulseCount1 pinLevel intAttached0
       intAttached1 Serial with_targetValvePos0 with_targetValvePos1
       with_reportInterval with_soilHumidity with_avgSoilHumidity with_airHumidity
       with_flowRate with_airTemperature with_enclosureTemperature with_doorOpen
       with_targetValvePosMsec0 with_targetValvePosMsec1 with_lastCheckTime
       with_lastTime with_reportDelta with_delta with_motorState0 with_motorState1
       with_pulseCount0 with_pulseCount1 with_pinLevel with_intAttached0
       with_intAttached1 with_Serial].

Ltac pin_lookup :=
  repeat first
    [ rewrite lookup_insert_eq
    | rewrite lookup_insert_ne by (cbv; congruence) ].

Ltac block_view :=
  unfold countDown0, countDown1, limitStop0, limitStop1, countDownView, limitStopView,
    viewOf; cbn;
  repeat case_if; cbn; pin_lookup; done.

Lemma countDown0_own st :
  viewOf 0 (countDown0 st) = countDownView (delta st) (viewOf 0 st).
Proof. block_view. Qed.

Lemma countDown0_other st : viewOf 1 (countDown0 st) = viewOf 1 st.
Proof. block_view. Qed.

Lemma countDown0_delta st : delta (countDown0 st) = delta st.
Proof. block_view. Qed.

Lemma countDown1_own st :
  viewOf 1 (countDown1 st) = countDownView (delta st) (viewOf 1 st).
Proof. block_view. Qed.

Lemma countDown1_other st : viewOf 0 (countDown1 st) = viewOf 0 st.
Proof. block_view. Qed.

Lemma limitStop0_own pinLow direction st :
  viewOf 0 (limitStop0 pinLow direction st) = limitStopView pinLow direction (viewOf 0 st).
Proof. block_view. Qed.

Lemma limitStop0_other pinLow direction st :
  viewOf 1 (limitStop0 pinLow direction st) = viewOf 1 st.
Proof. block_view. Qed.

Lemma limitStop1_own pinLow direction st :
  viewOf 1 (limitStop1 pinLow direction st) = limitStopView pinLow direction (viewOf 1 st).
Proof. block_view. Qed.

Lemma limitStop1_other pinLow direction st :
  viewOf 0 (limitStop1 pinLow direction st) = viewOf 0 st.
Proof. block_view. Qed.

Lemma same_but_valves_refl st : same_but_valves st st.
Proof. unfold same_but_valves. split_and!; reflexivity. Qed.

Ltac block_frame :=
  unfold same_but_valves, limitStop0, limitStop1, countDown0, countDown1,
    stopMotor0, stopMotor1, digitalWrite;
  intros (? & ? & ? & ? & ? & ? & ? & ? & ? & ? & ? & ? & ? & ? & ? & ? & ? & ? & ? & Hpins);
  repeat case_if; state_simpl; split_and!; try assumption;
  intros pin Ha0 Ha1 Hb0 Hb1; rewrite ?lookup_insert_ne by congruence;
  now apply Hpins.

Lemma same_but_valves_countDown0 st st' :
  same_but_valves st st' -> same_but_valves st (countDown0 st').
Proof. block_frame. Qed.

Lemma same_but_valves_countDown1 st st' :
  same_but_valves st st' -> same_but_valves st (countDown1 st').
Proof. block_frame. Qed.

Lemma same_but_valves_limitStop0 pinLow direction st st' :
  same_but_valves st st' -> same_but_valves st (limitStop0 pinLow direction st').
Proof. block_frame. Qed.

Lemma same_but_valves_limitStop1 pinLow direction st st' :
  same_but_valves st st' -> same_but_valves st (limitStop1 pinLow direction st').
Proof. block_frame. Qed.

Lemma checkValves_channel which (dr : Z -> bool) st :
  which = 0 \/ which = 1 ->
  exists st',
    checkValves dr st = Some st' /\
    viewOf which st' =
      valveTick (delta st) (negb (dr (closeLimitPinOf which)))
        (negb (dr (openLimitPinOf which))) (viewOf which st) /\
    same_but_valves st st'.
Proof.
  intros Hw. rewrite checkValves_blocks. eexists; split; [reflexivity|]. split.
  - unfold valveTick.
    destruct Hw as [-> | ->]; cbn [closeLimitPinOf openLimitPinOf Z.eqb Pos.eqb].
    + now rewrite !limitStop1_other, !limitStop0_own, countDown1_other, countDown0_own.
    + now rewrite !limitStop1_own, !limitStop0_other, countDown1_own, countDown0_other,
        countDown0_delta.
  - repeat first
      [ apply same_but_valves_limitStop0 | apply same_but_valves_limitStop1
      | apply same_but_valves_countDown0 | apply same_but_valves_countDown1 ].
    apply same_but_valves_refl.
Qed.

Ltac tick_cases :=
  unfold valveTick, limitStopView, countDownView;
  repeat match goal with
  | |- context [Z.ltb ?a ?b] => destruct (Z.ltb_spec a b)
  | |- context [Z.leb ?a ?b] => destruct (Z.leb_spec a b)
  | |- context [Z.eqb ?a ?b] => destruct (Z.eqb_spec a b)
  | |- context [negb (?f ?p)] => destruct (f p)
  | _ => progress cbn [andb negb]
  end.

(** C3 (as amended). In one pass of [checkValves], for either valve whose
    motor is running: while the remaining run time is positive it is
    decreased by the elapsed milliseconds and the motor keeps running in
    that pass, also when the result is zero or below (no matching limit
    switch being closed); in a pass that starts with the remaining run
    time at zero or below the motor is stopped, both motor pins go LOW,
    and the remaining run time is left as it is. *)
Theorem C3_checkValves_countdown (which : Z) (dr : Z -> bool) (st : State) :
  which = 0 \/ which = 1 ->
  motorStateOf which st <> 0 ->
  exists st',
    checkValves dr st = Some st' /\
    (0 < targetValvePosMsecOf which st ->
     ~ (motorStateOf which st = -1 /\ dr (closeLimitPinOf which) = false) ->
     ~ (motorStateOf which st = 1 /\ dr (openLimitPinOf which) = false) ->
     targetValvePosMsecOf which st' =
       to_int32 (targetValvePosMsecOf which st - delta st) /\
     motorStateOf which st' = motorStateOf which st) /\
    (targetValvePosMsecOf which st <= 0 ->
     motorStateOf which st' = 0 /\
     targetValvePosMsecOf which st' = targetValvePosMsecOf which st /\
     pinLevel st' !! fst (motorPinsOf which) = Some false /\
     pinLevel st' !! snd (motorPinsOf which) = Some false).
Proof.
  intros Hw Hrun.
  destruct (checkValves_channel which dr st Hw) as (st' & Hst' & Hview & _).
  exists st'. split; [exact Hst'|].
  unfold viewOf in Hview.
  set (msec := targetValvePosMsecOf which st) in *.
  set (motor := motorStateOf which st) in *.
  split.
  - intros Hpos Hclose Hopen. revert Hview. tick_cases; intros [= -> -> _ _];
      try (split; [reflexivity | reflexivity]); try lia; exfalso; tauto.
  - intros Hdone. revert Hview. tick_cases; intros [= -> -> -> ->]; try lia; auto.
Qed.

(** C4 (as amended). In one pass of [checkValves], for either valve, if
    the limit switch that matches the motor state at the start of the
    pass is closed (its pin reads LOW), the motor is stopped and both
    motor pins go LOW; the remaining run time becomes zero when it was
    zero or more, however much, and is left as it is when it was already
    negative (the countdown has then stopped the motor before the
    switches are looked at). For a valve whose motor is idle nothing
    changes, whatever the switches read. *)
Theorem C4_checkValves_limit_switch (which : Z) (dr : Z -> bool) (st : State) :
  which = 0 \/ which = 1 ->
  exists st',
    checkValves dr st = Some st' /\
    ((motorStateOf which st = 1 /\ dr (openLimitPinOf which) = false) \/
     (motorStateOf which st = -1 /\ dr (closeLimitPinOf which) = false) ->
     motorStateOf which st' = 0 /\
     pinLevel st' !! fst (motorPinsOf which) = Some false /\
     pinLevel st' !! snd (motorPinsOf which) = Some false /\
     (0 <= targetValvePosMsecOf which st -> targetValvePosMsecOf which st' = 0) /\
     (targetValvePosMsecOf which st < 0 ->
      targetValvePosMsecOf which st' = targetValvePosMsecOf which st)) /\
    (motorStateOf which st = 0 -> viewOf which st' = viewOf which st).
Proof.
  intros Hw.
  destruct (checkValves_channel which dr st Hw) as (st' & Hst' & Hview & _).
  exists st'. split; [exact Hst'|].
  split.
  - unfold viewOf in Hview.
    set (msec := targetValvePosMsecOf which st) in *.
    set (motor := motorStateOf which st) in *.
    intros Hlimit. revert Hview.
    tick_cases; intros [= -> -> -> ->]; repeat split; intros; try lia;
      try reflexivity; exfalso; intuition (try lia; try congruence).
  - intros Hidle. rewrite Hview. unfold viewOf. rewrite Hidle.
    unfold valveTick, limitStopView, countDownView. cbn [Z.eqb negb andb].
    rewrite !andb_false_r. reflexivity.
Qed.

(** ** Decoding of inbound frames *)

Lemma getJsonKeyValueAsInt_member doc key defaultVal :
  getJsonKeyValueAsInt doc key defaultVal = default defaultVal (memberInt doc key).
Proof.
  unfold getJsonKeyValueAsInt, memberInt.
  destruct (doc !! key) as [v|]; [destruct (isNull v)|]; reflexivity.
Qed.

(** A member that is [null] counts as absent. *)
Lemma memberInt_null doc key :
  doc !! key = Some json_null -> memberInt doc key = None.
Proof. intros E. unfold memberInt. now rewrite E. Qed.


(** [setValve] on one valve leaves the other valve, the report interval
    and the serial line alone. *)
Lemma setValve_frame which p st :
  which = 0 \/ which = 1 ->
  exists st',
    setValve which p st = Some st' /\
    targetValvePosOf which st' = p /\
    targetValvePosOf (1 - which) st' = targetValvePosOf (1 - which) st /\
    viewOf (1 - which) st' = viewOf (1 - which) st /\
    reportInterval st' = reportInterval st /\
    Serial st' = Serial st.
Proof.
  intros [-> | ->]; unfold setValve;
    cbn [Z.eqb Pos.eqb mbind option_bind deref assign
      ref_targetValvePos0 ref_targetValvePos1 ref_targetValvePosMsec0 ref_targetValvePosMsec1];
    first [rewrite setMotor_0 | rewrite setMotor_1];
    eexists; (split; [reflexivity|]); unfold viewOf;
    repeat case_if; cbn; pin_lookup; auto 10.
Qed.


Lemma decodedInterval_absent doc st :
  1000 <= reportInterval st < 2 ^ 16 ->
  memberInt doc "reportInterval" = None ->
  decodedInterval doc st = reportInterval st.
Proof.
  intros Hri E. unfold decodedInterval. rewrite E. cbn [default from_option id].
  rewrite to_uint16_to_int16 by (unfold is_uint16; lia).
  destruct (Z.leb_spec 1000 (reportInterval st)); [reflexivity | lia].
Qed.

Lemma decodedInterval_present doc st v :
  memberInt doc "reportInterval" = Some v ->
  decodedInterval doc st = if 1000 <=? to_uint16 v then to_uint16 v else C_REPORT_INTERVAL.
Proof. intros E. unfold decodedInterval. now rewrite E. Qed.

(** A successful decode, step by step: the interval is stored, then each
    valve whose commanded position differs from its target is moved. *)
Lemma recieveStates_ok doc st :
  exists st2 st3,
    recieveStates (Some (Ok, doc)) st = Some st3 /\
    let st1 := with_reportInterval (decodedInterval doc st) st in
    let valvePos0 := default (targetValvePos0 st) (memberInt doc "targetValvePos0") in
    let valvePos1 := default (targetValvePos1 st) (memberInt doc "targetValvePos1") in
    (if valvePos0 =? targetValvePos0 st then st2 = st1
     else setValve 0 (to_uint8 valvePos0) st1 = Some st2) /\
    (if valvePos1 =? targetValvePos1 st then st3 = st2
     else setValve 1 (to_uint8 valvePos1) st2 = Some st3) /\
    targetValvePos1 st2 = targetValvePos1 st.
Proof.
  unfold recieveStates. cbn [error_bool code negb int_of_bool Z.eqb].
  rewrite !getJsonKeyValueAsInt_member.
  cbn [reportInterval with_reportInterval targetValvePos0 targetValvePos1].
  fold (decodedInterval doc st).
  set (st1 := with_reportInterval (decodedInterval doc st) st).
  set (valvePos0 := default _ (memberInt doc "targetValvePos0")).
  set (valvePos1 := default _ (memberInt doc "targetValvePos1")).
  change (with_reportInterval (decodedInterval doc st) (with_reportInterval _ st)) with st1.
  assert (exists st2, (if negb (valvePos0 =? targetValvePos0 st)
                       then setValve 0 (to_uint8 valvePos0) st1 else Some st1) = Some st2 /\
                      (if valvePos0 =? targetValvePos0 st then st2 = st1
                       else setValve 0 (to_uint8 valvePos0) st1 = Some st2) /\
                      targetValvePos1 st2 = targetValvePos1 st) as (st2 & -> & ? & E1).
  { destruct (valvePos0 =? targetValvePos0 st); cbn [negb].
    - exists st1; auto.
    - destruct (setValve_frame 0 (to_uint8 valvePos0) st1) as (st2 & E & _ & ? & _);
        [now left|]. exists st2; auto. }
  cbn [mbind option_bind]. rewrite E1.
  destruct (valvePos1 =? targetValvePos1 st); cbn [negb].
  - exists st2, st2; auto.
  - destruct (setValve_frame 1 (to_uint8 valvePos1) st2) as (st3 & E & _); [now right|].
    exists st2, st3. rewrite E. auto.
Qed.


(** ** Instances of the valve and decoding properties *)

Lemma valve0_half_open_reached : setValve 0 50 boot = Some valve0_half_open.
Proof. reflexivity. Qed.

Lemma C2_setValve_direction_and_duration_witness :
  exists st',
    setValve 0 50 boot = Some st' /\
    (motorStateOf 0 st' = 1 <-> 0 < 50) /\
    (motorStateOf 0 st' = -1 <-> 50 < 0) /\
    (50 = 0 -> targetValvePosMsecOf 0 st' = C_VALVE_CLOSE_TIME + 2000) /\
    (50 = 100 -> targetValvePosMsecOf 0 st' = C_VALVE_OPEN_TIME + 2000) /\
    (0 < 50 < 100 ->
     targetValvePosMsecOf 0 st' =
     (if 50 <? 0 then C_VALVE_CLOSE_TIME else C_VALVE_OPEN_TIME) * Z.abs (50 - 0) / 100) /\
    targetValvePosOf 0 st' = 50.
Proof.
  apply (C2_setValve_direction_and_duration 0 0 50 boot);
    [left; reflexivity | reflexivity | lia | lia | lia].
Defined.

Lemma C3_countdown_stops_one_pass_late :
  motorStateOf 0 slow_pass = 1 /\
  targetValvePosMsecOf 0 slow_pass - delta slow_pass <= 0 /\
  checkValves all_high slow_pass = Some overrun /\
  motorStateOf 0 overrun <> 0 /\
  targetValvePosMsecOf 0 overrun <> 0.
Proof. repeat split; try reflexivity; cbn; lia. Qed.

Lemma C3_checkValves_countdown_witness :
  (0 = 0 \/ 0 = 1) /\ motorStateOf 0 slow_pass <> 0 /\
  exists st',
    checkValves all_high slow_pass = Some st' /\
    (0 < targetValvePosMsecOf 0 slow_pass ->
     ~ (motorStateOf 0 slow_pass = -1 /\ all_high (closeLimitPinOf 0) = false) ->
     ~ (motorStateOf 0 slow_pass = 1 /\ all_high (openLimitPinOf 0) = false) ->
     targetValvePosMsecOf 0 st' =
       to_int32 (targetValvePosMsecOf 0 slow_pass - delta slow_pass) /\
     motorStateOf 0 st' = motorStateOf 0 slow_pass) /\
    (targetValvePosMsecOf 0 slow_pass <= 0 ->
     motorStateOf 0 st' = 0 /\
     targetValvePosMsecOf 0 st' = targetValvePosMsecOf 0 slow_pass /\
     pinLevel st' !! fst (motorPinsOf 0) = Some false /\
     pinLevel st' !! snd (motorPinsOf 0) = Some false).
Proof.
  split; [left; reflexivity|]. split; [cbn; lia|].
  apply (C3_checkValves_countdown 0 all_high slow_pass); [left; reflexivity | cbn; lia].
Defined.

Lemma C4_limit_switch_leaves_negative_time :
  motorStateOf 0 overrun = 1 /\
  open0_low (openLimitPinOf 0) = false /\
  exists st',
    checkValves open0_low overrun = Some st' /\
    motorStateOf 0 st' = 0 /\
    targetValvePosMsecOf 0 st' = -250.
Proof.
  split; [reflexivity|]. split; [reflexivity|].
  eexists. split; [reflexivity|]. split; reflexivity.
Qed.

Lemma C4_checkValves_limit_switch_witness :
  (0 = 0 \/ 0 = 1) /\
  exists st',
    checkValves open0_low slow_pass = Some st' /\
    ((motorStateOf 0 slow_pass = 1 /\ open0_low (openLimitPinOf 0) = false) \/
     (motorStateOf 0 slow_pass = -1 /\ open0_low (closeLimitPinOf 0) = false) ->
     motorStateOf 0 st' = 0 /\
     pinLevel st' !! fst (motorPinsOf 0) = Some false /\
     pinLevel st' !! snd (motorPinsOf 0) = Some false /\
     (0 <= targetValvePosMsecOf 0 slow_pass -> targetValvePosMsecOf 0 st' = 0) /\
     (targetValvePosMsecOf 0 slow_pass < 0 ->
      targetValvePosMsecOf 0 st' = targetValvePosMsecOf 0 slow_pass)) /\
    (motorStateOf 0 slow_pass = 0 -> viewOf 0 st' = viewOf 0 slow_pass).
Proof.
  split; [left; reflexivity|].
  apply (C4_checkValves_limit_switch 0 open0_low slow_pass); left; reflexivity.
Defined.



(** *** Parse errors *)

Lemma error_test err :
  (int_of_bool (negb (error_bool err)) =? code Ok) = negb (code err =? code Ok).
Proof. destruct err; reflexivity. Qed.

Lemma recieveStates_error err doc st :
  err <> Ok ->
  recieveStates (Some (err, doc)) st = Some (printError (c_str err) st).
Proof. intros Herr. unfold recieveStates. destruct err; try reflexivity. congruence. Qed.

(** *** Every pass of [loop] ends *)

Lemma setValve_keeps which p st st' :
  setValve which p st = Some st' ->
  soilHumidity st' = soilHumidity st /\
  reportInterval st' = reportInterval st /\
  Serial st' = Serial st.
Proof.
  unfold setValve, setMotor.
  destruct (which =? 0), (which =? 1); cbn [mbind option_bind]; try discriminate.
  all: intros [= <-]; repeat case_if; repeat split; reflexivity.
Qed.

Lemma recieveStates_total input st :
  exists st', recieveStates input st = Some st' /\ soilHumidity st' = soilHumidity st.
Proof.
  destruct input as [[err doc]|]; [|exists st; split; reflexivity].
  destruct err.
  2-6: eexists; split; [apply recieveStates_error; discriminate | reflexivity].
  destruct (recieveStates_ok doc st) as (st2 & st3 & E & H2 & H3 & _).
  exists st3. split; [exact E|]. cbn zeta in H2, H3.
  assert (soilHumidity st2 = soilHumidity st) as <-.
  { revert H2. case_if; [intros ->; reflexivity | intros H2].
    now rewrite (proj1 (setValve_keeps _ _ _ _ H2)). }
  revert H3. case_if; [intros ->; reflexivity | intros H3].
  now rewrite (proj1 (setValve_keeps _ _ _ _ H3)).
Qed.

Lemma soilStore_ok soil i v :
  0 <= i < Z.of_nat (length soil) ->
  soilStore soil i v = Some (<[Z.to_nat i := v]> soil).
Proof.
  intros Hi. unfold soilStore.
  destruct (Z.leb_spec 0 i), (Z.ltb_spec i (Z.of_nat (length soil))); try lia. reflexivity.
Qed.

Lemma soilReadLoop_total readADC n : forall i soil,
  0 <= i -> i + Z.of_nat n <= 4 -> length soil = 16%nat ->
  exists soil', soilReadLoop readADC n i soil = Some soil' /\ length soil' = 16%nat.
Proof.
  induction n as [|n IH]; intros i soil Hi Hn Hlen; cbn [soilReadLoop].
  - exists soil. split; [reflexivity | exact Hlen].
  - rewrite soilStore_ok by lia. cbn [mbind option_bind].
    rewrite soilStore_ok by (rewrite !length_insert; lia). cbn [mbind option_bind].
    rewrite soilStore_ok by (rewrite !length_insert; lia). cbn [mbind option_bind].
    rewrite soilStore_ok by (rewrite !length_insert; lia). cbn [mbind option_bind].
    apply IH; [lia | lia | now rewrite !length_insert].
Qed.

Lemma updateSoilHumidity_total i0 readADC st :
  0 <= i0 -> length (soilHumidity st) = 16%nat ->
  is_Some (updateSoilHumidity i0 readADC st).
Proof.
  intros Hi Hlen. unfold updateSoilHumidity.
  change (Z.quot C_MOIST_SENS_AMOUNT 4) with 4.
  destruct (Z.le_gt_cases 4 i0) as [Hskip | Hrun].
  - replace (Z.to_nat (4 - i0)) with 0%nat by lia. now eexists.
  - destruct (soilReadLoop_total readADC (Z.to_nat (4 - i0)) i0 (soilHumidity st))
      as (soil' & -> & _); [lia | lia | exact Hlen | now eexists].
Qed.

Lemma loop_total lk e st :
  0 <= soilIndex e -> length (soilHumidity st) = 16%nat -> is_Some (loop lk e st).
Proof.
  intros Hi Hlen. unfold loop.
  destruct (recieveStates_total (serialInput e) st) as (st1 & -> & Hsoil).
  cbn [mbind option_bind].
  match goal with
  | |- is_Some ((if ?c then _ else _) ≫= _) => destruct c
  end.
  - unfold updateSensorValues.
    match goal with
    | |- context [updateSoilHumidity ?i ?r ?s] =>
        destruct (updateSoilHumidity_total i r s Hi) as [s' ->]
    end; [cbn; now rewrite Hsoil|].
    cbn [mbind option_bind]. rewrite checkValves_blocks. now eexists.
  - cbn [mbind option_bind]. rewrite checkValves_blocks. now eexists.
Qed.

(** C6. When [deserializeJson] reports an error, [recieveStates] prints
    one line, the object with the single member [error] holding the
    parser's message, and changes nothing else of the state; the pass of
    [loop] goes on exactly as a pass without serial input would from
    there, and it ends. *)
Theorem C6_parse_error_reported_state_kept
    (lk : Linkage) (e : Env) (err : DeserializationError)
    (doc : gmap string JsonVariant) (st : State) :
  err <> Ok ->
  serialInput e = Some (err, doc) ->
  recieveStates (serialInput e) st =
    Some (with_Serial (Serial st ++ [JObject [("error", JString (c_str err))]]) st) /\
  loop lk e st = loop lk (with_serialInput None e) (printError (c_str err) st) /\
  (0 <= soilIndex e -> length (soilHumidity st) = 16%nat -> is_Some (loop lk e st)).
Proof.
  intros Herr Hin. split; [|split].
  - rewrite Hin. now apply recieveStates_error.
  - unfold loop. rewrite Hin, (recieveStates_error _ _ _ Herr). reflexivity.
  - apply loop_total.
Qed.

Lemma C6_parse_error_reported_state_kept_witness :
  InvalidInput <> Ok /\
  recieveStates (Some (InvalidInput, ∅)) boot =
    Some (with_Serial [JObject [("error", JString "InvalidInput")]] boot).
Proof.
  split; [discriminate|].
  exact (proj1 (C6_parse_error_reported_state_kept
                  usual_linkage
                  (with_serialInput (Some (InvalidInput, ∅)) quiet)
                  InvalidInput ∅ boot ltac:(discriminate) eq_refl)).
Defined.

(** *** The report interval *)

Lemma reportInterval_decoded doc st st' v :
  recieveStates (Some (Ok, doc)) st = Some st' ->
  memberInt doc "reportInterval" = Some v ->
  is_int v ->
  reportInterval st' =
    if v <? 0 then v + 65536 else if v <? 1000 then C_REPORT_INTERVAL else v.
Proof.
  intros E Hv Hint.
  destruct (recieveStates_ok doc st) as (st2 & st3 & E' & H2 & H3 & _).
  rewrite E in E'. injection E' as <-. cbn zeta in H2, H3.
  assert (R3 : reportInterval st' = reportInterval st2).
  { revert H3. case_if; [now intros -> | intros H3].
    exact (proj1 (proj2 (setValve_keeps _ _ _ _ H3))). }
  assert (R2 : reportInterval st2 = decodedInterval doc st).
  { revert H2. case_if; [now intros -> | intros H2].
    exact (proj1 (proj2 (setValve_keeps _ _ _ _ H2))). }
  rewrite R3, R2, (decodedInterval_present _ _ _ Hv).
  unfold C_REPORT_INTERVAL.
  destruct (Z.ltb_spec v 0).
  - rewrite to_uint16_negative by (unfold is_int in Hint; lia).
    destruct (Z.leb_spec 1000 (v + 65536)); [reflexivity|].
    unfold is_int, INT_MIN in Hint. change (2 ^ 15) with 32768 in Hint. lia.
  - rewrite to_uint16_id
      by (unfold is_int, INT_MAX, is_uint16 in *; change (2 ^ 15) with 32768 in *;
          change (2 ^ 16) with 65536; lia).
    destruct (Z.leb_spec 1000 v), (Z.ltb_spec v 1000); try lia; reflexivity.
Qed.

(** C7 (the code at the failing input). The frame
    [{"reportInterval": -1}], received in the initial state, leaves the
    report interval at 65535 and not at the default of 4000. *)
Theorem C7_negative_interval_is_stored_wrapped :
  recieveStates (Some (Ok, {[ "reportInterval" := json_int (-1) ]})) boot =
    Some (with_reportInterval 65535 boot) /\
  reportInterval (with_reportInterval 65535 boot) <> C_REPORT_INTERVAL.
Proof. split; [reflexivity | discriminate]. Qed.


(** ** Flow read-out *)

Lemma nonzero_bytes_spec c : 0 < c < 256 -> In c nonzero_bytes.
Proof.
  intros Hc. unfold nonzero_bytes. apply in_map_iff.
  exists (Z.to_nat c). split; [lia|]. apply in_seq. lia.
Qed.

Lemma of_int_byte_finite c :
  0 < c < 256 -> exists m e, Float32.of_int c = S754_finite false m e.
Proof.
  intros Hc.
  assert (Hall : forallb (fun c => is_pos_finite (Float32.of_int c)) nonzero_bytes = true)
    by (vm_compute; reflexivity).
  rewrite forallb_forall in Hall. specialize (Hall c (nonzero_bytes_spec c Hc)).
  destruct (Float32.of_int c) as [| | |[] m e]; try discriminate. now exists m, e.
Qed.

Lemma flowFormula_zero_window c :
  is_uint8 c -> flowFormula 0 c = zeroWindowRate c.
Proof.
  intros Hc. unfold zeroWindowRate. destruct (Z.eqb_spec c 0) as [-> | Hne].
  - reflexivity.
  - destruct (of_int_byte_finite c) as (m & e & E).
    { unfold is_uint8 in Hc. change (2 ^ 8) with 256 in Hc. lia. }
    unfold flowFormula. rewrite E. reflexivity.
Qed.

Lemma updateFlowRate_fields lk st a b :
  flowRate st = [a; b] ->
  flowRate (updateFlowRate lk st) =
    [flowFormula (reportDelta st) (pulseCount0 st);
     flowFormula (reportDelta st) (pulseCount1 st)] /\
  pulseCount0 (updateFlowRate lk st) = 0 /\
  pulseCount1 (updateFlowRate lk st) = 0 /\
  intAttached0 (updateFlowRate lk st) = true /\
  intAttached1 (updateFlowRate lk st) = true /\
  reportDelta (updateFlowRate lk st) = reportDelta st.
Proof.
  intros Hfr. unfold updateFlowRate, setInterrupts, attachInterrupt, detachInterrupt.
  cbn [digitalPinToInterrupt PIN_FLOW_METER_0 PIN_FLOW_METER_1 Z.eqb Pos.eqb].
  repeat case_if; cbn; rewrite Hfr; repeat split; reflexivity.
Qed.

Lemma flowRate_two st :
  length (flowRate st) = 2%nat -> exists a b, flowRate st = [a; b].
Proof.
  destruct (flowRate st) as [|a [|b [|? ?]]]; try discriminate. now exists a, b.
Qed.

(** C8 (as amended). [updateFlowRate] has no guard for a window of zero
    milliseconds: the division by zero is carried out in floating
    point, and the rate of a channel is then +infinity when its pulse
    count is not zero and not-a-number when it is. For every positive
    window the rate of a channel is
    [((1000.0 / window) * pulseCount) / C_FLOW_CALIBRATION]. *)
Theorem C8_updateFlowRate_rates (lk : Linkage) (st : State) :
  length (flowRate st) = 2%nat ->
  is_uint8 (pulseCount0 st) -> is_uint8 (pulseCount1 st) ->
  (reportDelta st = 0 ->
   flowRate (updateFlowRate lk st) =
     [zeroWindowRate (pulseCount0 st); zeroWindowRate (pulseCount1 st)]) /\
  (0 < reportDelta st ->
   flowRate (updateFlowRate lk st) =
     [Float32.div
        (Float32.mul (Float32.div f_1000 (Float32.of_int (reportDelta st)))
                     (Float32.of_int (pulseCount0 st))) C_FLOW_CALIBRATION;
      Float32.div
        (Float32.mul (Float32.div f_1000 (Float32.of_int (reportDelta st)))
                     (Float32.of_int (pulseCount1 st))) C_FLOW_CALIBRATION]).
Proof.
  intros Hlen H0 H1.
  destruct (flowRate_two st Hlen) as (a & b & Hfr).
  destruct (updateFlowRate_fields lk st a b Hfr) as (-> & _).
  split.
  - intros ->. now rewrite !flowFormula_zero_window.
  - intros _. reflexivity.
Qed.

Lemma C8_zero_window_divides_by_zero :
  reportDelta zero_window = 0 /\
  flowRate (updateFlowRate usual_linkage zero_window) = [Float32.pos_infinity; Float32.nan] /\
  forallb Float32.is_zero (flowRate (updateFlowRate usual_linkage zero_window)) = false.
Proof. repeat split; reflexivity. Qed.

Lemma C8_updateFlowRate_rates_witness :
  (length (flowRate zero_window) = 2%nat /\
   is_uint8 (pulseCount0 zero_window) /\ is_uint8 (pulseCount1 zero_window)) /\
  flowRate (updateFlowRate usual_linkage zero_window) =
    [zeroWindowRate (pulseCount0 zero_window); zeroWindowRate (pulseCount1 zero_window)].
Proof.
  assert (Hl : length (flowRate zero_window) = 2%nat) by reflexivity.
  assert (H0 : is_uint8 (pulseCount0 zero_window)) by (cbv; intuition congruence).
  assert (H1 : is_uint8 (pulseCount1 zero_window)) by (cbv; intuition congruence).
  split; [auto|].
  exact (proj1 (C8_updateFlowRate_rates usual_linkage zero_window Hl H0 H1) eq_refl).
Defined.

(** *** The pulse counters are bytes *)

Lemma pulseInterrupt0_iter n st :
  pulseCount0 (Nat.iter n pulseInterrupt0 st) = (pulseCount0 st + Z.of_nat n) mod 256 \/
  (n = 0%nat /\ pulseCount0 (Nat.iter n pulseInterrupt0 st) = pulseCount0 st).
Proof.
  induction n as [|n IH]; [right; split; reflexivity|]. left.
  rewrite Nat.iter_succ. unfold pulseInterrupt0 at 1. cbn [pulseCount0 with_pulseCount0].
  unfold to_uint8. change (2 ^ 8) with 256.
  destruct IH as [-> | [-> ->]].
  - rewrite Zplus_mod_idemp_l. f_equal. lia.
  - f_equal.
Qed.

Lemma pulseInterrupt1_iter n st :
  pulseCount1 (Nat.iter n pulseInterrupt1 st) = (pulseCount1 st + Z.of_nat n) mod 256 \/
  (n = 0%nat /\ pulseCount1 (Nat.iter n pulseInterrupt1 st) = pulseCount1 st).
Proof.
  induction n as [|n IH]; [right; split; reflexivity|]. left.
  rewrite Nat.iter_succ. unfold pulseInterrupt1 at 1. cbn [pulseCount1 with_pulseCount1].
  unfold to_uint8. change (2 ^ 8) with 256.
  destruct IH as [-> | [-> ->]].
  - rewrite Zplus_mod_idemp_l. f_equal. lia.
  - f_equal.
Qed.

Lemma pulseInterrupt0_iter_keeps n st :
  flowRate (Nat.iter n pulseInterrupt0 st) = flowRate st /\
  reportDelta (Nat.iter n pulseInterrupt0 st) = reportDelta st /\
  pulseCount1 (Nat.iter n pulseInterrupt0 st) = pulseCount1 st.
Proof. induction n as [|n IH]; [repeat split|]. rewrite Nat.iter_succ. exact IH. Qed.

(** C9. The pulse counters are bytes: [n] executions of a handler after a
    sample leave [n mod 256] in its counter, the next sample computes
    the flow rate from [n mod 256], and at the maximum flow rate more
    than 255 pulses arrive within the default report interval. *)
Theorem C9_pulse_counter_wraps_mod_256 (lk : Linkage) (st : State) (n : nat) :
  length (flowRate st) = 2%nat ->
  let sampled := updateFlowRate lk st in
  let counted := Nat.iter n pulseInterrupt0 sampled in
  pulseCount0 counted = Z.of_nat n mod 256 /\
  pulseCount1 (Nat.iter n pulseInterrupt1 sampled) = Z.of_nat n mod 256 /\
  flowRate (updateFlowRate lk counted) !! 0%nat =
    Some (flowFormula (reportDelta st) (Z.of_nat n mod 256)) /\
  255 < pulsesAtMaxFlow.
Proof.
  intros Hlen sampled counted.
  destruct (flowRate_two st Hlen) as (a & b & Hfr).
  destruct (updateFlowRate_fields lk st a b Hfr) as (Hfr' & Hc0 & Hc1 & _ & _ & Hrd).
  fold sampled in Hfr', Hc0, Hc1, Hrd.
  assert (E0 : pulseCount0 counted = Z.of_nat n mod 256).
  { subst counted. destruct (pulseInterrupt0_iter n sampled) as [-> | [-> ->]];
      rewrite Hc0; reflexivity. }
  split; [exact E0|]. split.
  { destruct (pulseInterrupt1_iter n sampled) as [-> | [-> ->]]; rewrite Hc1; reflexivity. }
  split; [|reflexivity].
  destruct (pulseInterrupt0_iter_keeps n sampled) as (Kf & Kr & _). fold counted in Kf, Kr.
  destruct (updateFlowRate_fields lk counted _ _ (eq_trans Kf Hfr')) as (-> & _).
  cbn [lookup list_lookup]. now rewrite Kr, Hrd, E0.
Qed.

Lemma C9_pulse_counter_wraps_mod_256_witness :
  length (flowRate boot) = 2%nat /\
  pulseCount0 (Nat.iter 256 pulseInterrupt0 (updateFlowRate usual_linkage boot)) = 0.
Proof.
  split; [reflexivity|].
  exact (proj1 (C9_pulse_counter_wraps_mod_256 usual_linkage boot 256 eq_refl)).
Defined.


(** ** Soil humidity *)

(** The index starting at 4 or above: the reading loop does not run. *)
Lemma updateSoilHumidity_skipped i0 readADC st :
  4 <= i0 ->
  updateSoilHumidity i0 readADC st =
    Some (with_avgSoilHumidity (soilAverage (soilHumidity st))
            (with_soilHumidity (soilHumidity st) st)).
Proof.
  intros Hi. unfold updateSoilHumidity.
  change (Z.quot C_MOIST_SENS_AMOUNT 4) with 4.
  replace (Z.to_nat (4 - i0)) with 0%nat by lia. reflexivity.
Qed.

Lemma soilStore_negative soil i v : i < 0 -> soilStore soil i v = None.
Proof. intros Hi. unfold soilStore. destruct (Z.leb_spec 0 i); [lia | reflexivity]. Qed.

(** The index starting below 0: the first store is outside the array. *)
Lemma updateSoilHumidity_negative i0 readADC st :
  i0 < 0 -> updateSoilHumidity i0 readADC st = None.
Proof.
  intros Hi. unfold updateSoilHumidity.
  change (Z.quot C_MOIST_SENS_AMOUNT 4) with 4.
  destruct (Z.to_nat (4 - i0)) as [|n] eqn:En; [lia|].
  cbn [soilReadLoop]. now rewrite soilStore_negative.
Qed.

(** The index starting at 0, as the loop is meant to run: all sixteen
    entries are replaced by fresh readings. *)
Lemma updateSoilHumidity_from_zero readADC st :
  length (soilHumidity st) = 16%nat ->
  soilHumidity <$> updateSoilHumidity 0 readADC st = Some (allSoilReadings readADC).
Proof.
  intros Hlen. unfold updateSoilHumidity.
  destruct (soilHumidity st) as [|s0 [|s1 [|s2 [|s3 [|s4 [|s5 [|s6 [|s7 [|s8 [|s9 [|s10
    [|s11 [|s12 [|s13 [|s14 [|s15 [|? ?]]]]]]]]]]]]]]]]]; try discriminate.
  reflexivity.
Qed.

(** C10 (the code at the failing input). When the uninitialised index of
    the reading loop holds 4 on entry, [updateSoilHumidity] reads no
    sensor: the array keeps its old content and the average is taken
    over it. With every sensor at 50 percent the initial array stays all
    zero, where a loop starting at 0 stores 50 sixteen times. *)
Theorem C10_soil_loop_skipped_when_index_starts_at_4 (readADC : Z -> Z -> Z) (st : State) :
  soilHumidity <$> updateSoilHumidity 4 readADC st = Some (soilHumidity st) /\
  avgSoilHumidity <$> updateSoilHumidity 4 readADC st = Some (soilAverage (soilHumidity st)) /\
  soilHumidity <$> updateSoilHumidity 4 damp boot = Some (repeat 0 16) /\
  soilHumidity <$> updateSoilHumidity 0 damp boot = Some (repeat 50 16).
Proof.
  rewrite updateSoilHumidity_skipped by lia. repeat split; reflexivity.
Qed.

(** ** Invariants *)

Lemma well_formed_boot : well_formed boot.
Proof.
  unfold well_formed, is_uint8, is_direction.
  repeat split; try reflexivity; try (cbv; congruence); auto.
Qed.

Lemma well_formed_setup lk st : well_formed st -> well_formed (setup lk st).
Proof. intros H. exact H. Qed.

Lemma well_formed_pulse0 st : well_formed st -> well_formed (pulseInterrupt0 st).
Proof.
  unfold well_formed. cbn. intros (? & ? & [? ?] & ? & ? & ? & ? & ? & ?).
  split_and!; auto using to_uint8_range.
Qed.

Lemma well_formed_pulse1 st : well_formed st -> well_formed (pulseInterrupt1 st).
Proof.
  unfold well_formed. cbn. intros (? & ? & [? ?] & ? & ? & ? & ? & ? & ?).
  split_and!; auto using to_uint8_range.
Qed.

Lemma well_formed_setValve which p st st' :
  is_uint8 p -> setValve which p st = Some st' -> well_formed st -> well_formed st'.
Proof.
  intros Hp. unfold setValve, setMotor.
  destruct (which =? 0), (which =? 1); cbn [mbind option_bind]; try discriminate.
  all: intros [= <-]; unfold well_formed, is_direction;
    intros (? & ? & [? ?] & ? & ? & ? & ? & ? & ?).
  all: repeat case_if; cbn; split_and!; auto.
Qed.

Lemma decodedInterval_range doc st : 1000 <= decodedInterval doc st < 2 ^ 16.
Proof.
  unfold decodedInterval. cbn zeta.
  set (r := to_uint16 _). assert (Hr : is_uint16 r) by apply to_uint16_range.
  unfold is_uint16 in Hr. unfold C_REPORT_INTERVAL.
  destruct (Z.leb_spec 1000 r); change (2 ^ 16) with 65536 in *; lia.
Qed.

Lemma well_formed_recieveStates input st st' :
  recieveStates input st = Some st' -> well_formed st -> well_formed st'.
Proof.
  destruct input as [[err doc]|]; [|now intros [= <-]].
  destruct err.
  2-6: rewrite recieveStates_error by discriminate; now intros [= <-].
  destruct (recieveStates_ok doc st) as (st2 & st3 & E & H2 & H3 & _).
  rewrite E. intros [= <-] Hwf. cbn zeta in H2, H3.
  assert (Hwf1 : well_formed (with_reportInterval (decodedInterval doc st) st)).
  { unfold well_formed in *. cbn. pose proof (decodedInterval_range doc st). tauto. }
  assert (Hwf2 : well_formed st2).
  { revert H2. case_if; [now intros -> | intros H2].
    exact (well_formed_setValve _ _ _ _ (to_uint8_range _) H2 Hwf1). }
  revert H3. case_if; [now intros -> | intros H3].
  exact (well_formed_setValve _ _ _ _ (to_uint8_range _) H3 Hwf2).
Qed.

Lemma soilStore_length soil i v soil' :
  soilStore soil i v = Some soil' -> length soil' = length soil.
Proof. unfold soilStore. case_if; [|discriminate]. intros [= <-]. apply length_insert. Qed.

Lemma soilReadLoop_length readADC n : forall i soil soil',
  soilReadLoop readADC n i soil = Some soil' -> length soil' = length soil.
Proof.
  induction n as [|n IH]; intros i soil soil'; cbn [soilReadLoop]; [now intros [= <-]|].
  destruct (soilStore soil i _) as [s1|] eqn:E1; [|discriminate]. cbn [mbind option_bind].
  destruct (soilStore s1 (i + 4) _) as [s2|] eqn:E2; [|discriminate]. cbn [mbind option_bind].
  destruct (soilStore s2 (i + 8) _) as [s3|] eqn:E3; [|discriminate]. cbn [mbind option_bind].
  destruct (soilStore s3 (i + 12) _) as [s4|] eqn:E4; [|discriminate]. cbn [mbind option_bind].
  intros H. rewrite (IH _ _ _ H).
  now rewrite (soilStore_length _ _ _ _ E4), (soilStore_length _ _ _ _ E3),
    (soilStore_length _ _ _ _ E2), (soilStore_length _ _ _ _ E1).
Qed.

Lemma well_formed_updateSoilHumidity i0 readADC st st' :
  updateSoilHumidity i0 readADC st = Some st' -> well_formed st -> well_formed st'.
Proof.
  unfold updateSoilHumidity.
  destruct (soilReadLoop _ _ _ _) as [soil|] eqn:E; [|discriminate].
  cbn [mbind option_bind]. intros [= <-]. unfold well_formed. cbn.
  rewrite (soilReadLoop_length _ _ _ _ _ E). tauto.
Qed.

Lemma well_formed_updateFlowRate lk st : well_formed st -> well_formed (updateFlowRate lk st).
Proof.
  unfold well_formed, updateFlowRate, setInterrupts, attachInterrupt, detachInterrupt.
  cbn [digitalPinToInterrupt PIN_FLOW_METER_0 PIN_FLOW_METER_1 Z.eqb Pos.eqb].
  intros (? & ? & [? ?] & ? & ? & ? & ? & ? & ?).
  assert (is_uint8 0) by (cbv; split; congruence).
  repeat case_if; cbn; rewrite ?length_insert; split_and!; auto.
Qed.

Lemma well_formed_updateSensorValues lk e st st' :
  updateSensorValues lk e st = Some st' -> well_formed st -> well_formed st'.
Proof.
  unfold updateSensorValues.
  destruct (updateSoilHumidity _ _ _) as [s1|] eqn:E; [|discriminate].
  cbn [mbind option_bind]. intros [= <-] Hwf.
  pose proof (well_formed_updateFlowRate lk s1
                (well_formed_updateSoilHumidity _ _ _ _ E Hwf)) as H.
  revert H. generalize (updateFlowRate lk s1). intros s2.
  unfold well_formed, updateTemperatureHumidity. state_simpl. exact id.
Qed.

Lemma well_formed_checkValves dr st st' :
  checkValves dr st = Some st' -> well_formed st -> well_formed st'.
Proof.
  intros E (? & ? & ? & ? & ? & ? & ? & D0 & D1).
  destruct (checkValves_channel 0 dr st (or_introl eq_refl)) as (s0 & E0 & V0 & K).
  destruct (checkValves_channel 1 dr st (or_intror eq_refl)) as (s1 & E1 & V1 & _).
  rewrite E in E0, E1. injection E0 as <-. injection E1 as <-.
  destruct K as (K1 & K2 & K3 & K4 & _ & _ & K5 & _ & _ & _ & _ & _ & _ & _ & K6 & K7 & _).
  unfold well_formed. rewrite K1, K2, K3, K4, K5, K6, K7.
  assert (M0 : is_direction (motorState0 st')).
  { unfold viewOf in V0. cbn [motorStateOf targetValvePosMsecOf Z.eqb] in V0.
    revert V0. unfold is_direction in *.
    tick_cases; intros [= _ -> _ _]; tauto. }
  assert (M1 : is_direction (motorState1 st')).
  { unfold viewOf in V1. cbn [motorStateOf targetValvePosMsecOf Z.eqb Pos.eqb] in V1.
    revert V1. unfold is_direction in *.
    tick_cases; intros [= _ -> _ _]; tauto. }
  tauto.
Qed.

Lemma well_formed_loop lk e st st' :
  loop lk e st = Some st' -> well_formed st -> well_formed st'.
Proof.
  unfold loop.
  destruct (recieveStates _ st) as [s1|] eqn:E1; [|discriminate].
  cbn [mbind option_bind]. intros H Hwf.
  pose proof (well_formed_recieveStates _ _ _ E1 Hwf) as Hwf1.
  match type of H with
  | ((if ?c then _ else _) ≫= _) = _ => destruct c
  end.
  - match type of H with
    | ((updateSensorValues lk e ?s ≫= _) ≫= _) = _ =>
        destruct (updateSensorValues lk e s) as [s2|] eqn:E2; [|discriminate];
        assert (Hwf2 : well_formed s2)
          by (apply (well_formed_updateSensorValues _ _ _ _ E2); exact Hwf1)
    end.
    cbn [mbind option_bind] in H.
    apply (well_formed_checkValves _ _ _ H). exact Hwf2.
  - cbn [mbind option_bind] in H.
    apply (well_formed_checkValves _ _ _ H). exact Hwf1.
Qed.

Theorem reachable_well_formed lk st : reachable lk st -> well_formed st.
Proof.
  induction 1 as [|e st st' _ IH Hloop|st _ IH|st _ IH].
  - apply well_formed_setup, well_formed_boot.
  - exact (well_formed_loop _ _ _ _ Hloop IH).
  - now apply well_formed_pulse0.
  - now apply well_formed_pulse1.
Qed.

(** ** The read-out against the interrupts *)

(** A sample that no pulse interrupts is [updateFlowRate]. *)
Lemma run_sampleSteps lk m :
  pc m = 0%nat ->
  globals (run lk sampleSteps m) = updateFlowRate lk (globals m) /\
  pc (run lk sampleSteps m) = 0%nat.
Proof.
  destruct m as [g p s0 s1 f0 f1 w]. cbn [pc]. intros ->. split; reflexivity.
Qed.

Lemma wrapped_step lk m ev : wrapped (step lk m ev) = false -> wrapped m = false.
Proof.
  destruct ev; cbn [step].
  - destruct (intAttached0 (globals m)); cbn [wrapped]; [|easy].
    now intros [? _]%orb_false_elim.
  - destruct (intAttached1 (globals m)); cbn [wrapped]; [|easy].
    now intros [? _]%orb_false_elim.
  - destruct (flowSteps !! pc m); cbn [wrapped]; easy.
Qed.

Lemma accounted_started lk : accounted lk (started lk).
Proof.
  unfold accounted, started, pending0, pending1. cbn.
  repeat split; intros; try lia; try reflexivity.
Qed.

Lemma accounted_step lk m ev :
  detach_masks_both lk -> accounted lk m -> accounted lk (step lk m ev).
Proof.
  intros Hmask (Hpc & Hc0 & Hc1 & H1 & Hmid & H7 & Hsum).
  destruct m as [g p s0 s1 f0 f1 w]. cbn [pc globals wrapped sampled0 sampled1 fired0 fired1] in *.
  unfold accounted, pending0, pending1 in *.
  cbn [pc globals wrapped sampled0 sampled1 fired0 fired1] in *.
  destruct ev; cbn [step globals].
  - (* a pulse on meter 0 *)
    destruct (intAttached0 g) eqn:Ea;
      cbn [pc globals wrapped sampled0 sampled1 fired0 fired1]; [|tauto].
    cbn [pulseInterrupt0 with_pulseCount0 pulseCount0 pulseCount1 intAttached0 intAttached1].
    rewrite ?Ea.
    assert (Hout : ~ (2 <= p <= 6)%nat) by (intros Hp; destruct (Hmid Hp); congruence).
    split; [exact Hpc|]. split; [apply to_uint8_range|]. split; [exact Hc1|].
    split; [exact H1|]. split; [exact Hmid|]. split; [exact H7|].
    intros [Hw Hne]%orb_false_elim. apply Z.eqb_neq in Hne.
    destruct (Hsum Hw) as [S0 S1]. split; [|exact S1]. revert S0.
    destruct ((p =? 3)%nat || (p =? 4)%nat) eqn:Ep.
    { exfalso. apply Hout. apply orb_true_iff in Ep. rewrite !Nat.eqb_eq in Ep. lia. }
    intros S0. rewrite to_uint8_id by (unfold is_uint8; change (2 ^ 8) with 256; lia). lia.
  - (* a pulse on meter 1 *)
    destruct (intAttached1 g) eqn:Ea;
      cbn [pc globals wrapped sampled0 sampled1 fired0 fired1]; [|tauto].
    cbn [pulseInterrupt1 with_pulseCount1 pulseCount0 pulseCount1 intAttached0 intAttached1].
    rewrite ?Ea.
    assert (Hout : ~ (2 <= p <= 6)%nat) by (intros Hp; destruct (Hmid Hp); congruence).
    split; [exact Hpc|]. split; [exact Hc0|]. split; [apply to_uint8_range|].
    split; [exact H1|]. split; [exact Hmid|]. split; [exact H7|].
    intros [Hw Hne]%orb_false_elim. apply Z.eqb_neq in Hne.
    destruct (Hsum Hw) as [S0 S1]. split; [exact S0|]. revert S1.
    destruct ((p =? 4)%nat || (p =? 5)%nat) eqn:Ep.
    { exfalso. apply Hout. apply orb_true_iff in Ep. rewrite !Nat.eqb_eq in Ep. lia. }
    intros S1. rewrite to_uint8_id by (unfold is_uint8; change (2 ^ 8) with 256; lia). lia.
  - (* the main program moves on *)
    destruct p as [|[|[|[|[|[|[|[|p]]]]]]]]; [.. | lia];
      cbn [lookup list_lookup flowSteps doFlowStep length Nat.ltb Nat.leb
           pc globals wrapped sampled0 sampled1 fired0 fired1 Nat.eqb orb] in *;
      unfold detachInterrupt, attachInterrupt;
      cbn [digitalPinToInterrupt PIN_FLOW_METER_0 PIN_FLOW_METER_1 Z.eqb Pos.eqb].
    all: destruct Hmask as [[M0 M1] | [M0 M1]]; rewrite ?M0, ?M1;
      cbn [Z.eqb Pos.eqb with_intAttached0 with_intAttached1 with_flowRate with_pulseCount0
           with_pulseCount1 pulseCount0 pulseCount1 intAttached0 intAttached1 sumZ fold_right].
    all: repeat split; intros; try lia; try congruence; try reflexivity.
    all: try (destruct Hmid as [A0 A1]; [lia|]; assumption).
    all: try (destruct H1 as [A0 A1]; [reflexivity|]; auto; fail).
    all: try (destruct Hsum as [S0 S1]; [assumption|]; fold (sumZ s0); fold (sumZ s1); lia).
    all: try (apply H7; reflexivity).
Qed.

Lemma accounted_run lk trace : forall m,
  detach_masks_both lk -> accounted lk m -> accounted lk (run lk trace m).
Proof.
  induction trace as [|ev trace IH]; intros m Hmask Hm; [exact Hm|].
  cbn [run fold_left]. apply IH; [exact Hmask|]. now apply accounted_step.
Qed.

(** Had the two [detachInterrupt] calls named the two external
    interrupts, no handler could run between the read and the reset of a
    counter, and every execution of a handler would be counted exactly
    once as long as no counter overflows its byte. (A pulse that arrives
    while its interrupt is detached runs no handler and is not among the
    executions counted here.) *)
Lemma handler_runs_accounted_when_masked (lk : Linkage) (trace : list Event) :
  detach_masks_both lk ->
  wrapped (run lk trace (started lk)) = false ->
  sumZ (sampled0 (run lk trace (started lk))) + pending0 (run lk trace (started lk))
    = fired0 (run lk trace (started lk)) /\
  sumZ (sampled1 (run lk trace (started lk))) + pending1 (run lk trace (started lk))
    = fired1 (run lk trace (started lk)).
Proof.
  intros Hmask Hw.
  destruct (accounted_run lk trace (started lk) Hmask (accounted_started lk))
    as (_ & _ & _ & _ & _ & _ & Hsum).
  exact (Hsum Hw).
Qed.

Lemma run_app lk a b m : run lk (a ++ b) m = run lk b (run lk a m).
Proof. apply fold_left_app. Qed.

Lemma pending_between_samples m :
  pc m = 0%nat ->
  pending0 m = pulseCount0 (globals m) /\ pending1 m = pulseCount1 (globals m).
Proof. unfold pending0, pending1. intros ->. split; reflexivity. Qed.

Lemma updateFlowRate_resets lk st :
  pulseCount0 (updateFlowRate lk st) = 0 /\ pulseCount1 (updateFlowRate lk st) = 0.
Proof. split; reflexivity. Qed.

(** After a whole sample the counters are at zero, so the samples alone
    add up to the handler executions. *)
Lemma samples_sum_after_sample lk trace :
  detach_masks_both lk ->
  pc (run lk trace (started lk)) = 0%nat ->
  wrapped (run lk (trace ++ sampleSteps) (started lk)) = false ->
  sumZ (sampled0 (run lk (trace ++ sampleSteps) (started lk)))
    = fired0 (run lk (trace ++ sampleSteps) (started lk)) /\
  sumZ (sampled1 (run lk (trace ++ sampleSteps) (started lk)))
    = fired1 (run lk (trace ++ sampleSteps) (started lk)).
Proof.
  intros Hmask Hpc Hw.
  destruct (accounted_run lk (trace ++ sampleSteps) (started lk) Hmask
              (accounted_started lk)) as (_ & _ & _ & _ & _ & _ & Hsum).
  destruct (Hsum Hw) as [S0 S1]. clear Hsum Hw.
  rewrite run_app in *.
  destruct (run_sampleSteps lk _ Hpc) as [Hg Hp].
  destruct (pending_between_samples _ Hp) as [P0 P1].
  rewrite P0 in S0. rewrite P1 in S1. rewrite Hg in S0, S1.
  rewrite (proj1 (updateFlowRate_resets _ _)) in S0.
  rewrite (proj2 (updateFlowRate_resets _ _)) in S1.
  rewrite Z.add_0_r in S0, S1. now split.
Qed.

(** The counters are bytes: 256 pulses and then a sample return a count of
    0. *)
Lemma counter_wrap_loses_pulses :
  detach_masks_both lucky_linkage /\
  fired0 (run lucky_linkage full_turn (started lucky_linkage)) = 256 /\
  sampled0 (run lucky_linkage full_turn (started lucky_linkage)) = [0] /\
  pending0 (run lucky_linkage full_turn (started lucky_linkage)) = 0 /\
  sumZ (sampled0 (run lucky_linkage full_turn (started lucky_linkage)))
    <> fired0 (run lucky_linkage full_turn (started lucky_linkage)).
Proof.
  split; [left; split; vm_compute; reflexivity|].
  split; [vm_compute; reflexivity|].
  split; [vm_compute; reflexivity|].
  split; [vm_compute; reflexivity|].
  vm_compute. discriminate.
Qed.

(** With handlers linked as usual neither [detachInterrupt] call names an
    external interrupt: both stay enabled during the read-out, and a
    pulse between the read and the reset of its counter is dropped. *)
Lemma unmasked_pulse_is_lost :
  ~ detach_masks_both usual_linkage /\
  fired0 (run usual_linkage pulse_in_sample (started usual_linkage)) = 1 /\
  sampled0 (run usual_linkage pulse_in_sample (started usual_linkage)) = [0] /\
  pending0 (run usual_linkage pulse_in_sample (started usual_linkage)) = 0 /\
  wrapped (run usual_linkage pulse_in_sample (started usual_linkage)) = false.
Proof.
  split.
  - intros [[H _] | [H _]]; vm_compute in H; discriminate.
  - repeat split; vm_compute; reflexivity.
Qed.

(** ** Valve commands in general *)

Lemma scaled_run_time c p :
  is_uint8 c -> is_uint8 p ->
  store_through_ulong (to_int16 (Z.quot 4100 100 * Z.abs (c - p))) = 41 * Z.abs (c - p).
Proof.
  intros Hc Hp. change (Z.quot 4100 100) with 41.
  unfold is_uint8 in *. change (2 ^ 8) with 256 in *.
  rewrite to_int16_id, store_through_ulong_id;
    unfold is_long, is_int, INT_MIN, INT_MAX; lia.
Qed.

(** [setValve] for any byte: what it leaves of the valve it is called
    for. *)
Lemma setValve_view which p st :
  which = 0 \/ which = 1 ->
  is_uint8 (targetValvePosOf which st) -> is_uint8 p ->
  exists st',
    setValve which p st = Some st' /\
    targetValvePosOf which st' = p /\
    viewOf which st' =
      (commandedRunTime (targetValvePosOf which st) p,
       commandedDirection (targetValvePosOf which st) p,
       fst (motorPinLevels (commandedDirection (targetValvePosOf which st) p)),
       snd (motorPinLevels (commandedDirection (targetValvePosOf which st) p))).
Proof.
  intros Hw Hc Hp.
  pose proof (scaled_run_time _ _ Hc Hp) as Hscaled.
  unfold commandedRunTime, commandedDirection, motorPinLevels, viewOf.
  destruct Hw as [-> | ->]; unfold targetValvePosOf in *; cbn [Z.eqb Pos.eqb] in *;
    unfold setValve;
    cbn [Z.eqb Pos.eqb mbind option_bind deref assign
      ref_targetValvePos0 ref_targetValvePos1 ref_targetValvePosMsec0 ref_targetValvePosMsec1].
  all: match goal with
       | |- context [Z.ltb ?c ?q] =>
           destruct (Z.ltb_spec c q), (Z.ltb_spec q c); try lia;
           destruct (Z.eqb_spec q 0), (Z.eqb_spec q 100); try lia
       end.
  all: cbn [Z.eqb Pos.eqb orb C_VALVE_OPEN_TIME C_VALVE_CLOSE_TIME].
  all: try rewrite Hscaled.
  all: first [rewrite setMotor_0 | rewrite setMotor_1]; eexists; (split; [reflexivity|]).
  all: cbn -[Z.mul Z.abs Z.sub]; pin_lookup; split; [reflexivity|].
  all: try reflexivity; repeat f_equal; first [exact Hscaled | symmetry; exact Hscaled].
Qed.

(** The run time a command sets is never negative and never more than
    41 ms times 255. *)
Theorem setValve_run_time_bounded (which p : Z) (st : State) :
  which = 0 \/ which = 1 ->
  is_uint8 (targetValvePosOf which st) -> is_uint8 p ->
  exists st',
    setValve which p st = Some st' /\
    0 <= targetValvePosMsecOf which st' <= 10455.
Proof.
  intros Hw Hc Hp.
  destruct (setValve_view which p st Hw Hc Hp) as (st' & E & _ & V).
  exists st'. split; [exact E|].
  unfold viewOf in V. injection V as -> _ _ _.
  unfold commandedRunTime, is_uint8 in *. change (2 ^ 8) with 256 in *.
  destruct ((p =? 0) || (p =? 100)); lia.
Qed.

Lemma setValve_run_time_bounded_witness :
  (0 = 0 \/ 0 = 1) /\ is_uint8 (targetValvePosOf 0 boot) /\ is_uint8 255 /\
  exists st',
    setValve 0 255 boot = Some st' /\
    0 <= targetValvePosMsecOf 0 st' <= 10455.
Proof.
  assert (Hc : is_uint8 (targetValvePosOf 0 boot)) by (cbv; split; congruence).
  assert (Hp : is_uint8 255) by (cbv; split; congruence).
  split; [now left|]. split; [exact Hc|]. split; [exact Hp|].
  exact (setValve_run_time_bounded 0 255 boot (or_introl eq_refl) Hc Hp).
Defined.

Lemma setValve_other which p st st' :
  which = 0 \/ which = 1 ->
  setValve which p st = Some st' ->
  targetValvePosOf (1 - which) st' = targetValvePosOf (1 - which) st /\
  viewOf (1 - which) st' = viewOf (1 - which) st.
Proof.
  intros Hw E. destruct (setValve_frame which p st Hw) as (s & Es & _ & T & V & _).
  rewrite Es in E. injection E as <-. now split.
Qed.

(** There is no range check on a commanded position: a member that
    differs from the stored target is applied as a byte. *)
Theorem decode_valve_command (which v : Z) (doc : gmap string JsonVariant) (st : State) :
  which = 0 \/ which = 1 ->
  is_uint8 (targetValvePos0 st) -> is_uint8 (targetValvePos1 st) ->
  memberInt doc (targetKey which) = Some v ->
  v <> targetValvePosOf which st ->
  exists st',
    recieveStates (Some (Ok, doc)) st = Some st' /\
    targetValvePosOf which st' = to_uint8 v /\
    viewOf which st' =
      (commandedRunTime (targetValvePosOf which st) (to_uint8 v),
       commandedDirection (targetValvePosOf which st) (to_uint8 v),
       fst (motorPinLevels (commandedDirection (targetValvePosOf which st) (to_uint8 v))),
       snd (motorPinLevels (commandedDirection (targetValvePosOf which st) (to_uint8 v)))).
Proof.
  intros Hw H0 H1 Hv Hne.
  destruct (recieveStates_ok doc st) as (st2 & st3 & E & Hst2 & Hst3 & T1).
  cbn zeta in Hst2, Hst3. exists st3. split; [exact E|].
  set (st1 := with_reportInterval (decodedInterval doc st) st) in *.
  destruct Hw as [-> | ->]; cbn [targetKey Z.eqb Pos.eqb] in Hv;
    unfold targetValvePosOf in Hne |- *; cbn [Z.eqb Pos.eqb] in Hne |- *.
  - (* valve 0: commanded first, then left alone by the step for valve 1 *)
    rewrite Hv in Hst2. cbn [default from_option id] in Hst2.
    destruct (Z.eqb_spec v (targetValvePos0 st)) as [|_]; [contradiction|].
    destruct (setValve_view 0 (to_uint8 v) st1 (or_introl eq_refl) H0 (to_uint8_range v))
      as (s & Es & Ts & Vs).
    rewrite Es in Hst2. injection Hst2 as <-.
    assert (K : targetValvePos0 st3 = targetValvePos0 s /\ viewOf 0 st3 = viewOf 0 s).
    { revert Hst3. case_if; [now intros ->|]. intros Hst3.
      exact (setValve_other 1 _ _ _ (or_intror eq_refl) Hst3). }
    destruct K as [-> ->]. split; [exact Ts | exact Vs].
  - (* valve 1: the step for valve 0 has left it alone *)
    rewrite Hv in Hst3. cbn [default from_option id] in Hst3.
    destruct (Z.eqb_spec v (targetValvePos1 st)) as [|_]; [contradiction|].
    assert (K : targetValvePos1 st2 = targetValvePos1 st /\ viewOf 1 st2 = viewOf 1 st).
    { split; [exact T1|]. revert Hst2. case_if; [now intros ->|]. intros Hst2.
      exact (proj2 (setValve_other 0 _ _ _ (or_introl eq_refl) Hst2)). }
    destruct K as [K1 K2].
    assert (H1' : is_uint8 (targetValvePosOf 1 st2)) by (unfold targetValvePosOf; cbn; now rewrite K1).
    destruct (setValve_view 1 (to_uint8 v) st2 (or_intror eq_refl) H1' (to_uint8_range v))
      as (s & Es & Ts & Vs).
    rewrite Es in Hst3. injection Hst3 as <-.
    unfold targetValvePosOf in Ts, Vs; cbn [Z.eqb Pos.eqb] in Ts, Vs.
    rewrite K1 in Vs. split; [exact Ts | exact Vs].
Qed.

Lemma decode_valve_command_witness :
  ((0 = 0 \/ 0 = 1) /\ is_uint8 (targetValvePos0 boot) /\ is_uint8 (targetValvePos1 boot) /\
   memberInt {[ "targetValvePos0" := json_int (-1) ]} (targetKey 0) = Some (-1) /\
   -1 <> targetValvePosOf 0 boot) /\
  exists st',
    recieveStates (Some (Ok, {[ "targetValvePos0" := json_int (-1) ]})) boot = Some st' /\
    targetValvePosOf 0 st' = 255 /\
    viewOf 0 st' = (10455, 1, Some true, Some false).
Proof.
  assert (H0 : is_uint8 (targetValvePos0 boot)) by (cbv; split; congruence).
  assert (H1 : is_uint8 (targetValvePos1 boot)) by (cbv; split; congruence).
  assert (Hv : memberInt {[ "targetValvePos0" := json_int (-1) ]} (targetKey 0) = Some (-1))
    by reflexivity.
  assert (Hne : -1 <> targetValvePosOf 0 boot) by (cbv; congruence).
  split; [split_and!; auto|].
  exact (decode_valve_command 0 (-1) _ boot (or_introl eq_refl) H0 H1 Hv Hne).
Defined.

(** ** The passes of [loop] *)

Lemma sendStates_reportLine timeStamp st :
  sendStates timeStamp st = with_Serial (Serial st ++ [reportLine timeStamp st]) st.
Proof. reflexivity. Qed.

(** [checkValves] leaves every global alone that is not the timing, the
    state or the pins of a motor. *)
Lemma checkValves_otherFields dr st st' :
  checkValves dr st = Some st' -> otherFields st' = otherFields st.
Proof.
  rewrite checkValves_blocks. intros [= <-].
  unfold limitStop1, limitStop0, countDown1, countDown0, stopMotor0, stopMotor1, digitalWrite.
  repeat case_if; reflexivity.
Qed.

Lemma viewOf_valveFields which st st' :
  valveFields st' = valveFields st -> viewOf which st' = viewOf which st.
Proof.
  unfold valveFields, viewOf, targetValvePosMsecOf, motorStateOf.
  intros [= _ _ -> -> -> -> ->]. reflexivity.
Qed.

Lemma updateSoilHumidity_valveFields i0 readADC st st' :
  updateSoilHumidity i0 readADC st = Some st' -> valveFields st' = valveFields st.
Proof.
  unfold updateSoilHumidity.
  destruct (soilReadLoop _ _ _ _) as [soil|]; [|discriminate].
  cbn [mbind option_bind]. now intros [= <-].
Qed.

Lemma updateFlowRate_valveFields lk st :
  valveFields (updateFlowRate lk st) = valveFields st.
Proof.
  unfold updateFlowRate, setInterrupts, attachInterrupt, detachInterrupt.
  cbn [digitalPinToInterrupt PIN_FLOW_METER_0 PIN_FLOW_METER_1 Z.eqb Pos.eqb].
  repeat case_if; reflexivity.
Qed.

Lemma rest_of_sensors_valveFields e d st :
  valveFields (with_doorOpen d (updateTemperatureHumidity e st)) = valveFields st.
Proof. reflexivity. Qed.

Lemma updateSensorValues_valveFields lk e st st' :
  updateSensorValues lk e st = Some st' -> valveFields st' = valveFields st.
Proof.
  unfold updateSensorValues.
  destruct (updateSoilHumidity _ _ _) as [s1|] eqn:E; [|discriminate].
  cbn [mbind option_bind]. intros [= <-].
  etransitivity; [apply rest_of_sensors_valveFields|].
  etransitivity; [apply updateFlowRate_valveFields|].
  exact (updateSoilHumidity_valveFields _ _ _ _ E).
Qed.

(** A pass of [loop]: decode, take the time, report when due, check the
    valves. *)
Lemma loop_pass lk e st st' :
  loop lk e st = Some st' ->
  exists st1 st2,
    recieveStates (serialInput e) st = Some st1 /\
    (if reportDue e st1 then
       exists s,
         updateSensorValues lk e (with_lastCheckTime (to_uint32 (millis_check e)) (timed e st1))
           = Some s /\
         st2 = sendStates (to_uint32 (millis_stamp e)) s
     else st2 = timed e st1) /\
    checkValves (digitalRead e) st2 = Some st'.
Proof.
  unfold loop.
  destruct (recieveStates (serialInput e) st) as [st1|]; [|discriminate].
  cbn [mbind option_bind].
  change (with_reportDelta _ (with_lastTime _ (with_delta _ st1))) with (timed e st1).
  change (reportInterval (timed e st1) <=? _) with (reportDue e st1).
  destruct (reportDue e st1) eqn:Hdue.
  - destruct (updateSensorValues lk e _) as [s|] eqn:Es; [|discriminate].
    cbn [mbind option_bind]. intros H. exists st1, (sendStates (to_uint32 (millis_stamp e)) s).
    rewrite Hdue. split; [reflexivity|]. split; [|exact H]. now exists s.
  - cbn [mbind option_bind]. intros H. exists st1, (timed e st1). rewrite Hdue. auto.
Qed.

Lemma updateSoilHumidity_kept i0 readADC st st' :
  updateSoilHumidity i0 readADC st = Some st' -> keptBySensors st' = keptBySensors st.
Proof.
  unfold updateSoilHumidity.
  destruct (soilReadLoop _ _ _ _) as [soil|]; [|discriminate].
  cbn [mbind option_bind]. now intros [= <-].
Qed.

Lemma updateFlowRate_kept lk st :
  keptBySensors (updateFlowRate lk st) = keptBySensors st.
Proof.
  unfold updateFlowRate, setInterrupts, attachInterrupt, detachInterrupt.
  cbn [digitalPinToInterrupt PIN_FLOW_METER_0 PIN_FLOW_METER_1 Z.eqb Pos.eqb].
  repeat case_if; reflexivity.
Qed.

Lemma rest_of_sensors_kept e d st :
  keptBySensors (with_doorOpen d (updateTemperatureHumidity e st)) = keptBySensors st.
Proof. reflexivity. Qed.

Lemma updateSensorValues_kept lk e st st' :
  updateSensorValues lk e st = Some st' -> keptBySensors st' = keptBySensors st.
Proof.
  unfold updateSensorValues.
  destruct (updateSoilHumidity _ _ _) as [s1|] eqn:E; [|discriminate].
  cbn [mbind option_bind]. intros [= <-].
  etransitivity; [apply rest_of_sensors_kept|].
  etransitivity; [apply updateFlowRate_kept|].
  exact (updateSoilHumidity_kept _ _ _ _ E).
Qed.

(** The state the valve check of a pass starts from: the valves as the
    decode has left them, the clock taken. *)
Lemma loop_before_valves lk e st1 st2 :
  (if reportDue e st1 then
     exists s,
       updateSensorValues lk e (with_lastCheckTime (to_uint32 (millis_check e)) (timed e st1))
         = Some s /\
       st2 = sendStates (to_uint32 (millis_stamp e)) s
   else st2 = timed e st1) ->
  valveFields st2 = valveFields st1 /\
  delta st2 = passDelta e st1 /\
  lastTime st2 = to_uint32 (millis_check e) /\
  reportDelta st2 = to_int16 (elapsedSinceReport e st1) /\
  reportInterval st2 = reportInterval st1.
Proof.
  destruct (reportDue e st1).
  - intros (s & Es & ->).
    pose proof (updateSensorValues_valveFields _ _ _ _ Es) as V.
    pose proof (updateSensorValues_kept _ _ _ _ Es) as K.
    unfold keptBySensors in K. injection K as _ _ K3 _ K5 K6 K7 _.
    rewrite sendStates_reportLine. unfold valveFields in *. state_simpl.
    unfold timed in *. revert V K3 K5 K6 K7. state_simpl.
    intros V -> -> -> ->. now rewrite V.
  - intros ->. unfold timed, valveFields. state_simpl. auto.
Qed.

(** What a pass does to one valve. *)
Lemma loop_valve_view which lk e st st' :
  which = 0 \/ which = 1 ->
  loop lk e st = Some st' ->
  exists st1,
    recieveStates (serialInput e) st = Some st1 /\
    viewOf which st' =
      valveTick (passDelta e st1) (negb (digitalRead e (closeLimitPinOf which)))
        (negb (digitalRead e (openLimitPinOf which))) (viewOf which st1) /\
    lastTime st' = to_uint32 (millis_check e).
Proof.
  intros Hw Hloop.
  destruct (loop_pass _ _ _ _ Hloop) as (st1 & st2 & E1 & Hmid & Hcv).
  destruct (loop_before_valves _ _ _ _ Hmid) as (V & D & L & _).
  exists st1. split; [exact E1|].
  destruct (checkValves_channel which (digitalRead e) st2 Hw) as (s & Es & Vs & _).
  rewrite Hcv in Es. injection Es as <-.
  pose proof (checkValves_otherFields _ _ _ Hcv) as O.
  unfold otherFields in O. injection O as _ _ _ _ _ _ _ _ _ _ _ O _ _ _ _ _ _ _.
  split.
  - now rewrite Vs, D, (viewOf_valveFields which _ _ V).
  - now rewrite O, L.
Qed.

(** A pass without serial input leaves an idle motor idle. *)
Lemma valveTick_idle d closeLow openLow msec p0 p1 :
  valveTick d closeLow openLow (msec, 0, p0, p1) = (msec, 0, p0, p1).
Proof.
  unfold valveTick, limitStopView, countDownView. cbn [Z.eqb negb andb].
  now rewrite !andb_false_r.
Qed.

(** One pass on a running motor: it is stopped, or it goes on with less
    time left. *)
Lemma valveTick_running d closeLow openLow msec motor p0 p1 :
  0 < d <= INT_MAX -> msec < 2 ^ 31 ->
  exists msec' motor' p0' p1',
    valveTick d closeLow openLow (msec, motor, p0, p1) = (msec', motor', p0', p1') /\
    msec' < 2 ^ 31 /\
    (motor' = 0 \/ (msec <= 0 -> False) /\ msec' <= msec - 1).
Proof.
  intros Hd Hm. unfold INT_MAX in Hd.
  change (2 ^ 15) with 32768 in Hd. change (2 ^ 31) with 2147483648 in *.
  unfold valveTick, limitStopView, countDownView.
  destruct (Z.ltb_spec 0 msec), (Z.leb_spec msec 0), (Z.eqb_spec motor 0); try lia;
    cbn [andb negb].
  all: repeat match goal with
       | |- context [?b && (?x =? ?y)] => destruct (Z.eqb_spec x y); rewrite ?andb_true_r, ?andb_false_r
       | |- context [if ?b then _ else _] => destruct b
       end.
  all: do 4 eexists; (split; [reflexivity|]); split; try lia; auto.
  all: try (rewrite to_int32_id by (unfold is_long; change (2 ^ 31) with 2147483648; lia)).
  all: try lia.
  all: right; split; [lia|];
    rewrite to_int32_id by (unfold is_long; change (2 ^ 31) with 2147483648; lia); lia.
Qed.

Lemma motor_stops_after_passes which lk es : forall st st',
  which = 0 \/ which = 1 ->
  ticking (lastTime st) es ->
  loops lk es st = Some st' ->
  targetValvePosMsecOf which st < 2 ^ 31 ->
  motorStateOf which st = 0 \/
    Z.max 0 (targetValvePosMsecOf which st) < Z.of_nat (length es) ->
  motorStateOf which st' = 0.
Proof.
  induction es as [|e es IH]; intros st st' Hw Htick Hrun Hlong Hcase.
  - cbn in Hrun. injection Hrun as <-. cbn [length] in Hcase. lia.
  - cbn [loops] in Hrun. destruct (loop lk e st) as [s|] eqn:El; [|discriminate].
    cbn [mbind option_bind] in Hrun.
    destruct Htick as (Hin & Hd & Htick).
    destruct (loop_valve_view which _ _ _ _ Hw El) as (st1 & E1 & V & L).
    rewrite Hin in E1. cbn [recieveStates] in E1. injection E1 as <-.
    apply (IH s st' Hw); [now rewrite L | exact Hrun | |].
    + (* the time left stays a long *)
      unfold viewOf in V. unfold passDelta in V.
      destruct (Z.eq_dec (motorStateOf which st) 0) as [Hz | Hnz].
      * rewrite Hz, valveTick_idle in V. now injection V as -> _ _ _.
      * destruct (valveTick_running (to_int16 (to_uint32 (millis_delta e - lastTime st)))
                    (negb (digitalRead e (closeLimitPinOf which)))
                    (negb (digitalRead e (openLimitPinOf which)))
                    (targetValvePosMsecOf which st) (motorStateOf which st)
                    (pinLevel st !! (motorPinsOf which).1)
                    (pinLevel st !! (motorPinsOf which).2))
          as (m' & s' & q0 & q1 & Et & Hm' & _).
        { split; [exact Hd|]. pose proof (to_uint16_range 0). wrap_arith. }
        { exact Hlong. }
        rewrite Et in V. now injection V as -> _ _ _.
    + unfold viewOf in V. unfold passDelta in V.
      destruct (Z.eq_dec (motorStateOf which st) 0) as [Hz | Hnz].
      * rewrite Hz, valveTick_idle in V. injection V as _ -> _ _. now left.
      * destruct Hcase as [Hz | Hlen]; [contradiction|].
        destruct (valveTick_running (to_int16 (to_uint32 (millis_delta e - lastTime st)))
                    (negb (digitalRead e (closeLimitPinOf which)))
                    (negb (digitalRead e (openLimitPinOf which)))
                    (targetValvePosMsecOf which st) (motorStateOf which st)
                    (pinLevel st !! (motorPinsOf which).1)
                    (pinLevel st !! (motorPinsOf which).2))
          as (m' & s' & q0 & q1 & Et & Hm' & Hstep).
        { split; [exact Hd|]. pose proof (to_uint16_range 0). wrap_arith. }
        { exact Hlong. }
        rewrite Et in V. injection V as -> -> _ _.
        destruct Hstep as [Hs | [Hpos Hless]]; [now left | right].
        cbn [length] in Hlen. lia.
Qed.

(** While no serial input arrives and every pass computes a positive
    [delta] (the passes are at least 1 ms apart and the clock difference,
    cut to a 16-bit [int], has not come out zero or negative, see
    [ticking]), a motor does not run for more passes than it has
    milliseconds left, plus one: by then [checkValves] has stopped it.
    Nothing is said here of a pass that comes so late that its [delta] is
    negative; such a pass adds to the remaining time. *)
Theorem motor_stops_after_run_time
    (which : Z) (lk : Linkage) (es : list Env) (st st' : State) :
  which = 0 \/ which = 1 ->
  ticking (lastTime st) es ->
  loops lk es st = Some st' ->
  targetValvePosMsecOf which st < 2 ^ 31 ->
  Z.max 0 (targetValvePosMsecOf which st) < Z.of_nat (length es) ->
  motorStateOf which st' = 0.
Proof.
  intros Hw Htick Hrun Hlong Hlen.
  apply (motor_stops_after_passes which lk es st st' Hw Htick Hrun Hlong). now right.
Qed.

Lemma motor_stops_after_run_time_witness :
  ((0 = 0 \/ 0 = 1) /\
   ticking (lastTime nearly_there) two_quiet_passes /\
   targetValvePosMsecOf 0 nearly_there < 2 ^ 31 /\
   Z.max 0 (targetValvePosMsecOf 0 nearly_there) < Z.of_nat (length two_quiet_passes)) /\
  exists st',
    loops usual_linkage two_quiet_passes nearly_there = Some st' /\
    motorStateOf 0 nearly_there = 1 /\
    motorStateOf 0 st' = 0.
Proof.
  assert (Ht : ticking (lastTime nearly_there) two_quiet_passes)
    by (cbv; repeat split).
  assert (Hl : targetValvePosMsecOf 0 nearly_there < 2 ^ 31) by reflexivity.
  assert (Hn : Z.max 0 (targetValvePosMsecOf 0 nearly_there)
               < Z.of_nat (length two_quiet_passes)) by reflexivity.
  split; [split_and!; auto|].
  destruct (loops usual_linkage two_quiet_passes nearly_there) as [s|] eqn:E;
    [|vm_compute in E; discriminate].
  exists s. split; [reflexivity|]. split; [reflexivity|].
  exact (motor_stops_after_run_time 0 usual_linkage two_quiet_passes nearly_there s
           (or_introl eq_refl) Ht E Hl Hn).
Defined.

(** ** The motor pins follow the motor state *)

Lemma pinsFollow_valveTick d closeLow openLow v :
  pinsFollow v -> pinsFollow (valveTick d closeLow openLow v).
Proof.
  destruct v as [[[msec motor] p0] p1].
  unfold valveTick, limitStopView, countDownView, pinsFollow, motorPinLevels.
  intros H. repeat case_if; auto.
Qed.

Lemma pinsFollow_setValve which p st st' :
  which = 0 \/ which = 1 ->
  is_uint8 (targetValvePosOf which st) -> is_uint8 p ->
  setValve which p st = Some st' ->
  pinsFollow (viewOf which st').
Proof.
  intros Hw Hc Hp E.
  destruct (setValve_view which p st Hw Hc Hp) as (s & Es & _ & V).
  rewrite Es in E. injection E as <-. rewrite V. cbn. now left.
Qed.

Lemma recieveStates_pinsFollow input st st' :
  well_formed st ->
  pinsFollow (viewOf 0 st) -> pinsFollow (viewOf 1 st) ->
  recieveStates input st = Some st' ->
  pinsFollow (viewOf 0 st') /\ pinsFollow (viewOf 1 st').
Proof.
  intros (H0 & H1 & _) P0 P1.
  destruct input as [[err doc]|]; [|intros [= <-]; now split].
  destruct err.
  2-6: rewrite recieveStates_error by discriminate; intros [= <-]; now split.
  destruct (recieveStates_ok doc st) as (st2 & st3 & E & Hst2 & Hst3 & T1).
  rewrite E. intros [= <-]. cbn zeta in Hst2, Hst3.
  set (st1 := with_reportInterval (decodedInterval doc st) st) in *.
  assert (Q2 : pinsFollow (viewOf 0 st2) /\ pinsFollow (viewOf 1 st2)).
  { revert Hst2. case_if; [intros ->; now split | intros Hst2]. split.
    - exact (pinsFollow_setValve 0 _ st1 _ (or_introl eq_refl) H0 (to_uint8_range _) Hst2).
    - replace (viewOf 1 st2) with (viewOf 1 st1); [exact P1|].
      symmetry. exact (proj2 (setValve_other 0 _ _ _ (or_introl eq_refl) Hst2)). }
  destruct Q2 as [Q20 Q21].
  revert Hst3. case_if; [intros ->; now split | intros Hst3]. split.
  - replace (viewOf 0 st3) with (viewOf 0 st2); [exact Q20|].
    symmetry. exact (proj2 (setValve_other 1 _ _ _ (or_intror eq_refl) Hst3)).
  - assert (H1' : is_uint8 (targetValvePosOf 1 st2))
      by (unfold targetValvePosOf; cbn [Z.eqb Pos.eqb]; now rewrite T1).
    exact (pinsFollow_setValve 1 _ st2 _ (or_intror eq_refl) H1' (to_uint8_range _) Hst3).
Qed.

Lemma loop_pinsFollow lk e st st' :
  well_formed st ->
  pinsFollow (viewOf 0 st) -> pinsFollow (viewOf 1 st) ->
  loop lk e st = Some st' ->
  pinsFollow (viewOf 0 st') /\ pinsFollow (viewOf 1 st').
Proof.
  intros Hwf P0 P1 El.
  destruct (loop_valve_view 0 _ _ _ _ (or_introl eq_refl) El) as (st1 & E1 & V0 & _).
  destruct (loop_valve_view 1 _ _ _ _ (or_intror eq_refl) El) as (st1' & E1' & V1 & _).
  rewrite E1 in E1'. injection E1' as <-.
  destruct (recieveStates_pinsFollow _ _ _ Hwf P0 P1 E1) as [Q0 Q1].
  rewrite V0, V1. split; now apply pinsFollow_valveTick.
Qed.

Lemma reachable_pinsFollow lk st :
  reachable lk st -> pinsFollow (viewOf 0 st) /\ pinsFollow (viewOf 1 st).
Proof.
  induction 1 as [|e st st' Hr [IH0 IH1] Hloop|st _ IH|st _ IH].
  - split; right; repeat split; reflexivity.
  - exact (loop_pinsFollow _ _ _ _ (reachable_well_formed _ _ Hr) IH0 IH1 Hloop).
  - exact IH.
  - exact IH.
Qed.

(** Between two passes of [loop] (after [setup], after every whole pass
    and after every pulse handler that runs there), the two pins of a
    motor are never both HIGH, both are LOW (or still unwritten) while its
    motor state is 0, and they are HIGH/LOW while it is 1 and LOW/HIGH
    while it is -1. Nothing is said here of the moments inside a pass:
    between the two writes of [setMotor] the pins can both be HIGH. *)
Theorem motor_pins_follow_motor_state (lk : Linkage) (st : State) (which : Z) :
  reachable lk st ->
  which = 0 \/ which = 1 ->
  ~ (pinLevel st !! fst (motorPinsOf which) = Some true /\
     pinLevel st !! snd (motorPinsOf which) = Some true) /\
  (motorStateOf which st = 0 ->
   pinLevel st !! fst (motorPinsOf which) <> Some true /\
   pinLevel st !! snd (motorPinsOf which) <> Some true) /\
  (motorStateOf which st = 1 ->
   pinLevel st !! fst (motorPinsOf which) = Some true /\
   pinLevel st !! snd (motorPinsOf which) = Some false) /\
  (motorStateOf which st = -1 ->
   pinLevel st !! fst (motorPinsOf which) = Some false /\
   pinLevel st !! snd (motorPinsOf which) = Some true).
Proof.
  intros Hr Hw.
  destruct (reachable_pinsFollow lk st Hr) as [P0 P1].
  assert (P : pinsFollow (viewOf which st)) by (destruct Hw as [-> | ->]; assumption).
  clear P0 P1. unfold pinsFollow, viewOf, motorPinLevels in P.
  destruct P as [[= -> ->] | (-> & -> & ->)].
  - split_and!.
    + intros [[= A] [= B]]. apply Z.eqb_eq in A, B. lia.
    + intros ->. split; discriminate.
    + intros ->. split; reflexivity.
    + intros ->. split; reflexivity.
  - split_and!.
    + intros [? _]; discriminate.
    + intros _. split; discriminate.
    + discriminate.
    + discriminate.
Qed.

Lemma motor_pins_follow_motor_state_witness :
  exists st',
    loop usual_linkage command_at_report_time (setup usual_linkage boot) = Some st' /\
    (reachable usual_linkage st' /\ (0 = 0 \/ 0 = 1)) /\
    motorStateOf 0 st' = 1 /\
    pinLevel st' !! fst (motorPinsOf 0) = Some true /\
    pinLevel st' !! snd (motorPinsOf 0) = Some false.
Proof.
  destruct (loop usual_linkage command_at_report_time (setup usual_linkage boot))
    as [s|] eqn:E; [|vm_compute in E; discriminate].
  assert (Hr : reachable usual_linkage s)
    by exact (reach_loop usual_linkage command_at_report_time _ s
                (reach_setup usual_linkage) E).
  assert (Hm : motorStateOf 0 s = 1) by (vm_compute in E; injection E as <-; reflexivity).
  exists s. split; [reflexivity|]. split; [split; [exact Hr | now left]|].
  split; [exact Hm|].
  exact (proj1 (proj2 (proj2 (motor_pins_follow_motor_state usual_linkage s 0
                                Hr (or_introl eq_refl)))) Hm).
Defined.

(** ** Reports *)

Lemma reportLine_otherFields timeStamp st st' :
  otherFields st' = otherFields st -> reportLine timeStamp st' = reportLine timeStamp st.
Proof.
  unfold otherFields, reportLine. intros [= -> -> _ -> -> -> -> -> -> -> _ _ _ _ _ _ _ _ _].
  reflexivity.
Qed.




Lemma otherFields_eq st st' :
  otherFields st' = otherFields st ->
  Serial st' = Serial st /\ lastCheckTime st' = lastCheckTime st /\
  soilHumidity st' = soilHumidity st /\ flowFields st' = flowFields st /\
  targetValvePos0 st' = targetValvePos0 st /\ targetValvePos1 st' = targetValvePos1 st /\
  reportInterval st' = reportInterval st /\ reportDelta st' = reportDelta st.
Proof.
  unfold otherFields, flowFields.
  intros [= -> -> -> -> _ _ _ _ _ -> -> _ -> _ -> -> _ _ ->]. split_and!; reflexivity.
Qed.

Lemma timed_fields e st :
  Serial (timed e st) = Serial st /\ lastCheckTime (timed e st) = lastCheckTime st /\
  soilHumidity (timed e st) = soilHumidity st /\ flowFields (timed e st) = flowFields st /\
  targetValvePos0 (timed e st) = targetValvePos0 st /\
  targetValvePos1 (timed e st) = targetValvePos1 st /\
  reportInterval (timed e st) = reportInterval st /\
  reportDelta (timed e st) = to_int16 (elapsedSinceReport e st).
Proof. split_and!; reflexivity. Qed.

(** What a pass does about the report. *)
Lemma loop_pass_report lk e st st' :
  loop lk e st = Some st' ->
  exists st1,
    recieveStates (serialInput e) st = Some st1 /\
    (reportDue e st1 = false ->
     Serial st' = Serial st1 /\ lastCheckTime st' = lastCheckTime st1 /\
     soilHumidity st' = soilHumidity st1 /\ flowFields st' = flowFields st1) /\
    (reportDue e st1 = true ->
     Serial st' = Serial st1 ++ [reportLine (to_uint32 (millis_stamp e)) st'] /\
     lastCheckTime st' = to_uint32 (millis_check e) /\
     pulseCount0 st' = 0 /\ pulseCount1 st' = 0).
Proof.
  intros Hloop.
  destruct (loop_pass _ _ _ _ Hloop) as (st1 & st2 & E1 & Hmid & Hcv).
  exists st1. split; [exact E1|].
  pose proof (checkValves_otherFields _ _ _ Hcv) as O.
  destruct (otherFields_eq _ _ O) as (OS & OL & OH & OF & _).
  split; intros Hdue; rewrite Hdue in Hmid.
  - subst st2. destruct (timed_fields e st1) as (TS & TL & TH & TF & _).
    rewrite OS, OL, OH, OF. auto.
  - destruct Hmid as (s & Es & ->).
    pose proof (updateSensorValues_kept _ _ _ _ Es) as K.
    unfold keptBySensors in K. injection K as _ _ _ KL _ _ _ KS.
    revert KL KS. unfold timed. state_simpl. intros KL KS.
    rewrite (reportLine_otherFields _ _ _ O), OS, OL.
    rewrite sendStates_reportLine. state_simpl. rewrite KS, KL.
    split; [reflexivity|]. split; [reflexivity|].
    unfold flowFields in OF. injection OF as _ -> ->.
    rewrite ?sendStates_reportLine. state_simpl.
    clear -Es. unfold updateSensorValues in Es.
    destruct (updateSoilHumidity _ _ _) as [s1|]; [|discriminate].
    cbn [mbind option_bind] in Es. injection Es as <-.
    generalize (updateFlowRate_resets lk s1). generalize (updateFlowRate lk s1).
    intros s2 [R0 R1]. unfold updateTemperatureHumidity. state_simpl. auto.
Qed.





(** ** What gets printed *)

Lemma reportLine_shape timeStamp st :
  well_formed st -> isReportLine (reportLine timeStamp st).
Proof.
  intros (_ & _ & _ & Hs & Hf & _).
  unfold isReportLine, reportLine. cbn. rewrite !length_map, Hs, Hf. auto.
Qed.

Lemma recieveStates_serial input st st' :
  recieveStates input st = Some st' ->
  Serial st' = Serial st \/
  exists msg, Serial st' = Serial st ++ [JObject [("error", JString msg)]].
Proof.
  destruct input as [[err doc]|]; [|intros [= <-]; now left].
  destruct err.
  2-6: rewrite recieveStates_error by discriminate; intros [= <-]; right; now eexists.
  destruct (recieveStates_ok doc st) as (st2 & st3 & E & H2 & H3 & _).
  rewrite E. intros [= <-]. cbn zeta in H2, H3. left.
  assert (S2 : Serial st2 = Serial st).
  { revert H2. case_if; [now intros ->|]. intros H2.
    now rewrite (proj2 (proj2 (setValve_keeps _ _ _ _ H2))). }
  rewrite <- S2. revert H3. case_if; [now intros ->|]. intros H3.
  exact (proj2 (proj2 (setValve_keeps _ _ _ _ H3))).
Qed.

Lemma reachable_lines lk st :
  reachable lk st ->
  Forall (fun line => isErrorLine line \/ isReportLine line) (Serial st).
Proof.
  induction 1 as [|e st st' Hr IH Hloop|st _ IH|st _ IH].
  - constructor.
  - pose proof (reachable_well_formed lk st' (reach_loop lk e st st' Hr Hloop)) as Hwf.
    destruct (loop_pass_report _ _ _ _ Hloop) as (st1 & E1 & Hno & Hyes).
    assert (F1 : Forall (fun line => isErrorLine line \/ isReportLine line) (Serial st1)).
    { destruct (recieveStates_serial _ _ _ E1) as [-> | [msg ->]]; [exact IH|].
      apply Forall_app. split; [exact IH|]. constructor; [|constructor].
      left. now exists msg. }
    destruct (reportDue e st1).
    + destruct (Hyes eq_refl) as (-> & _).
      apply Forall_app. split; [exact F1|]. constructor; [|constructor].
      right. now apply reportLine_shape.
    + destruct (Hno eq_refl) as (-> & _). exact F1.
  - exact IH.
  - exact IH.
Qed.

(** Whatever the sketch has printed, every line is either an object with
    the one member [error] or a report: the nine members in their fixed
    order, with 16 soil values, 2 flow rates and 2 valve targets. No
    other line, in particular no [debug] line, is ever printed. *)
Theorem printed_lines_are_errors_or_reports (lk : Linkage) (st : State) (line : JsonValue) :
  reachable lk st ->
  In line (Serial st) ->
  isErrorLine line \/ isReportLine line.
Proof.
  intros Hr Hin. pose proof (reachable_lines lk st Hr) as F.
  rewrite List.Forall_forall in F. now apply F.
Qed.

Lemma printed_lines_are_errors_or_reports_witness :
  exists st' line,
    reachable usual_linkage st' /\ In line (Serial st') /\
    (isErrorLine line \/ isReportLine line).
Proof.
  destruct (loop usual_linkage report_time (setup usual_linkage boot)) as [s|] eqn:E;
    [|vm_compute in E; discriminate].
  assert (Hr : reachable usual_linkage s)
    by exact (reach_loop _ _ _ _ (reach_setup usual_linkage) E).
  destruct (loop_pass_report _ _ _ _ E) as (st1 & E1 & _ & Hdue).
  cbn in E1. injection E1 as <-.
  destruct (Hdue eq_refl) as (HS & _).
  assert (Hin : In (reportLine (to_uint32 (millis_stamp report_time)) s) (Serial s))
    by (rewrite HS; apply in_or_app; right; now left).
  exists s, (reportLine (to_uint32 (millis_stamp report_time)) s).
  split; [exact Hr|]. split; [exact Hin|].
  exact (printed_lines_are_errors_or_reports usual_linkage s _ Hr Hin).
Defined.

(** ** Decoding, once more *)

Lemma setValve_clock which p st st' :
  setValve which p st = Some st' ->
  lastCheckTime st' = lastCheckTime st /\ lastTime st' = lastTime st.
Proof.
  unfold setValve, setMotor.
  destruct (which =? 0), (which =? 1); cbn [mbind option_bind]; try discriminate.
  all: intros [= <-]; repeat case_if; split; reflexivity.
Qed.

(** What a successful decode leaves in the command globals. *)
Lemma recieveStates_decoded doc st st' :
  is_uint8 (targetValvePos0 st) -> is_uint8 (targetValvePos1 st) ->
  recieveStates (Some (Ok, doc)) st = Some st' ->
  targetValvePos0 st' =
    to_uint8 (default (targetValvePos0 st) (memberInt doc "targetValvePos0")) /\
  targetValvePos1 st' =
    to_uint8 (default (targetValvePos1 st) (memberInt doc "targetValvePos1")) /\
  reportInterval st' = decodedInterval doc st /\
  lastCheckTime st' = lastCheckTime st /\
  Serial st' = Serial st.
Proof.
  intros H0 H1 E.
  destruct (recieveStates_ok doc st) as (st2 & st3 & E' & Hst2 & Hst3 & T1).
  rewrite E in E'. injection E' as <-. cbn zeta in Hst2, Hst3.
  set (st1 := with_reportInterval (decodedInterval doc st) st) in *.
  set (v0 := default (targetValvePos0 st) (memberInt doc "targetValvePos0")) in *.
  set (v1 := default (targetValvePos1 st) (memberInt doc "targetValvePos1")) in *.
  assert (F2 : targetValvePos0 st2 = to_uint8 v0 /\ reportInterval st2 = decodedInterval doc st /\
               lastCheckTime st2 = lastCheckTime st /\ Serial st2 = Serial st).
  { revert Hst2. destruct (Z.eqb_spec v0 (targetValvePos0 st)) as [Ev|_].
    - intros ->. split_and!; auto. rewrite Ev. symmetry. now apply to_uint8_id.
    - intros Hst2.
      destruct (setValve_view 0 (to_uint8 v0) st1 (or_introl eq_refl) H0 (to_uint8_range v0))
        as (s & Es & Ts & _).
      rewrite Es in Hst2. injection Hst2 as <-.
      destruct (setValve_keeps _ _ _ _ Es) as (_ & R & S).
      destruct (setValve_clock _ _ _ _ Es) as (L & _).
      now split_and!. }
  destruct F2 as (T0 & R2 & L2 & S2).
  revert Hst3. destruct (Z.eqb_spec v1 (targetValvePos1 st)) as [Ev|_].
  - intros ->. split_and!; auto. rewrite T1, Ev. symmetry. now apply to_uint8_id.
  - intros Hst3.
    assert (H1' : is_uint8 (targetValvePosOf 1 st2))
      by (unfold targetValvePosOf; cbn [Z.eqb Pos.eqb]; now rewrite T1).
    destruct (setValve_view 1 (to_uint8 v1) st2 (or_intror eq_refl) H1' (to_uint8_range v1))
      as (s & Es & Ts & _).
    rewrite Es in Hst3. injection Hst3 as <-.
    destruct (setValve_keeps _ _ _ _ Es) as (_ & R & S).
    destruct (setValve_clock _ _ _ _ Es) as (L & _).
    destruct (setValve_other 1 _ _ _ (or_intror eq_refl) Es) as (T0' & _).
    change (targetValvePos0 s = targetValvePos0 st2) in T0'.
    change (targetValvePos1 s = to_uint8 v1) in Ts.
    rewrite T0', T0, Ts, R, R2, L, L2, S, S2. now split_and!.
Qed.

Lemma loop_targets lk e st st' :
  loop lk e st = Some st' ->
  exists st1,
    recieveStates (serialInput e) st = Some st1 /\
    targetValvePos0 st' = targetValvePos0 st1 /\
    targetValvePos1 st' = targetValvePos1 st1.
Proof.
  intros Hloop.
  destruct (loop_pass _ _ _ _ Hloop) as (st1 & st2 & E1 & Hmid & Hcv).
  destruct (loop_before_valves _ _ _ _ Hmid) as (V & _).
  destruct (otherFields_eq _ _ (checkValves_otherFields _ _ _ Hcv))
    as (_ & _ & _ & _ & T0 & T1 & _).
  unfold valveFields in V. injection V as V0 V1 _ _ _ _ _.
  exists st1. split; [exact E1|]. now rewrite T0, T1, V0, V1.
Qed.

(** Decode, then encode: a frame that commands both valves, received in
    a pass in which a report is due, is answered in the same pass by a
    report whose [targetValvePos] member holds the two commanded values
    (as bytes). *)
Theorem report_echoes_commanded_targets
    (lk : Linkage) (e : Env) (st st' : State) (doc : gmap string JsonVariant) (a b : Z) :
  well_formed st ->
  serialInput e = Some (Ok, doc) ->
  memberInt doc "targetValvePos0" = Some a ->
  memberInt doc "targetValvePos1" = Some b ->
  decodedInterval doc st <= elapsedSinceReport e st ->
  loop lk e st = Some st' ->
  exists line,
    last (Serial st') = Some line /\
    jsonMember "targetValvePos" line = Some (JArray [JInt (to_uint8 a); JInt (to_uint8 b)]).
Proof.
  intros (H0 & H1 & _) Hin Ha Hb Hdue Hloop.
  destruct (loop_pass_report _ _ _ _ Hloop) as (st1 & E1 & _ & Hyes).
  destruct (loop_targets _ _ _ _ Hloop) as (st1' & E1' & T0 & T1).
  rewrite E1 in E1'. injection E1' as <-. rewrite Hin in E1.
  destruct (recieveStates_decoded _ _ _ H0 H1 E1) as (D0 & D1 & DR & DL & _).
  rewrite Ha in D0. rewrite Hb in D1. cbn [default from_option id] in D0, D1.
  assert (Hd : reportDue e st1 = true).
  { unfold reportDue, elapsedSinceReport. rewrite DR, DL. now apply Z.leb_le. }
  destruct (Hyes Hd) as (HS & _).
  exists (reportLine (to_uint32 (millis_stamp e)) st'). split.
  - rewrite HS. apply last_snoc.
  - cbn. now rewrite T0, T1, D0, D1.
Qed.

Lemma report_echoes_commanded_targets_witness :
  exists st' line,
    loop usual_linkage command_at_report_time boot = Some st' /\
    last (Serial st') = Some line /\
    jsonMember "targetValvePos" line = Some (JArray [JInt 30; JInt 70]).
Proof.
  destruct (loop usual_linkage command_at_report_time boot) as [s|] eqn:E;
    [|vm_compute in E; discriminate].
  destruct (report_echoes_commanded_targets usual_linkage command_at_report_time boot s
              {[ "targetValvePos0" := json_int 30; "targetValvePos1" := json_int 70 ]} 30 70
              well_formed_boot eq_refl eq_refl eq_refl) as (line & HL & HM).
  - vm_compute. discriminate.
  - exact E.
  - exists s, line. split; [reflexivity|]. split; [exact HL | exact HM].
Defined.

(** ** Repeating a frame *)

Lemma with_reportInterval_same st : with_reportInterval (reportInterval st) st = st.
Proof. now destruct st. Qed.

(** A frame whose valve positions are bytes has done all it does after
    it has been decoded once: decoding it again changes nothing. *)
Theorem decode_again_changes_nothing (doc : gmap string JsonVariant) (st st' : State) :
  well_formed st ->
  (forall v, memberInt doc "targetValvePos0" = Some v -> is_uint8 v) ->
  (forall v, memberInt doc "targetValvePos1" = Some v -> is_uint8 v) ->
  recieveStates (Some (Ok, doc)) st = Some st' ->
  recieveStates (Some (Ok, doc)) st' = Some st'.
Proof.
  intros (H0 & H1 & Hri & _) B0 B1 E.
  destruct (recieveStates_decoded _ _ _ H0 H1 E) as (D0 & D1 & DR & _).
  assert (T0 : default (targetValvePos0 st') (memberInt doc "targetValvePos0")
               = targetValvePos0 st').
  { destruct (memberInt doc "targetValvePos0") as [v|] eqn:Em; cbn [default from_option id] in *;
      [|reflexivity]. now rewrite D0, to_uint8_id by now apply B0. }
  assert (T1 : default (targetValvePos1 st') (memberInt doc "targetValvePos1")
               = targetValvePos1 st').
  { destruct (memberInt doc "targetValvePos1") as [v|] eqn:Em; cbn [default from_option id] in *;
      [|reflexivity]. now rewrite D1, to_uint8_id by now apply B1. }
  assert (R : decodedInterval doc st' = reportInterval st').
  { destruct (memberInt doc "reportInterval") as [v|] eqn:Em.
    - rewrite DR, !(decodedInterval_present _ _ _ Em). reflexivity.
    - apply decodedInterval_absent; [|exact Em].
      rewrite DR, (decodedInterval_absent _ _ Hri Em). exact Hri. }
  destruct (recieveStates_ok doc st') as (st2 & st3 & E' & Hst2 & Hst3 & _).
  cbn zeta in Hst2, Hst3. rewrite T0, Z.eqb_refl in Hst2. rewrite T1, Z.eqb_refl in Hst3.
  rewrite R, with_reportInterval_same in Hst2. subst st2 st3. exact E'.
Qed.

Lemma decode_again_changes_nothing_witness :
  exists st',
    recieveStates (Some (Ok, {[ "targetValvePos0" := json_int 50 ]})) boot = Some st' /\
    st' <> boot /\
    recieveStates (Some (Ok, {[ "targetValvePos0" := json_int 50 ]})) st' = Some st'.
Proof.
  assert (E : recieveStates (Some (Ok, {[ "targetValvePos0" := json_int 50 ]})) boot
              = Some valve0_half_open) by reflexivity.
  exists valve0_half_open. split; [exact E|].
  split; [intros H; apply (f_equal targetValvePos0) in H; vm_compute in H; discriminate|].
  apply (decode_again_changes_nothing _ boot _ well_formed_boot); [| |exact E].
  - intros v Hv. vm_compute in Hv. injection Hv as <-. cbv. split; congruence.
  - intros v Hv. vm_compute in Hv. discriminate.
Defined.

(** ** Soil calibration and average *)

Lemma soil_calibration_span (x : Z) :
  9000 <= x <= 15000 ->
  0 <= SOILCALIBRATION x <= 100 /\
  to_uint16 (SOILCALIBRATION x) = SOILCALIBRATION x.
Proof.
  intros Hx. unfold SOILCALIBRATION, map.
  change (9000 - 15000) with (-6000). change (100 - 0) with 100.
  assert (H : 0 <= Z.quot ((x - 15000) * 100) (-6000) + 0 <= 100).
  { change (Z.neg 6000) with (Z.opp (Z.pos 6000)).
    rewrite Z.quot_opp_r by lia. rewrite <- Z.quot_opp_l by lia.
    rewrite Z.quot_div_nonneg by lia.
    assert (0 <= - ((x - 15000) * 100) / 6000 <= 100); [|lia].
    split; [apply Z.div_pos; lia | apply Z.div_le_upper_bound; lia]. }
  split; [exact H|].
  apply to_uint16_id. unfold is_uint16. change (2 ^ 16) with 65536. lia.
Qed.

(** A raw value above the dry end of the calibration gives a negative
    number, and what is stored in the unsigned array is that number
    plus 65536: from 65535 downwards, never below 64694. *)
Theorem soil_calibration_wraps_when_dry (x : Z) :
  15060 <= x < 2 ^ 16 ->
  SOILCALIBRATION x < 0 /\
  to_uint16 (SOILCALIBRATION x) = SOILCALIBRATION x + 65536 /\
  64694 <= to_uint16 (SOILCALIBRATION x) <= 65535.
Proof.
  intros Hx. change (2 ^ 16) with 65536 in Hx. unfold SOILCALIBRATION, map.
  change (9000 - 15000) with (-6000). change (100 - 0) with 100.
  assert (H : -842 <= Z.quot ((x - 15000) * 100) (-6000) + 0 <= -1).
  { change (Z.neg 6000) with (Z.opp (Z.pos 6000)).
    rewrite Z.quot_opp_r by lia. rewrite Z.quot_div_nonneg by lia.
    assert (1 <= (x - 15000) * 100 / 6000 < 843); [|lia].
    split; [apply Z.div_le_lower_bound; lia | apply Z.div_lt_upper_bound; lia]. }
  split; [lia|].
  assert (E : to_uint16 (Z.quot ((x - 15000) * 100) (-6000) + 0)
              = Z.quot ((x - 15000) * 100) (-6000) + 0 + 65536).
  { generalize dependent (Z.quot ((x - 15000) * 100) (-6000) + 0). intros q Hq.
    unfold to_uint16. change (2 ^ 16) with 65536.
    symmetry. apply (Z.mod_unique q 65536 (-1)); lia. }
  rewrite E. lia.
Qed.

Lemma soil_calibration_wraps_when_dry_witness :
  15060 <= 16000 < 2 ^ 16 /\ to_uint16 (SOILCALIBRATION 16000) = 65520.
Proof.
  split; [split; [lia | reflexivity]|].
  destruct (soil_calibration_wraps_when_dry 16000) as (_ & E & _);
    [split; [lia | reflexivity]|].
  rewrite E. reflexivity.
Defined.

Lemma soilAverage_fold lo hi (rest : list Z) : forall avg,
  0 <= lo -> hi < 2 ^ 15 ->
  lo <= avg <= hi ->
  Forall (fun s => lo <= s <= hi) rest ->
  lo <= fold_left (fun currentAvg s => to_uint16 (currentAvg + s) / 2) rest avg <= hi.
Proof.
  change (2 ^ 15) with 32768.
  induction rest as [|s rest IH]; intros avg Hlo Hhi Havg Hall; [exact Havg|].
  apply Forall_cons in Hall. destruct Hall as [Hs Hall].
  cbn [fold_left]. apply IH; [exact Hlo | exact Hhi | | exact Hall].
  rewrite to_uint16_id by (unfold is_uint16; change (2 ^ 16) with 65536; lia).
  split; [apply Z.div_le_lower_bound; lia | apply Z.div_le_upper_bound; lia].
Qed.

Lemma soilAverage_bounds (soil : list Z) (lo hi : Z) :
  soil <> [] ->
  0 <= lo -> hi < 2 ^ 15 ->
  Forall (fun s => lo <= s <= hi) soil ->
  lo <= soilAverage soil <= hi.
Proof.
  intros Hne Hlo Hhi Hall. destruct soil as [|s0 rest]; [contradiction|].
  apply Forall_cons in Hall. destruct Hall as [H0 Hall].
  unfold soilAverage. cbn [hd tail]. now apply soilAverage_fold.
Qed.

(** The average lies between the smallest and the largest entry, as long
    as the entries are below 32768 (so that no sum overflows 16 bits). *)
Theorem soilAverage_between_entries (soil : list Z) (lo hi : Z) :
  soil <> [] ->
  0 <= lo -> hi < 2 ^ 15 ->
  Forall (fun s => lo <= s <= hi) soil ->
  lo <= soilAverage soil <= hi.
Proof. apply soilAverage_bounds. Qed.

Lemma soilAverage_between_entries_witness :
  ([40; 60; 50] <> [] /\ 0 <= 40 /\ 60 < 2 ^ 15 /\
   Forall (fun s => 40 <= s <= 60) [40; 60; 50]) /\
  40 <= soilAverage [40; 60; 50] <= 60.
Proof.
  assert (Hne : [40; 60; 50] <> ([] : list Z)) by discriminate.
  assert (Hall : Forall (fun s => 40 <= s <= 60) [40; 60; 50])
    by (repeat constructor; lia).
  split; [split_and!; [exact Hne | lia | reflexivity | exact Hall]|].
  apply (soilAverage_between_entries [40; 60; 50] 40 60 Hne); [lia | reflexivity | exact Hall].
Defined.




Lemma soilAfter_skipped i0 readADC soil :
  4 <= i0 -> soilAfter i0 readADC soil = soil.
Proof.
  intros Hi. unfold soilAfter.
  rewrite <- (list_fmap_id soil) at 2. rewrite <- imap_const.
  apply imap_ext. intros k old _. cbn.
  destruct (Z.leb_spec i0 (Z.of_nat k mod 4)) as [H|_]; [|reflexivity].
  pose proof (Z.mod_pos_bound (Z.of_nat k) 4 ltac:(lia)). lia.
Qed.

(** Which entries one call refreshes, for every value the uninitialised
    loop index can hold that is not negative: entry [k] is read from its
    converter when its channel [k mod 4] is at or above the starting
    index and keeps its old value otherwise; the average is taken over
    the resulting array. *)
Theorem updateSoilHumidity_entries (i0 : Z) (readADC : Z -> Z -> Z) (st : State) :
  0 <= i0 -> length (soilHumidity st) = 16%nat ->
  updateSoilHumidity i0 readADC st =
    Some (with_avgSoilHumidity (soilAverage (soilAfter i0 readADC (soilHumidity st)))
            (with_soilHumidity (soilAfter i0 readADC (soilHumidity st)) st)).
Proof.
  intros Hi Hlen.
  destruct (Z.le_gt_cases 4 i0) as [Hskip | Hrun].
  { rewrite soilAfter_skipped by exact Hskip. now apply updateSoilHumidity_skipped. }
  unfold updateSoilHumidity.
  destruct (soilHumidity st) as [|s0 [|s1 [|s2 [|s3 [|s4 [|s5 [|s6 [|s7 [|s8 [|s9 [|s10
    [|s11 [|s12 [|s13 [|s14 [|s15 [|? ?]]]]]]]]]]]]]]]]]; try discriminate.
  assert (Hcases : i0 = 0 \/ i0 = 1 \/ i0 = 2 \/ i0 = 3) by lia.
  destruct Hcases as [-> | [-> | [-> | ->]]]; reflexivity.
Qed.

Lemma updateSoilHumidity_entries_witness :
  (0 <= 2 /\ length (soilHumidity stale_soil) = 16%nat) /\
  soilHumidity <$> updateSoilHumidity 2 damp stale_soil =
    Some [7; 7; 50; 50; 7; 7; 50; 50; 7; 7; 50; 50; 7; 7; 50; 50].
Proof.
  split; [split; [lia | reflexivity]|].
  pose proof (updateSoilHumidity_entries 2 damp stale_soil ltac:(lia) eq_refl) as H.
  rewrite H. reflexivity.
Defined.

Lemma soilReading_in_span readADC k :
  in_span readADC -> 0 <= soilReading readADC k <= 100.
Proof.
  intros Hspan. unfold soilReading.
  destruct (soil_calibration_span (readADC (k / 4) (k mod 4)) (Hspan _ _)) as [Hr Hid].
  now rewrite Hid.
Qed.

(** With the index starting at 0 and every raw reading in the calibrated
    span 9000..15000, all sixteen entries and the average are percentages
    between 0 and 100. *)
Theorem soil_percentages (readADC : Z -> Z -> Z) (st st' : State) :
  in_span readADC -> length (soilHumidity st) = 16%nat ->
  updateSoilHumidity 0 readADC st = Some st' ->
  Forall (fun s => 0 <= s <= 100) (soilHumidity st') /\
  0 <= avgSoilHumidity st' <= 100.
Proof.
  intros Hspan Hlen Hrun.
  pose proof (updateSoilHumidity_from_zero readADC st Hlen) as Hall.
  rewrite Hrun in Hall. cbn [fmap option_fmap option_map] in Hall.
  injection Hall as Hsoil.
  assert (Hin : Forall (fun s => 0 <= s <= 100) (allSoilReadings readADC)).
  { unfold allSoilReadings. apply Stdlib.Lists.List.Forall_forall. intros s Hs.
    apply in_map_iff in Hs. destruct Hs as [k [<- _]]. now apply soilReading_in_span. }
  unfold updateSoilHumidity in Hrun.
  destruct (soilReadLoop _ _ _ _) as [soil|] eqn:E; [|discriminate].
  cbn [mbind option_bind] in Hrun. injection Hrun as <-.
  revert Hsoil. state_simpl. intros ->.
  split; [exact Hin|].
  apply soilAverage_bounds; [|lia | reflexivity | exact Hin].
  unfold allSoilReadings. cbn [seq List.map]. discriminate.
Qed.

Lemma soil_percentages_witness :
  exists st',
    (in_span damp /\ length (soilHumidity boot) = 16%nat /\
     updateSoilHumidity 0 damp boot = Some st') /\
    Forall (fun s => 0 <= s <= 100) (soilHumidity st') /\ 0 <= avgSoilHumidity st' <= 100.
Proof.
  assert (Hspan : in_span damp) by (intros a c; unfold damp; lia).
  destruct (updateSoilHumidity 0 damp boot) as [st'|] eqn:E; [|vm_compute in E; discriminate].
  exists st'. split; [split_and!; [exact Hspan | reflexivity | reflexivity]|].
  exact (soil_percentages damp boot st' Hspan eq_refl E).
Defined.

(** ** The interrupts under an ordinary linkage *)

Lemma detach_missed (lk : Linkage) (s : FlowStep) (st : State) :
  detach_misses_both lk ->
  intAttached0 st = true -> intAttached1 st = true ->
  intAttached0 (doFlowStep lk s st) = true /\ intAttached1 (doFlowStep lk s st) = true.
Proof.
  intros (H00 & H01 & H10 & H11) A0 A1.
  destruct s; unfold doFlowStep, detachInterrupt, attachInterrupt;
    cbn [digitalPinToInterrupt PIN_FLOW_METER_0 PIN_FLOW_METER_1 Z.eqb Pos.eqb];
    repeat case_if; state_simpl; auto; lia.
Qed.

Lemma step_never_masked (lk : Linkage) (m : Machine) (ev : Event) :
  detach_misses_both lk ->
  intAttached0 (globals m) = true -> intAttached1 (globals m) = true ->
  intAttached0 (globals (step lk m ev)) = true /\
  intAttached1 (globals (step lk m ev)) = true /\
  fired0 (step lk m ev) = fired0 m + (if isPulse0 ev then 1 else 0) /\
  fired1 (step lk m ev) = fired1 m + (if isPulse1 ev then 1 else 0).
Proof.
  intros Hlk A0 A1. destruct ev; unfold step; cbn [isPulse0 isPulse1].
  - rewrite A0. cbn [globals fired0 fired1]. unfold pulseInterrupt0. state_simpl.
    split_and!; auto; lia.
  - rewrite A1. cbn [globals fired0 fired1]. unfold pulseInterrupt1. state_simpl.
    split_and!; auto; lia.
  - destruct (flowSteps !! pc m) as [s|]; cbn [globals fired0 fired1].
    + destruct (detach_missed lk s (globals m) Hlk A0 A1) as [B0 B1].
      split_and!; auto; lia.
    + split_and!; auto; lia.
Qed.

Lemma run_never_masked (lk : Linkage) (trace : list Event) : forall m,
  detach_misses_both lk ->
  intAttached0 (globals m) = true -> intAttached1 (globals m) = true ->
  intAttached0 (globals (run lk trace m)) = true /\
  intAttached1 (globals (run lk trace m)) = true /\
  fired0 (run lk trace m) = fired0 m + countEvents isPulse0 trace /\
  fired1 (run lk trace m) = fired1 m + countEvents isPulse1 trace.
Proof.
  unfold run, countEvents.
  induction trace as [|ev trace IH]; intros m Hlk A0 A1; cbn [fold_left List.filter].
  - cbn [length]. split_and!; auto; lia.
  - destruct (step_never_masked lk m ev Hlk A0 A1) as (B0 & B1 & F0 & F1).
    destruct (IH (step lk m ev) Hlk B0 B1) as (C0 & C1 & G0 & G1).
    split_and!; [exact C0 | exact C1 | |].
    + rewrite G0, F0. destruct (isPulse0 ev); cbn [length]; lia.
    + rewrite G1, F1. destruct (isPulse1 ev); cbn [length]; lia.
Qed.

(** When the handlers are linked at addresses whose low byte is neither 0
    nor 1, [setInterrupts(false)] masks nothing: at every moment of every
    run both interrupts are attached, and every falling edge runs its
    handler, also those that arrive in the middle of a read-out. *)
Theorem interrupts_never_masked (lk : Linkage) (trace : list Event) :
  detach_misses_both lk ->
  intAttached0 (globals (run lk trace (started lk))) = true /\
  intAttached1 (globals (run lk trace (started lk))) = true /\
  fired0 (run lk trace (started lk)) = countEvents isPulse0 trace /\
  fired1 (run lk trace (started lk)) = countEvents isPulse1 trace.
Proof.
  intros Hlk.
  destruct (run_never_masked lk trace (started lk) Hlk eq_refl eq_refl) as (A0 & A1 & F0 & F1).
  split_and!; [exact A0 | exact A1 | |].
  - rewrite F0. reflexivity.
  - rewrite F1. reflexivity.
Qed.

Lemma interrupts_never_masked_witness :
  detach_misses_both usual_linkage /\
  fired0 (run usual_linkage pulse_in_sample (started usual_linkage)) = 1.
Proof.
  assert (Hlk : detach_misses_both usual_linkage) by (vm_compute; split_and!; discriminate).
  split; [exact Hlk|].
  exact (proj1 (proj2 (proj2 (interrupts_never_masked usual_linkage pulse_in_sample Hlk)))).
Defined.

(** ** Flow rate without pulses *)

Lemma allFrom_spec (P : Z -> bool) (n : nat) : forall w x,
  allFrom P n w = true -> w <= x < w + Z.of_nat n -> P x = true.
Proof.
  induction n as [|n IH]; intros w x H Hx; [lia|].
  cbn [allFrom] in H. apply andb_true_iff in H. destruct H as [Hw Hrest].
  destruct (Z.eq_dec x w) as [-> | Hne]; [exact Hw|].
  apply (IH (w + 1)); [exact Hrest | lia].
Qed.

Lemma quietRate_positive : allFrom quietRate (Z.to_nat 32767) 1 = true.
Proof. vm_compute. reflexivity. Qed.

Lemma quietRate_negative : allFrom quietRate (Z.to_nat 32768) (-32768) = true.
Proof. vm_compute. reflexivity. Qed.

(** With no pulse counted the rate is zero for every window an [int] can
    hold other than 0: plus zero for a positive window, minus zero for a
    negative one. (For the window 0 it is not a number.) *)
Theorem flow_rate_zero_without_pulses (w : Z) :
  is_int w -> w <> 0 ->
  flowFormula w 0 = S754_zero (w <? 0).
Proof.
  intros Hw Hne. unfold is_int, INT_MIN, INT_MAX in Hw.
  change (2 ^ 15) with 32768 in Hw.
  assert (Hq : quietRate w = true).
  { destruct (Z.lt_ge_cases w 0).
    - apply (allFrom_spec quietRate (Z.to_nat 32768) (-32768) w quietRate_negative). lia.
    - apply (allFrom_spec quietRate (Z.to_nat 32767) 1 w quietRate_positive). lia. }
  unfold quietRate in Hq.
  destruct (flowFormula w 0) as [s| | |]; try discriminate.
  apply Bool.eqb_prop in Hq. now rewrite Hq.
Qed.

Lemma flow_rate_zero_without_pulses_witness :
  (is_int (reportDelta late_report) /\ reportDelta late_report <> 0) /\
  flowFormula (reportDelta late_report) 0 = S754_zero true.
Proof.
  assert (Hw : is_int (reportDelta late_report)) by (vm_compute; split; discriminate).
  assert (Hne : reportDelta late_report <> 0) by discriminate.
  split; [split; [exact Hw | exact Hne]|].
  exact (flow_rate_zero_without_pulses (reportDelta late_report) Hw Hne).
Defined.

(** ** What the valve check never does *)

Lemma valveTick_never_starts d closeLow openLow msec motor p0 p1 :
  exists msec' motor' p0' p1',
    valveTick d closeLow openLow (msec, motor, p0, p1) = (msec', motor', p0', p1') /\
    (motor' = motor \/ motor' = 0) /\
    (motor = 0 -> (msec', p0', p1') = (msec, p0, p1)).
Proof.
  unfold valveTick, limitStopView, countDownView.
  destruct (Z.eqb_spec motor 0) as [-> | Hm].
  - cbn [negb andb Z.eqb]. rewrite !andb_false_r.
    do 4 eexists. split; [reflexivity|]. split; [now left | reflexivity].
  - cbn [negb]. rewrite !andb_true_r.
    destruct (0 <? msec), (msec <=? 0), closeLow, openLow; cbn [andb];
      repeat case_if; do 4 eexists; (split; [reflexivity|]);
      (split; [auto | intros; contradiction]).
Qed.

(** A pass of [checkValves] always completes and never switches a motor
    on or reverses it: a motor state is left as it is or set to 0, and a
    valve whose motor state is 0 keeps its remaining run time and its pin
    levels. Every global other than the two remaining run times, the two
    motor states and the pin levels is left as it is, and so is the level
    of every pin other than the four motor pins (see
    [same_but_valves]). *)
Theorem checkValves_never_starts_motor (which : Z) (dr : Z -> bool) (st : State) :
  which = 0 \/ which = 1 ->
  exists st',
    checkValves dr st = Some st' /\
    (motorStateOf which st' = motorStateOf which st \/ motorStateOf which st' = 0) /\
    (motorStateOf which st = 0 -> viewOf which st' = viewOf which st) /\
    same_but_valves st st'.
Proof.
  intros Hw. destruct (checkValves_channel which dr st Hw) as (st' & E & V & Hsame).
  exists st'. split; [exact E|]. split; [|split; [|exact Hsame]].
  - unfold viewOf in V.
    destruct (valveTick_never_starts (delta st) (negb (dr (closeLimitPinOf which)))
                (negb (dr (openLimitPinOf which))) (targetValvePosMsecOf which st)
                (motorStateOf which st) (pinLevel st !! fst (motorPinsOf which))
                (pinLevel st !! snd (motorPinsOf which)))
      as (msec' & motor' & p0' & p1' & T & Hm & _).
    rewrite T in V. injection V as _ -> _ _. exact Hm.
  - intros Hidle. rewrite V. unfold viewOf. rewrite Hidle. apply valveTick_idle.
Qed.

Lemma checkValves_never_starts_motor_witness :
  (0 = 0 \/ 0 = 1) /\
  exists st',
    checkValves (fun _ => false) boot = Some st' /\
    (motorStateOf 0 st' = motorStateOf 0 boot \/ motorStateOf 0 st' = 0) /\
    (motorStateOf 0 boot = 0 -> viewOf 0 st' = viewOf 0 boot) /\
    same_but_valves boot st'.
Proof.
  split; [now left|].
  exact (checkValves_never_starts_motor 0 (fun _ => false) boot (or_introl eq_refl)).
Defined.

(** ** What holds between two passes *)

Lemma setValve_attached which p st st' :
  setValve which p st = Some st' ->
  intAttached0 st' = intAttached0 st /\ intAttached1 st' = intAttached1 st.
Proof.
  unfold setValve, setMotor.
  destruct (which =? 0), (which =? 1); cbn [mbind option_bind]; try discriminate.
  all: intros [= <-]; repeat case_if; split; reflexivity.
Qed.

Lemma recieveStates_attached input st st' :
  recieveStates input st = Some st' ->
  intAttached0 st' = intAttached0 st /\ intAttached1 st' = intAttached1 st.
Proof.
  destruct input as [[err doc]|]; [|intros [= <-]; now split].
  destruct err.
  2-6: rewrite recieveStates_error by discriminate; intros [= <-]; now split.
  destruct (recieveStates_ok doc st) as (st2 & st3 & E & H2 & H3 & _).
  rewrite E. intros [= <-]. cbn zeta in H2, H3.
  assert (S2 : intAttached0 st2 = intAttached0 st /\ intAttached1 st2 = intAttached1 st).
  { revert H2. case_if; [now intros ->|]. intros H2.
    destruct (setValve_attached _ _ _ _ H2) as [-> ->]. now split. }
  destruct S2 as [<- <-]. revert H3. case_if; [now intros ->|]. intros H3.
  exact (setValve_attached _ _ _ _ H3).
Qed.

Lemma updateFlowRate_attached lk st :
  intAttached0 (updateFlowRate lk st) = true /\ intAttached1 (updateFlowRate lk st) = true.
Proof.
  unfold updateFlowRate. cbv zeta.
  generalize (setInterrupts lk false st). intros s.
  unfold setInterrupts, attachInterrupt.
  cbn [digitalPinToInterrupt PIN_FLOW_METER_0 PIN_FLOW_METER_1 Z.eqb Pos.eqb].
  split; reflexivity.
Qed.

Lemma updateSensorValues_attached lk e st st' :
  updateSensorValues lk e st = Some st' ->
  intAttached0 st' = true /\ intAttached1 st' = true.
Proof.
  unfold updateSensorValues.
  destruct (updateSoilHumidity _ _ _) as [s1|]; [|discriminate].
  cbn [mbind option_bind]. intros [= <-].
  destruct (updateFlowRate_attached lk s1) as [A0 A1].
  revert A0 A1. generalize (updateFlowRate lk s1). intros s A0 A1.
  unfold updateTemperatureHumidity. state_simpl. now split.
Qed.

Lemma loop_attached lk e st st' :
  loop lk e st = Some st' ->
  intAttached0 st = true /\ intAttached1 st = true ->
  intAttached0 st' = true /\ intAttached1 st' = true.
Proof.
  intros Hloop [A0 A1].
  destruct (loop_pass _ _ _ _ Hloop) as (st1 & st2 & E1 & Hmid & Hcv).
  pose proof (checkValves_otherFields _ _ _ Hcv) as O.
  apply (f_equal o_attached) in O. cbn [otherFields o_attached] in O.
  injection O as -> ->.
  destruct (recieveStates_attached _ _ _ E1) as [R0 R1].
  destruct (reportDue e st1).
  - destruct Hmid as (s & Es & ->).
    destruct (updateSensorValues_attached _ _ _ _ Es) as [B0 B1].
    unfold sendStates. state_simpl. now split.
  - subst st2. unfold timed. state_simpl. rewrite R0, R1. now split.
Qed.

Lemma reachable_attached lk st :
  reachable lk st -> intAttached0 st = true /\ intAttached1 st = true.
Proof.
  induction 1 as [|e st st' Hr IH Hloop|st _ IH|st _ IH].
  - split; reflexivity.
  - exact (loop_attached _ _ _ _ Hloop IH).
  - exact IH.
  - exact IH.
Qed.

(** What every state between two passes of [loop] satisfies, whatever
    has been received and measured since [setup]: both commanded targets
    and both pulse counters are bytes, the report interval is at least
    1000, the soil array has 16 entries and the flow array 2, both motor
    states are 0, 1 or -1, and both flow interrupts are attached
    (whatever [setInterrupts(false)] has detached inside a pass is
    attached again before it ends). *)
Theorem sketch_state_invariant (lk : Linkage) (st : State) :
  reachable lk st ->
  well_formed st /\ intAttached0 st = true /\ intAttached1 st = true.
Proof.
  intros Hr. split; [exact (reachable_well_formed lk st Hr)|].
  exact (reachable_attached lk st Hr).
Qed.

Lemma sketch_state_invariant_witness :
  reachable lucky_linkage (pulseInterrupt0 (setup lucky_linkage boot)) /\
  well_formed (pulseInterrupt0 (setup lucky_linkage boot)) /\
  intAttached0 (pulseInterrupt0 (setup lucky_linkage boot)) = true /\
  intAttached1 (pulseInterrupt0 (setup lucky_linkage boot)) = true.
Proof.
  assert (Hr : reachable lucky_linkage (pulseInterrupt0 (setup lucky_linkage boot)))
    by (apply reach_pulse0, reach_setup).
  split; [exact Hr|].
  exact (sketch_state_invariant lucky_linkage _ Hr).
Defined.

(** ** The read-out with both interrupts left enabled *)

Lemma wrapped_run lk trace : forall m,
  wrapped (run lk trace m) = false -> wrapped m = false.
Proof.
  induction trace as [|ev trace IH]; intros m H; [exact H|].
  cbn [run fold_left] in H. apply (wrapped_step lk m ev). now apply IH.
Qed.

Lemma countEvents_cons p ev trace :
  countEvents p (ev :: trace) = (if p ev then 1 else 0) + countEvents p trace.
Proof.
  unfold countEvents. cbn [List.filter]. destruct (p ev); cbn [length]; lia.
Qed.

(** One event with both interrupts enabled: a pulse adds one to what its
    counter holds for the next sample, unless it arrives between the read
    and the reset. *)
Lemma step_unmasked lk m ev :
  detach_misses_both lk ->
  intAttached0 (globals m) = true -> intAttached1 (globals m) = true ->
  (pc m < 8)%nat ->
  0 <= pulseCount0 (globals m) < 256 -> 0 <= pulseCount1 (globals m) < 256 ->
  wrapped (step lk m ev) = false ->
  (intAttached0 (globals (step lk m ev)) = true /\
   intAttached1 (globals (step lk m ev)) = true /\
   (pc (step lk m ev) < 8)%nat /\
   0 <= pulseCount0 (globals (step lk m ev)) < 256 /\
   0 <= pulseCount1 (globals (step lk m ev)) < 256) /\
  sumZ (sampled0 (step lk m ev)) + pending0 (step lk m ev)
    = sumZ (sampled0 m) + pending0 m + countEvents isPulse0 [ev] - inWindow0 (pc m) [ev] /\
  sumZ (sampled1 (step lk m ev)) + pending1 (step lk m ev)
    = sumZ (sampled1 m) + pending1 m + countEvents isPulse1 [ev] - inWindow1 (pc m) [ev] /\
  inWindow0 (pc (step lk m ev)) = inWindow0 (match ev with MainStep => nextPc (pc m) | _ => pc m end) /\
  inWindow1 (pc (step lk m ev)) = inWindow1 (match ev with MainStep => nextPc (pc m) | _ => pc m end).
Proof.
  intros (H00 & H01 & H10 & H11) A0 A1 Hpc Hc0 Hc1.
  destruct m as [g p s0 s1 f0 f1 w].
  cbn [pc globals wrapped sampled0 sampled1 fired0 fired1] in *.
  unfold pending0, pending1, countEvents.
  destruct ev; cbn [step globals List.filter isPulse0 isPulse1 length inWindow0 inWindow1].
  - rewrite A0. cbn [pc globals wrapped sampled0 sampled1].
    intros [Hw Hne]%orb_false_elim. apply Z.eqb_neq in Hne.
    unfold pulseInterrupt0. state_simpl.
    rewrite to_uint8_id by (unfold is_uint8; change (2 ^ 8) with 256; lia).
    split; [split_and!; auto; lia|].
    destruct ((p =? 3)%nat || (p =? 4)%nat), ((p =? 4)%nat || (p =? 5)%nat);
      split_and!; try reflexivity; lia.
  - rewrite A1. cbn [pc globals wrapped sampled0 sampled1].
    intros [Hw Hne]%orb_false_elim. apply Z.eqb_neq in Hne.
    unfold pulseInterrupt1. state_simpl.
    rewrite to_uint8_id by (unfold is_uint8; change (2 ^ 8) with 256; lia).
    split; [split_and!; auto; lia|].
    destruct ((p =? 3)%nat || (p =? 4)%nat), ((p =? 4)%nat || (p =? 5)%nat);
      split_and!; try reflexivity; lia.
  - intros _.
    destruct p as [|[|[|[|[|[|[|[|p]]]]]]]]; [.. | lia];
      cbn [lookup list_lookup flowSteps doFlowStep length Nat.ltb Nat.leb
           pc globals wrapped sampled0 sampled1 Nat.eqb orb nextPc];
      unfold detachInterrupt, attachInterrupt;
      cbn [digitalPinToInterrupt PIN_FLOW_METER_0 PIN_FLOW_METER_1 Z.eqb Pos.eqb];
      repeat case_if; try lia; state_simpl; cbn [sumZ fold_right];
      fold (sumZ s0); fold (sumZ s1);
      (split; [split_and!; auto; lia|]); split_and!; try reflexivity; lia.
Qed.

Lemma run_unmasked lk trace : forall m,
  detach_misses_both lk ->
  intAttached0 (globals m) = true -> intAttached1 (globals m) = true ->
  (pc m < 8)%nat ->
  0 <= pulseCount0 (globals m) < 256 -> 0 <= pulseCount1 (globals m) < 256 ->
  wrapped (run lk trace m) = false ->
  sumZ (sampled0 (run lk trace m)) + pending0 (run lk trace m)
    = sumZ (sampled0 m) + pending0 m + countEvents isPulse0 trace - inWindow0 (pc m) trace /\
  sumZ (sampled1 (run lk trace m)) + pending1 (run lk trace m)
    = sumZ (sampled1 m) + pending1 m + countEvents isPulse1 trace - inWindow1 (pc m) trace.
Proof.
  induction trace as [|ev trace IH]; intros m Hlk A0 A1 Hpc Hc0 Hc1 Hw.
  - unfold countEvents. cbn. lia.
  - change (run lk (ev :: trace) m) with (run lk trace (step lk m ev)) in *.
    pose proof (wrapped_run lk trace _ Hw) as Hw1.
    destruct (step_unmasked lk m ev Hlk A0 A1 Hpc Hc0 Hc1 Hw1)
      as ((B0 & B1 & Bpc & Bc0 & Bc1) & S0 & S1 & W0 & W1).
    destruct (IH (step lk m ev) Hlk B0 B1 Bpc Bc0 Bc1 Hw) as [R0 R1].
    rewrite R0, R1, S0, S1, W0, W1, !(countEvents_cons _ ev trace).
    unfold countEvents.
    destruct ev; cbn [List.filter isPulse0 isPulse1 length inWindow0 inWindow1]; lia.
Qed.

(** C1 (the code at the failing input). [setInterrupts(false)] passes the
    handlers to [detachInterrupt]; when their addresses, as bytes, are
    not the numbers of the two external interrupts (the ordinary build),
    both interrupts stay enabled during the read-out. Then, for every
    interleaving in which no counter overflows its byte, the counts the
    samples return plus the pulses still waiting in the counter fall
    short of the pulses that arrived by exactly those that arrived
    between the read and the reset of their counter: these are lost. *)
Theorem C1_pulses_between_read_and_reset_are_lost (lk : Linkage) (trace : list Event) :
  detach_misses_both lk ->
  wrapped (run lk trace (started lk)) = false ->
  sumZ (sampled0 (run lk trace (started lk))) + pending0 (run lk trace (started lk))
    = countEvents isPulse0 trace - inWindow0 0 trace /\
  sumZ (sampled1 (run lk trace (started lk))) + pending1 (run lk trace (started lk))
    = countEvents isPulse1 trace - inWindow1 0 trace.
Proof.
  intros Hlk Hw.
  destruct (run_unmasked lk trace (started lk) Hlk eq_refl eq_refl) as [R0 R1];
    [cbn; lia | cbn; lia | cbn; lia | exact Hw |].
  rewrite R0, R1. cbn [started sampled0 sampled1 sumZ fold_right pc]. split; reflexivity.
Qed.

Lemma C1_pulses_between_read_and_reset_are_lost_witness :
  (detach_misses_both usual_linkage /\
   wrapped (run usual_linkage pulse_in_sample (started usual_linkage)) = false) /\
  countEvents isPulse0 pulse_in_sample = 1 /\
  inWindow0 0 pulse_in_sample = 1 /\
  sumZ (sampled0 (run usual_linkage pulse_in_sample (started usual_linkage)))
    + pending0 (run usual_linkage pulse_in_sample (started usual_linkage)) = 0.
Proof.
  assert (Hlk : detach_misses_both usual_linkage) by (vm_compute; split_and!; discriminate).
  assert (Hw : wrapped (run usual_linkage pulse_in_sample (started usual_linkage)) = false)
    by (vm_compute; reflexivity).
  split; [split; assumption|]. split; [reflexivity|]. split; [reflexivity|].
  exact (proj1 (C1_pulses_between_read_and_reset_are_lost usual_linkage pulse_in_sample Hlk Hw)).
Defined.

(** ** A pass that comes late *)

(** [delta] is an [int]: a pass that comes 32768 to 65535 ms after the
    previous one computes a negative [delta], and the countdown of a
    running motor then goes up instead of down. With no serial input and
    no limit switch closed, the remaining run time of a running motor
    grows by 65536 ms minus the time that has passed, and the motor stays
    on. *)
Theorem late_pass_lengthens_run (which : Z) (lk : Linkage) (e : Env) (st st' : State) :
  which = 0 \/ which = 1 ->
  serialInput e = None ->
  loop lk e st = Some st' ->
  motorStateOf which st <> 0 ->
  0 < targetValvePosMsecOf which st < 2 ^ 30 ->
  2 ^ 15 <= millis_delta e - lastTime st < 2 ^ 16 ->
  digitalRead e (closeLimitPinOf which) = true ->
  digitalRead e (openLimitPinOf which) = true ->
  delta st' = millis_delta e - lastTime st - 2 ^ 16 /\
  targetValvePosMsecOf which st' =
    targetValvePosMsecOf which st + (2 ^ 16 - (millis_delta e - lastTime st)) /\
  targetValvePosMsecOf which st < targetValvePosMsecOf which st' /\
  motorStateOf which st' = motorStateOf which st.
Proof.
  intros Hw Hin Hloop Hrun Hms Hlate Hclose Hopen.
  change (2 ^ 30) with 1073741824 in Hms.
  change (2 ^ 15) with 32768 in Hlate. change (2 ^ 16) with 65536 in *.
  destruct (loop_valve_view which lk e st st' Hw Hloop) as (st1 & E1 & V & _).
  destruct (loop_pass _ _ _ _ Hloop) as (s1 & st2 & E1' & Hmid & Hcv).
  rewrite E1 in E1'. injection E1' as <-.
  destruct (loop_before_valves _ _ _ _ Hmid) as (_ & D & _).
  pose proof (checkValves_otherFields _ _ _ Hcv) as O.
  apply (f_equal o_times) in O. cbn [otherFields o_times] in O.
  injection O as _ _ _ Od.
  rewrite Hin in E1. cbn [recieveStates] in E1. injection E1 as <-.
  assert (Hcut : forall d, 32768 <= d < 65536 -> to_int16 (to_uint32 d) = d - 65536).
  { intros d Hd. wrap_arith. }
  assert (Hd : passDelta e st = millis_delta e - lastTime st - 65536)
    by (unfold passDelta; now apply Hcut).
  split; [now rewrite Od, D, Hd|].
  rewrite Hclose, Hopen, Hd in V. cbn [negb] in V.
  unfold viewOf in V. revert V.
  generalize (targetValvePosMsecOf which st') (motorStateOf which st').
  intros msec' motor'.
  unfold valveTick, limitStopView, countDownView. cbn [andb].
  destruct (Z.ltb_spec 0 (targetValvePosMsecOf which st)) as [_|]; [|lia].
  destruct (Z.eqb_spec (motorStateOf which st) 0) as [|_]; [contradiction|].
  cbn [andb negb]. intros [= -> -> _ _].
  rewrite to_int32_id by (unfold is_long; change (2 ^ 31) with 2147483648; lia).
  split_and!; [lia | lia | reflexivity].
Qed.

Lemma late_pass_lengthens_run_witness :
  exists st',
    ((0 = 0 \/ 0 = 1) /\ serialInput late_pass = None /\
     loop usual_linkage late_pass valve0_half_open = Some st' /\
     motorStateOf 0 valve0_half_open <> 0 /\
     0 < targetValvePosMsecOf 0 valve0_half_open < 2 ^ 30 /\
     2 ^ 15 <= millis_delta late_pass - lastTime valve0_half_open < 2 ^ 16 /\
     digitalRead late_pass (closeLimitPinOf 0) = true /\
     digitalRead late_pass (openLimitPinOf 0) = true) /\
    targetValvePosMsecOf 0 valve0_half_open = 2050 /\
    targetValvePosMsecOf 0 st' = 2050 + 25536 /\
    motorStateOf 0 st' = 1.
Proof.
  destruct (loop usual_linkage late_pass valve0_half_open) as [s|] eqn:E;
    [|vm_compute in E; discriminate].
  assert (Hrun : motorStateOf 0 valve0_half_open <> 0) by discriminate.
  assert (Hms : 0 < targetValvePosMsecOf 0 valve0_half_open < 2 ^ 30)
    by (split; reflexivity).
  assert (Hlate : 2 ^ 15 <= millis_delta late_pass - lastTime valve0_half_open < 2 ^ 16)
    by (split; [discriminate | reflexivity]).
  destruct (late_pass_lengthens_run 0 usual_linkage late_pass valve0_half_open s
              (or_introl eq_refl) eq_refl E Hrun Hms Hlate eq_refl eq_refl)
    as (_ & Hm & _ & Hs).
  exists s. split.
  { exact (conj (or_introl eq_refl) (conj eq_refl (conj eq_refl (conj Hrun
             (conj Hms (conj Hlate (conj eq_refl eq_refl))))))). }
  split; [reflexivity|]. split; [exact Hm | exact Hs].
Defined.

(** ** The two writes of [setMotor] *)

Lemma setMotor_in_two_writes which direction st :
  setMotor which direction st =
    (st1 ← setMotor_first_write which direction st;
     Some (setMotor_second_write which direction st1)).
Proof.
  unfold setMotor, setMotor_first_write, setMotor_second_write, motorPinsOf.
  destruct (which =? 0) eqn:E0; [|destruct (which =? 1) eqn:E1];
    cbn [mbind option_bind fst snd]; [| |reflexivity];
    repeat case_if; reflexivity.
Qed.

(** What the invariant between passes leaves open: when a motor that is
    closing (first pin LOW, second pin HIGH) is told to open,
    [setMotor] raises the first pin before it lowers the second, so that
    between its two writes both pins of the motor are HIGH. *)
Theorem reversal_drives_both_pins_high (which : Z) (st : State) :
  which = 0 \/ which = 1 ->
  pinLevel st !! snd (motorPinsOf which) = Some true ->
  exists st1,
    setMotor_first_write which 1 st = Some st1 /\
    pinLevel st1 !! fst (motorPinsOf which) = Some true /\
    pinLevel st1 !! snd (motorPinsOf which) = Some true /\
    setMotor which 1 st = Some (digitalWrite (snd (motorPinsOf which)) false st1).
Proof.
  intros Hw Hhigh. rewrite setMotor_in_two_writes.
  destruct Hw as [-> | ->]; unfold setMotor_first_write, setMotor_second_write;
    cbn [Z.eqb Pos.eqb mbind option_bind motorPinsOf fst snd] in *;
    eexists; (split; [reflexivity|]); unfold digitalWrite; state_simpl;
    revert Hhigh; unfold digitalWrite; state_simpl; intros Hhigh;
    (split; [apply lookup_insert_eq|]);
    (split; [rewrite lookup_insert_ne by (cbv; congruence); exact Hhigh | reflexivity]).
Qed.

Lemma reversal_drives_both_pins_high_witness :
  ((0 = 0 \/ 0 = 1) /\ pinLevel valve0_closing !! snd (motorPinsOf 0) = Some true) /\
  exists st1,
    setMotor_first_write 0 1 valve0_closing = Some st1 /\
    pinLevel st1 !! fst (motorPinsOf 0) = Some true /\
    pinLevel st1 !! snd (motorPinsOf 0) = Some true /\
    setMotor 0 1 valve0_closing = Some (digitalWrite (snd (motorPinsOf 0)) false st1).
Proof.
  assert (Hhigh : pinLevel valve0_closing !! snd (motorPinsOf 0) = Some true)
    by (vm_compute; reflexivity).
  split; [split; [now left | exact Hhigh]|].
  exact (reversal_drives_both_pins_high 0 valve0_closing (or_introl eq_refl) Hhigh).
Defined.
